(** * Diabetes modelling notebook: model selection, evaluation harness,
      attribution ranking, dimensionality reduction and persistence.

    A shallow embedding of the script logic of [modeling_v2.ipynb].  The
    notebook is a sequence of cells that call library routines and aggregate
    what they return.  The routines of the external libraries (the fitting
    of classifiers, of the PCA and of the autoencoder, the metric functions,
    the pseudo-random permutation behind [DataFrame.sample]) are taken as
    section variables; the script logic around them is embedded as written.

    Scores are finite binary64 values in the notebook.  Every such value is
    a rational and their comparison is the comparison of rationals, so the
    scores are modelled as canonical rationals [Qc]; no claim below depends
    on rounding. *)

From Stdlib Require Import QArith Qcanon Qcabs Ascii String.
From stdpp Require Import base numbers option list gmap strings pretty sorting.

Local Open Scope string_scope.

(** ** Python exceptions and fallible results *)

(** Where an exception class that the notebook does not name sits in the
    class hierarchy: under [BaseException] only, under [Exception], or
    under [AttributeError] (and so under [Exception] too). *)
Inductive ancestry : Type :=
  | FromBaseException
  | FromException
  | FromAttributeError.

(** The exceptions that the notebook's cells can meet.  The named classes
    are those of Python and of the libraries the cells call; all of them
    but [KeyboardInterrupt] and [SystemExit] derive from [Exception].
    scikit-learn declares [class NotFittedError(ValueError,
    AttributeError)], so a [NotFittedError] is an instance of both.
    [OtherError] stands for an instance of any other class, with the place
    of that class in the hierarchy. *)
Inductive exn : Type :=
  | AttributeError (msg : string)
  | ValueError (msg : string)
  | TypeError (msg : string)
  | IndexError (msg : string)
  | KeyError (key : string)
  | NameError (name : string)
  | FileNotFoundError (path : string)
  | UnpicklingError (msg : string)
  | EOFError (msg : string)
  | NotFittedError (msg : string)
  | KeyboardInterrupt
  | SystemExit
  | OtherError (cls : string) (base : ancestry) (msg : string).

(** [isinstance(e, AttributeError)], the test that [except AttributeError]
    makes: the class itself and every class that derives from it. *)
Definition is_AttributeError (e : exn) : bool :=
  match e with
  | AttributeError _ | NotFittedError _ => true
  | OtherError _ FromAttributeError _ => true
  | _ => false
  end.

(** [isinstance(e, Exception)], the test that [except Exception] makes. *)
Definition is_Exception (e : exn) : bool :=
  match e with
  | KeyboardInterrupt | SystemExit => false
  | OtherError _ FromBaseException _ => false
  | _ => true
  end.

(** [str(e)], the text an f-string prints for the exception. *)
Definition exn_str (e : exn) : string :=
  match e with
  | AttributeError m | ValueError m | TypeError m | IndexError m
  | UnpicklingError m | EOFError m | NotFittedError m
  | OtherError _ _ m => m
  | KeyError k => "'" +:+ k +:+ "'"
  | NameError n => "name '" +:+ n +:+ "' is not defined"
  | FileNotFoundError p =>
      "[Errno 2] No such file or directory: '" +:+ p +:+ "'"
  | KeyboardInterrupt | SystemExit => ""
  end.

(** A computation either returns a value or raises. *)
Inductive res (A : Type) : Type :=
  | Ok (a : A)
  | Raise (e : exn).
Arguments Ok {A} a.
Arguments Raise {A} e.

#[global] Instance res_ret : MRet res := fun A a => Ok a.

#[global] Instance res_bind : MBind res := fun A B k c =>
  match c with Ok a => k a | Raise e => Raise e end.

(** ** Evaluation results and the comparison table *)

(** The dictionary returned by [evaluate_model]; [M] is the type of the
    fitted model object.  [auc] is Python's [None] or a float. *)
Record Result (M : Type) : Type := mkResult {
  model : M;
  accuracy : Qc;
  precision : Qc;
  recall : Qc;
  f1 : Qc;
  auc : option Qc
}.
Arguments mkResult {M}.
Arguments model {M}.
Arguments accuracy {M}.
Arguments precision {M}.
Arguments recall {M}.
Arguments f1 {M}.
Arguments auc {M}.

(** A row of [comparison_df]; the frame is the list of its rows in index
    order (a [RangeIndex], so a label is a position). *)
Record Row : Type := mkRow {
  Model : string;
  Accuracy : Qc;
  Precision : Qc;
  Recall : Qc;
  F1_Score : Qc;
  AUC : option Qc
}.

Module Selection.

(** The display names of the seven configurations, cell 17. *)
Definition models : list string :=
  ["XGBoost"; "LightGBM"; "XGBoost+PCA"; "LightGBM+PCA";
   "XGBoost+Autoencoder"; "LightGBM+Autoencoder"; "Stacked Ensemble"].

Definition row_of {M} (name : string) (r : Result M) : Row :=
  mkRow name (accuracy r) (precision r) (recall r) (f1 r) (auc r).

(** [pd.DataFrame({'Model': models, 'Accuracy': [...], ...})] *)
Definition comparison_df {M} (results : list (Result M)) : list Row :=
  zip_with row_of models results.

(** The scan of [argmax]: the running best is replaced only by a strictly
    greater value, so the first occurrence of the maximum is kept. *)
Fixpoint argmax_from (best_i : nat) (best : Qc) (i : nat) (xs : list Qc) : nat :=
  match xs with
  | [] => best_i
  | x :: xs' =>
      if bool_decide (best < x)%Qc
      then argmax_from i x (S i) xs'
      else argmax_from best_i best (S i) xs'
  end.

(** [Series.idxmax()] on a column without missing values; on an empty
    column pandas raises, which is [None] here. *)
Definition idxmax (xs : list Qc) : option nat :=
  match xs with
  | [] => None
  | x :: xs' => Some (argmax_from 0 x 1 xs')
  end.

(** [best_model_idx = comparison_df['F1 Score'].idxmax()] *)
Definition best_model_idx (df : list Row) : option nat :=
  idxmax (F1_Score <$> df).

(** [comparison_df.loc[best_model_idx]] *)
Definition best_model_row (df : list Row) : option Row :=
  i ← best_model_idx df; df !! i.

(** [best_model_name = comparison_df.loc[best_model_idx, 'Model']] *)
Definition best_model_name (df : list Row) : option string :=
  Model <$> best_model_row df.

(** [best_model_f1 = comparison_df.loc[best_model_idx, 'F1 Score']] *)
Definition best_model_f1 (df : list Row) : option Qc :=
  F1_Score <$> best_model_row df.

End Selection.

(** ** Feature matrices and labels *)

(** A feature matrix is the list of its rows, a row the list of its
    numeric features; labels are binary. *)
Abbreviation Matrix := (list (list Qc)).
Abbreviation Labels := (list bool).

(** A count as a score. *)
Definition Qc_of_nat (n : nat) : Qc := Q2Qc (inject_Z (Z.of_nat n)).

(** [X.shape] of a two-dimensional array. *)
Definition shape (X : Matrix) : nat * nat :=
  (length X, match X with [] => 0 | r :: _ => length r end).

Module Harness.

(** The state of a classifier object after [model.fit]: its [predict]
    method, and its [predict_proba] attribute when the object has one
    ([None]: looking the attribute up raises AttributeError).  A call of
    either method may itself raise. *)
Record Fitted : Type := mkFitted {
  predict : Matrix -> res Labels;
  predict_proba : option (Matrix -> res Matrix)
}.

(** An estimator passed to the harness: [model.fit(X, y)] fits the object
    in place, or raises. *)
Record Classifier : Type := mkClassifier {
  fit : Matrix -> Labels -> res Fitted
}.

(** [P[:, j]]: an IndexError when a row is too short. *)
Fixpoint column (j : nat) (P : Matrix) : res (list Qc) :=
  match P with
  | [] => Ok []
  | r :: P' =>
      match r !! j with
      | Some x => xs ← column j P'; mret (x :: xs)
      | None => Raise (IndexError "index is out of bounds for axis 1")
      end
  end.

(** [model.predict_proba]: the attribute lookup. *)
Definition getattr_predict_proba (m : Fitted) : res (Matrix -> res Matrix) :=
  match predict_proba m with
  | Some f => Ok f
  | None => Raise (AttributeError "object has no attribute 'predict_proba'")
  end.

Section Metrics.

(** The metric functions of the metrics library. *)
Variables accuracy_score precision_score recall_score f1_score :
  Labels -> Labels -> res Qc.
Variable roc_auc_score : Labels -> list Qc -> res Qc.
Variable confusion_matrix : Labels -> Labels -> res (list (list nat)).

(** The body of the [try]:
    [y_prob = model.predict_proba(X_test)[:, 1]]
    [auc = roc_auc_score(y_test, y_prob)] *)
Definition auc_try_body (m : Fitted) (X_test : Matrix) (y_test : Labels) : res Qc :=
  f ← getattr_predict_proba m;
  P ← f X_test;
  y_prob ← column 1 P;
  roc_auc_score y_test y_prob.

(** [try: ... except AttributeError: auc = None] *)
Definition auc_or_none (m : Fitted) (X_test : Matrix) (y_test : Labels)
  : res (option Qc) :=
  match auc_try_body m X_test y_test with
  | Ok a => Ok (Some a)
  | Raise e => if is_AttributeError e then Ok None else Raise e
  end.

(** [evaluate_model(model, X_train, X_test, y_train, y_test, model_name)].
    The printed lines and the rendering of the heat map are presentation
    and are left out; the confusion matrix is still computed. *)
Definition evaluate_model (model : Classifier)
    (X_train X_test : Matrix) (y_train y_test : Labels)
  : res (Result Fitted) :=
  m ← fit model X_train y_train;
  y_pred ← predict m X_test;
  accuracy ← accuracy_score y_test y_pred;
  precision ← precision_score y_test y_pred;
  recall ← recall_score y_test y_pred;
  f1 ← f1_score y_test y_pred;
  auc ← auc_or_none m X_test y_test;
  cm ← confusion_matrix y_test y_pred;
  mret (mkResult m accuracy precision recall f1 auc).

End Metrics.

(** A classifier "exposes a probability-output operation" when the fitted
    object has the attribute. *)
Definition exposes_proba (m : Fitted) : bool :=
  bool_decide (is_Some (predict_proba m)).

End Harness.

(** ** The metric functions on binary labels

    The metrics library is outside the notebook; these are its documented
    definitions on binary labels, used to run the harness on concrete
    inputs.  A ratio with a zero denominator is 0, as the library reports
    it. *)

Module Metrics.

Definition count (t p : bool) (y_true y_pred : Labels) : nat :=
  length (filter (fun '(a, b) => a = t ∧ b = p) (zip y_true y_pred)).

Definition ratio (n d : nat) : Qc := (Qc_of_nat n / Qc_of_nat d)%Qc.

Definition same_length {A B C} (u : list A) (v : list B) (x : C) : res C :=
  if bool_decide (length u = length v) then Ok x
  else Raise (ValueError "Found input variables with inconsistent numbers of samples").

Definition accuracy_score (y_true y_pred : Labels) : res Qc :=
  same_length y_true y_pred
    (ratio (count true true y_true y_pred + count false false y_true y_pred)
           (length y_true)).

Definition precision_score (y_true y_pred : Labels) : res Qc :=
  same_length y_true y_pred
    (ratio (count true true y_true y_pred)
           (count true true y_true y_pred + count false true y_true y_pred)).

Definition recall_score (y_true y_pred : Labels) : res Qc :=
  same_length y_true y_pred
    (ratio (count true true y_true y_pred)
           (count true true y_true y_pred + count true false y_true y_pred)).

Definition f1_score (y_true y_pred : Labels) : res Qc :=
  same_length y_true y_pred
    (ratio (2 * count true true y_true y_pred)
           (2 * count true true y_true y_pred
            + count false true y_true y_pred + count true false y_true y_pred)).

Definition confusion_matrix (y_true y_pred : Labels) : res (list (list nat)) :=
  same_length y_true y_pred
    [[count false false y_true y_pred; count false true y_true y_pred];
     [count true false y_true y_pred; count true true y_true y_pred]].

(** The scores of the samples of one class. *)
Definition scores_of (c : bool) (y_true : Labels) (y_score : list Qc) : list Qc :=
  snd <$> filter (fun '(a, _) => a = c) (zip y_true y_score).

(** A positive ranked above a negative counts one, a tie a half. *)
Definition pair_rank (p n : Qc) : Qc :=
  if bool_decide (n < p)%Qc then Q2Qc 1
  else if bool_decide (n = p) then Q2Qc (1 # 2) else Q2Qc 0.

Definition roc_auc_score (y_true : Labels) (y_score : list Qc) : res Qc :=
  let pos := scores_of true y_true y_score in
  let neg := scores_of false y_true y_score in
  if bool_decide (length y_true = length y_score) then
    match pos, neg with
    | _ :: _, _ :: _ =>
        Ok (foldr Qcplus (Q2Qc 0) (p ← pos; pair_rank p <$> neg)
            / Qc_of_nat (length pos * length neg))%Qc
    | _, _ =>
        Raise (ValueError "Only one class present in y_true. ROC AUC score is not defined in that case.")
    end
  else Raise (ValueError "Found input variables with inconsistent numbers of samples").

End Metrics.

(** ** Python string operations used by the persistence step *)

Module PyStr.

Fixpoint map_chars (f : ascii -> ascii) (s : string) : string :=
  match s with
  | EmptyString => EmptyString
  | String c s' => String (f c) (map_chars f s')
  end.

(** [s.replace(a, b)] for one-character [a] and [b]. *)
Definition replace (a b : ascii) (s : string) : string :=
  map_chars (fun c => if Ascii.eqb c a then b else c) s.

Definition lower_char (c : ascii) : ascii :=
  let n := nat_of_ascii c in
  if (65 <=? n)%nat && (n <=? 90)%nat then ascii_of_nat (n + 32) else c.

(** [s.lower()] on ASCII text. *)
Definition lower (s : string) : string := map_chars lower_char s.

(** [sub in s] *)
Fixpoint contains (sub s : string) : bool :=
  String.prefix sub s ||
  match s with
  | EmptyString => false
  | String _ s' => contains sub s'
  end.

(** [os.path.join(d, f)] on a POSIX system, for a relative [f]. *)
Definition path_join (d f : string) : string := d +:+ "/" +:+ f.

End PyStr.

(** ** Persistence of the selected model (cell 25) *)

Module Persistence.

(** What a file of the models directory holds: a pickled model, the
    pickled projector, the saved encoder, or the delimited text of the
    feature-importance table. *)
Inductive Artifact (M P E : Type) : Type :=
  | ModelPickle (m : M)
  | ProjectorPickle (p : P)
  | EncoderH5 (e : E)
  | ImportanceCsv (rows : list (string * Qc)).
Arguments ModelPickle {M P E} m.
Arguments ProjectorPickle {M P E} p.
Arguments EncoderH5 {M P E} e.
Arguments ImportanceCsv {M P E} rows.

(** The part of the file system the cell touches: the directories that
    exist and the files with their contents. *)
Record FileSystem (M P E : Type) : Type := mkFS {
  dirs : gset string;
  files : gmap string (Artifact M P E)
}.
Arguments mkFS {M P E}.
Arguments dirs {M P E}.
Arguments files {M P E}.

Section Persist.

Context {M P E : Type}.

Abbreviation FS := (FileSystem M P E).

(** [os.makedirs(d, exist_ok=True)] *)
Definition makedirs (d : string) (fs : FS) : FS :=
  mkFS ({[ d ]} ∪ dirs fs) (files fs).

(** [joblib.dump(obj, path)], [model.save(path)], [df.to_csv(path)]:
    the file is created or overwritten. *)
Definition write_file (path : string) (a : Artifact M P E) (fs : FS) : FS :=
  mkFS (dirs fs) (<[ path := a ]> (files fs)).

(** The seven result bundles of cells 11 to 17, the fitted projector of
    cell 6 and the encoder model of cell 8. *)
Variables xgb_results lgb_results xgb_pca_results lgb_pca_results
          xgb_ae_results lgb_ae_results stacked_results : Result M.
Variable pca : P.
Variable encoder_model : E.

(** The dictionary literal [model_results_map]. *)
Definition model_results_map : gmap string (Result M) :=
  <[ "Stacked Ensemble" := stacked_results ]>
  (<[ "LightGBM with Autoencoder" := lgb_ae_results ]>
  (<[ "XGBoost with Autoencoder" := xgb_ae_results ]>
  (<[ "LightGBM with PCA" := lgb_pca_results ]>
  (<[ "XGBoost with PCA" := xgb_pca_results ]>
  (<[ "LightGBM" := lgb_results ]>
  (<[ "XGBoost" := xgb_results ]> ∅)))))).

(** [f"{best_model_name.replace(' ', '_').lower()}.pkl"] under [models]. *)
Definition model_path (best_model_name : string) : string :=
  PyStr.path_join "models"
    (PyStr.lower (PyStr.replace " " "_" best_model_name) +:+ ".pkl").

Definition pca_path : string := PyStr.path_join "models" "pca_transformer.pkl".
Definition encoder_path : string := PyStr.path_join "models" "autoencoder_encoder.h5".
Definition ensemble_path : string := PyStr.path_join "models" "stacked_ensemble.pkl".
Definition importance_path : string := PyStr.path_join "models" "feature_importance.csv".

Definition fallback_message : string := "Could not find the best model to save.".

(** The body of [if best_model_result:].  A result bundle is a dictionary
    of six entries, hence truthy; the branch is taken exactly when the
    lookup found an entry. *)
Definition save_found (best_model_name : string) (r : Result M) (fs : FS)
  : FS * list string :=
  let fs := write_file (model_path best_model_name) (ModelPickle (model r)) fs in
  let fs :=
    if PyStr.contains "PCA" best_model_name
    then write_file pca_path (ProjectorPickle pca) fs
    else if PyStr.contains "Autoencoder" best_model_name
    then write_file encoder_path (EncoderH5 encoder_model) fs
    else fs in
  let fs := write_file ensemble_path (ModelPickle (model stacked_results)) fs in
  (fs, ["Best model (" +:+ best_model_name +:+ ") saved to "
          +:+ model_path best_model_name;
        "Stacked ensemble model also saved to models/stacked_ensemble.pkl"]).

(** Cell 25 as a whole. *)
Definition save_best_model (best_model_name : string)
    (feature_importance : list (string * Qc)) (fs : FS) : FS * list string :=
  let fs := makedirs "models" fs in
  let best_model_result := model_results_map !! best_model_name in
  let '(fs, out) :=
    match best_model_result with
    | Some r => save_found best_model_name r fs
    | None => (fs, [fallback_message])
    end in
  let fs := write_file importance_path (ImportanceCsv feature_importance) fs in
  (fs, (out ++ ["Feature importance information saved to models/feature_importance.csv"])%list).

End Persist.

(** The display names of cell 17 that are written with a plus sign; the
    keys of [model_results_map] spell them with the word [with]. *)
Definition plus_names : list string :=
  ["XGBoost+PCA"; "LightGBM+PCA"; "XGBoost+Autoencoder"; "LightGBM+Autoencoder"].

End Persistence.

(** ** Attribution analysis (cells 19 to 21) *)

Module Attribution.

(** *** The subsample *)

Section Sample.

(** The generator behind [random_state=42]: [RandomState(seed)] builds a
    fresh generator from the seed, and [permutation n] draws from it,
    advancing it. *)
Variable RandomState : Type.
Variable RandomState_new : nat -> RandomState.
Variable rs_permutation : RandomState -> nat -> list nat * RandomState.

(** [df.take(locs)] *)
Fixpoint take_rows {A} (df : list A) (locs : list nat) : res (list A) :=
  match locs with
  | [] => Ok []
  | i :: locs' =>
      match df !! i with
      | Some r => rs ← take_rows df locs'; mret (r :: rs)
      | None => Raise (IndexError "indices are out-of-bounds")
      end
  end.

(** [df.sample(n, random_state=seed)]: without replacement, the first [n]
    places of a permutation of the row positions drawn from a generator
    made from the seed for this call alone. *)
Definition sample {A} (df : list A) (n : nat) (random_state : nat) : res (list A) :=
  let rs := RandomState_new random_state in
  if bool_decide (length df < n)
  then Raise (ValueError
         "Cannot take a larger sample than population when 'replace=False'")
  else take_rows df (take n (rs_permutation rs (length df)).1).

(** The [if len(X_test) > 1000] block of cells 19 and 21; [shap_values_of]
    is [explainer.shap_values].  It returns [shap_values] and
    [X_test_sample]. *)
Definition shap_on_sample (shap_values_of : Matrix -> res Matrix)
    (X_test : Matrix) : res (Matrix * Matrix) :=
  if bool_decide (1000 < length X_test) then
    explained ← sample X_test 1000 42;
    shap_values ← shap_values_of explained;
    X_test_sample ← sample X_test 1000 42;
    mret (shap_values, X_test_sample)
  else
    shap_values ← shap_values_of X_test;
    mret (shap_values, X_test).

End Sample.

(** *** Mean absolute attribution and its ranking *)

(** [np.abs(V)] *)
Definition np_abs (V : Matrix) : Matrix := fmap (M := list) Qcabs <$> V.

(** The sums of the columns of a matrix. *)
Fixpoint column_sums (V : Matrix) : list Qc :=
  match V with
  | [] => []
  | [r] => r
  | r :: V' => zip_with Qcplus r (column_sums V')
  end.

(** [V.mean(0)] for a matrix with at least one row. *)
Definition mean_axis0 (V : Matrix) : list Qc :=
  (fun s => (s / Qc_of_nat (length V))%Qc) <$> column_sums V.

(** [mean_abs_shap = np.abs(shap_values).mean(0)] *)
Definition mean_abs_shap (shap_values : Matrix) : list Qc :=
  mean_axis0 (np_abs shap_values).

(** The order of [sort_values(..., ascending=False)] on the score. *)
Definition by_score_desc (a b : string * Qc) : Prop := (b.2 ≤ a.2)%Qc.

#[global] Instance by_score_desc_dec : RelDecision by_score_desc.
Proof. intros a b. unfold by_score_desc. apply _. Defined.

(** [feature_importance], cell 20: the table of XGBoost, sorted by
    descending score. *)
Definition feature_importance (columns : list string) (shap_values : Matrix)
  : list (string * Qc) :=
  merge_sort by_score_desc (zip columns (mean_abs_shap shap_values)).

(** [feature_importance_lgb], cell 21: the table of LightGBM, in the order
    of the columns. *)
Definition feature_importance_lgb (columns : list string)
    (shap_values_lgb : Matrix) : list (string * Qc) :=
  zip columns (mean_abs_shap shap_values_lgb).

(** [left.merge(right, on='Feature')]: an inner join that keeps the order
    of the left rows. *)
Definition merge_on_feature (left right : list (string * Qc))
  : list (string * Qc * Qc) :=
  l ← left;
  (fun r => (l.1, l.2, r.2)) <$> filter (fun r => r.1 = l.1) right.

Definition by_xgb_score_desc (a b : string * Qc * Qc) : Prop :=
  (b.1.2 ≤ a.1.2)%Qc.

#[global] Instance by_xgb_score_desc_dec : RelDecision by_xgb_score_desc.
Proof. intros a b. unfold by_xgb_score_desc. apply _. Defined.

(** [feature_importance_merged], sorted on the column [SHAP_Importance],
    which is the score of XGBoost. *)
Definition feature_importance_merged (columns : list string)
    (shap_values shap_values_lgb : Matrix) : list (string * Qc * Qc) :=
  merge_sort by_xgb_score_desc
    (merge_on_feature (feature_importance columns shap_values)
                      (feature_importance_lgb columns shap_values_lgb)).

End Attribution.

(** ** Dimensionality reduction (cells 6 and 8) *)

Module Reduction.

Definition dot (u v : list Qc) : Qc :=
  foldr Qcplus (Q2Qc 0) (zip_with Qcmult u v).

(** *** The linear projection *)

(** What fitting leaves in a PCA object: [mean_] and the rows of
    [components_]. *)
Record PCAParams : Type := mkPCAParams {
  mean_ : list Qc;
  components_ : Matrix
}.

(** A PCA object: its [n_components], its fitted attributes when it has
    been fitted, and, as a ghost field, every matrix it has been fitted
    on, latest first. *)
Record PCA : Type := mkPCA {
  n_components : nat;
  fitted : option PCAParams;
  fitted_on : list Matrix
}.

(** [PCA(n_components=n)] *)
Definition PCA_new (n : nat) : PCA := mkPCA n None [].

(** One row of [(X - mean_) @ components_.T]. *)
Definition project (p : PCAParams) (x : list Qc) : list Qc :=
  (fun c => dot c (zip_with Qcminus x (mean_ p))) <$> components_ p.

(** The check of the number of features on entry to [transform]. *)
Definition check_n_features (p : PCAParams) (X : Matrix) : bool :=
  forallb (fun r => bool_decide (length r = length (mean_ p))) X.

(** The validation of the array on entry to [transform], before that
    check: an array with no row, or with no column, is refused. *)
Definition check_array (X : Matrix) : res unit :=
  if bool_decide (length X = 0)
  then Raise (ValueError
                "Found array with 0 sample(s) while a minimum of 1 is required by PCA.")
  else if bool_decide ((shape X).2 = 0)
  then Raise (ValueError
                "Found array with 0 feature(s) while a minimum of 1 is required by PCA.")
  else Ok ().

(** The two checks together: the matrix has a row and a column, and every
    row has the width of the matrix the attributes were fitted on. *)
Definition accepted (p : PCAParams) (X : Matrix) : Prop :=
  X ≠ [] ∧ (shape X).2 ≠ 0 ∧ check_n_features p X = true.

Section LinearProjection.

(** The solver of the decomposition library: from the number of axes and
    a matrix to the fitted attributes, or an error. *)
Variable pca_fit : nat -> Matrix -> res PCAParams.

(** [pca.fit_transform(X)]: fits the object on [X] and returns it with
    the projection of [X]. *)
Definition fit_transform (pca : PCA) (X : Matrix) : res (PCA * Matrix) :=
  p ← pca_fit (n_components pca) X;
  mret (mkPCA (n_components pca) (Some p) (X :: fitted_on pca), project p <$> X).

(** [pca.transform(X)]: projects [X] with the fitted attributes.  The
    object is returned as well, so that what the call does to it is
    stated and not assumed. *)
Definition transform (pca : PCA) (X : Matrix) : res (PCA * Matrix) :=
  match fitted pca with
  | None => Raise (NotFittedError "This PCA instance is not fitted yet.")
  | Some p =>
      _ ← check_array X;
      if check_n_features p X
      then Ok (pca, project p <$> X)
      else Raise (ValueError "X has a different number of features than PCA is expecting")
  end.

(** One turn of the loop [for n_components in [5, 7, 9]]; the report of
    the explained variance belongs to presentation. *)
Definition pca_trial (X_train X_test : Matrix) (n : nat)
  : res (PCA * Matrix * Matrix) :=
  '(pca, X_train_pca) ← fit_transform (PCA_new n) X_train;
  '(pca, X_test_pca) ← transform pca X_test;
  mret (pca, X_train_pca, X_test_pca).

Fixpoint pca_trials (X_train X_test : Matrix) (ns : list nat) : res (list PCA) :=
  match ns with
  | [] => Ok []
  | n :: ns' =>
      '(pca, _, _) ← pca_trial X_train X_test n;
      rest ← pca_trials X_train X_test ns';
      mret (pca :: rest)
  end.

(** Cell 6: the three trials, then the projector that is kept.  Returns
    the objects of the trials, [pca], [X_train_pca] and [X_test_pca]. *)
Definition cell_pca (X_train X_test : Matrix)
  : res (list PCA * PCA * Matrix * Matrix) :=
  tried ← pca_trials X_train X_test [5; 7; 9];
  '(pca, X_train_pca, X_test_pca) ← pca_trial X_train X_test 7;
  mret (tried, pca, X_train_pca, X_test_pca).

End LinearProjection.

(** *** The encoder network *)

(** A dense layer, one weight vector per output unit, and a batch
    normalisation layer as it acts at inference: an affine map per unit
    with the moving statistics folded into [bn_scale] and [bn_shift]. *)
Record Dense : Type := mkDense { kernel : Matrix; bias : list Qc }.
Record BatchNorm : Type := mkBN { bn_scale : list Qc; bn_shift : list Qc }.

(** The layers of the autoencoder in the order of cell 8. *)
Record Layers : Type := mkLayers {
  enc_dense : Dense;
  enc_norm : BatchNorm;
  bottleneck : Dense;
  dec_dense : Dense;
  dec_norm : BatchNorm;
  dec_out : Dense
}.

(** The [autoencoder] model object.  The encoder model of cell 8 is built
    on the same layers, so both read the weights of this one object.
    [trained_on] is a ghost field: the (input, target) pairs of every
    [fit], latest first. *)
Record Autoencoder : Type := mkAE {
  input_dim : nat;
  layers : Layers;
  trained_on : list (Matrix * Matrix)
}.

Definition relu (x : Qc) : Qc := if bool_decide (0 < x)%Qc then x else Q2Qc 0.

Definition dense (act : Qc -> Qc) (d : Dense) (x : list Qc) : list Qc :=
  act <$> zip_with Qcplus ((fun w => dot w x) <$> kernel d) (bias d).

Definition batch_norm (b : BatchNorm) (x : list Qc) : list Qc :=
  zip_with Qcplus (zip_with Qcmult (bn_scale b) x) (bn_shift b).

(** The encoder half on one row: input to the output of [bottleneck]. *)
Definition encode (l : Layers) (x : list Qc) : list Qc :=
  dense relu (bottleneck l) (batch_norm (enc_norm l) (dense relu (enc_dense l) x)).

Section Encoder.

(** The initial weights for an input dimension and an encoding dimension,
    and the optimiser run of [autoencoder.fit] with its fixed epochs,
    batch size and validation split. *)
Variable init_layers : nat -> nat -> Layers.
Variable keras_fit : Layers -> Matrix -> Matrix -> Layers.

(** [autoencoder.fit(X, Y, ...)] *)
Definition ae_fit (ae : Autoencoder) (X Y : Matrix) : Autoencoder :=
  mkAE (input_dim ae) (keras_fit (layers ae) X Y) ((X, Y) :: trained_on ae).

(** [encoder_model.predict(X)] on the shared layers: every row must have
    the width of the input layer.  The object is returned as well. *)
Definition encoder_predict (ae : Autoencoder) (X : Matrix)
  : res (Autoencoder * Matrix) :=
  if forallb (fun r => bool_decide (length r = input_dim ae)) X
  then Ok (ae, encode (layers ae) <$> X)
  else Raise (ValueError "Input is incompatible with the layer: wrong shape").

(** Cell 8.  Returns the model object, [X_train_encoded] and
    [X_test_encoded]. *)
Definition cell_autoencoder (X_train X_test : Matrix)
  : res (Autoencoder * Matrix * Matrix) :=
  let input_dim := (shape X_train).2 in
  let encoding_dim := 7 in
  let autoencoder := mkAE input_dim (init_layers input_dim encoding_dim) [] in
  let autoencoder := ae_fit autoencoder X_train X_train in
  '(autoencoder, X_train_encoded) ← encoder_predict autoencoder X_train;
  '(autoencoder, X_test_encoded) ← encoder_predict autoencoder X_test;
  mret (autoencoder, X_train_encoded, X_test_encoded).

End Encoder.

End Reduction.

(** ** Loading the input artifact (cell 3) *)

Module Loading.

(** The Python values the loading step handles: a data frame, with its
    column labels and its rows; a one-dimensional array of labels; a list
    of names; [None]. *)
Inductive Value : Type :=
  | VMatrix (columns : list string) (X : Matrix)
  | VLabels (y : Labels)
  | VNames (names : list string)
  | VNone.

(** An unpickled object or a global: a dictionary of values, a value, or
    the file object that [open] returns. *)
Inductive Obj : Type :=
  | ODict (d : gmap string Value)
  | OVal (v : Value)
  | OFile (path : string).

(** The notebook's global names. *)
Abbreviation Env := (gmap string Obj).

(** What running a cell leaves: the globals, the printed lines, and the
    exception that ended the cell, if one did. *)
Record CellRun : Type := mkRun {
  env_after : Env;
  printed : list string;
  raised : option exn
}.

Definition data_path : string := "data/preprocessed_data.pkl".

(** The keys read from the artifact, each into the global of that name. *)
Definition data_keys : list string :=
  ["X_train"; "X_test"; "y_train"; "y_test"; "feature_names"].

(** [d[k]] *)
Definition subscript (d : Obj) (k : string) : res Value :=
  match d with
  | ODict m =>
      match m !! k with
      | Some v => Ok v
      | None => Raise (KeyError k)
      end
  | _ => Raise (TypeError "object is not subscriptable")
  end.

(** The assignments [k = preprocessed_data['k']] in order; an assignment
    made before a failure stays made. *)
Fixpoint assign_keys (data : Obj) (keys : list string) (env : Env)
  : Env * option exn :=
  match keys with
  | [] => (env, None)
  | k :: keys' =>
      match subscript data k with
      | Ok v => assign_keys data keys' (<[ k := OVal v ]> env)
      | Raise e => (env, Some e)
      end
  end.

(** A global name in an expression. *)
Definition load_name (env : Env) (x : string) : res Obj :=
  match env !! x with
  | Some v => Ok v
  | None => Raise (NameError x)
  end.

(** [f"{X.shape}"].  The shape of a frame is the pair of its number of
    rows and its number of columns, also when it has no row; that of a
    one-dimensional array is its length alone.  A list, [None], a
    dictionary and a file have no attribute [shape]. *)
Definition shape_str (v : Obj) : res string :=
  match v with
  | OVal (VMatrix columns X) =>
      Ok ("(" +:+ pretty (length X) +:+ ", " +:+ pretty (length columns) +:+ ")")
  | OVal (VLabels y) => Ok ("(" +:+ pretty (length y) +:+ ",)")
  | _ => Raise (AttributeError "object has no attribute 'shape'")
  end.

Section Load.

(** The files that exist, the unpickler, and the text that an f-string
    gives for an object, [f"{v}"]: Python's and the libraries' own
    rendering of a list, of an index, of a frame. *)
Variable disk : gmap string (list Byte.byte).
Variable pickle_load : list Byte.byte -> res Obj.
Variable format_obj : Obj -> string.

(** [open(path, 'rb')] *)
Definition open_rb (path : string) : res (list Byte.byte) :=
  match disk !! path with
  | Some bytes => Ok bytes
  | None => Raise (FileNotFoundError path)
  end.

(** The two [print] calls that end the [try] body. *)
Definition report_loaded (env : Env) : res (list string) :=
  X_train ← load_name env "X_train";
  s_train ← shape_str X_train;
  X_test ← load_name env "X_test";
  s_test ← shape_str X_test;
  feature_names ← load_name env "feature_names";
  mret ["Data loaded successfully. Training shape: " +:+ s_train
          +:+ ", Test shape: " +:+ s_test;
        "Selected features: " +:+ format_obj feature_names].

(** The body of the [try]: the globals and the lines printed when it
    ends, and the exception that ended it, if one did.  The [with]
    statement binds the global [f] to the file as soon as [open] has
    returned it, and [f] stays bound when the block is left, by its end
    or by an exception. *)
Definition try_load (env : Env) : Env * list string * option exn :=
  match open_rb data_path with
  | Raise e => (env, [], Some e)
  | Ok bytes =>
      let env := <[ "f" := OFile data_path ]> env in
      match pickle_load bytes with
      | Raise e => (env, [], Some e)
      | Ok preprocessed_data =>
          let env := <[ "preprocessed_data" := preprocessed_data ]> env in
          match assign_keys preprocessed_data data_keys env with
          | (env, Some e) => (env, [], Some e)
          | (env, None) =>
              match report_loaded env with
              | Ok lines => (env, lines, None)
              | Raise e => (env, [], Some e)
              end
          end
      end
  end.

(** Cell 3: [try: ... except Exception as e: print(...)].  The clause
    binds the global [e] to the exception for the time of the [print] and
    unbinds it on leaving, whatever [e] held before. *)
Definition cell_load (env : Env) : CellRun :=
  let out := ["Loading preprocessed data..."] in
  match try_load env with
  | (env, lines, None) => mkRun env (out ++ lines)%list None
  | (env, lines, Some e) =>
      if is_Exception e
      then mkRun (delete "e" env)
             (out ++ lines ++ ["Error loading preprocessed data: " +:+ exn_str e])%list
             None
      else mkRun env (out ++ lines)%list (Some e)
  end.

(** The global [x] as a feature matrix. *)
Definition load_matrix (env : Env) (x : string) : res Matrix :=
  v ← load_name env x;
  match v with
  | OVal (VMatrix _ X) => Ok X
  | _ => Raise (TypeError "expected a 2D array")
  end.

(** Cell 6 on the globals: [X_train] is first read by the first
    [fit_transform] of the loop and [X_test] by the [transform] after it. *)
Definition cell_pca_on (pca_fit : nat -> Matrix -> res Reduction.PCAParams)
    (env : Env)
  : res (list Reduction.PCA * Reduction.PCA * Matrix * Matrix) :=
  X_train ← load_matrix env "X_train";
  _ ← Reduction.fit_transform pca_fit (Reduction.PCA_new 5) X_train;
  X_test ← load_matrix env "X_test";
  Reduction.cell_pca pca_fit X_train X_test.

(** Running the notebook from the top as far as cell 6: a cell that ends
    with an exception stops the run, a cell that completes lets it go on. *)
Definition run_to_pca (pca_fit : nat -> Matrix -> res Reduction.PCAParams)
    (env : Env)
  : CellRun * option (res (list Reduction.PCA * Reduction.PCA * Matrix * Matrix)) :=
  let r := cell_load env in
  match raised r with
  | Some _ => (r, None)
  | None => (r, Some (cell_pca_on pca_fit (env_after r)))
  end.

End Load.

End Loading.

(** ** The summary of cell 23 *)

Module Summary.

(** The order of [sort_values('F1 Score', ascending=False)]. *)
Definition by_f1_desc (a b : Row) : Prop := (F1_Score b ≤ F1_Score a)%Qc.

#[global] Instance by_f1_desc_dec : RelDecision by_f1_desc.
Proof. intros a b. unfold by_f1_desc. apply _. Defined.

(** [comparison_df.sort_values('F1 Score', ascending=False)
      .reset_index(drop=True)]: the rows in descending order of F1, their
    positions as the new labels. *)
Definition sorted_comparison (df : list Row) : list Row :=
  merge_sort by_f1_desc df.

(** The builtin [max(a, b)]: the first argument unless the second is
    greater. *)
Definition py_max (a b : Qc) : Qc := if bool_decide (a < b)%Qc then b else a.

(** [original_f1], [pca_f1] and [autoencoder_f1], and the two printed
    differences. *)
Definition original_f1 {M} (xgb_results lgb_results : Result M) : Qc :=
  py_max (f1 xgb_results) (f1 lgb_results).

Definition pca_f1 {M} (xgb_pca_results lgb_pca_results : Result M) : Qc :=
  py_max (f1 xgb_pca_results) (f1 lgb_pca_results).

Definition autoencoder_f1 {M} (xgb_ae_results lgb_ae_results : Result M) : Qc :=
  py_max (f1 xgb_ae_results) (f1 lgb_ae_results).

End Summary.

(** ** The inputs of the dependence and force plots (cell 20) *)

Module Plots.

(** [top_features = feature_importance.head(5)['Feature'].values] *)
Definition top_features (feature_importance : list (string * Qc)) : list string :=
  fst <$> take 5 feature_importance.

(** [list(xs).index(x)]: the first position of [x], a ValueError when
    [x] is not in the list. *)
Fixpoint py_index (xs : list string) (x : string) : res nat :=
  match xs with
  | [] => Raise (ValueError ("'" +:+ x +:+ "' is not in list"))
  | y :: ys =>
      if bool_decide (y = x) then Ok 0
      else i ← py_index ys x; mret (S i)
  end.

(** The loop over [top_features]: the [feature_idx] handed to each
    dependence plot. *)
Fixpoint dependence_plot_indices (columns top : list string) : res (list nat) :=
  match top with
  | [] => Ok []
  | feature :: top' =>
      feature_idx ← py_index columns feature;
      rest ← dependence_plot_indices columns top';
      mret (feature_idx :: rest)
  end.

(** [A[i, :]] and [df.iloc[i, :]] *)
Definition row_at (A : Matrix) (i : nat) : res (list Qc) :=
  match A !! i with
  | Some r => Ok r
  | None => Raise (IndexError "index is out of bounds for axis 0")
  end.

(** The loop [for i in range(3)]: the attribution row and the feature
    row handed to each force plot. *)
Fixpoint force_plot_rows (shap_values X_test_sample : Matrix) (range : list nat)
  : res (list (list Qc * list Qc)) :=
  match range with
  | [] => Ok []
  | i :: range' =>
      v ← row_at shap_values i;
      x ← row_at X_test_sample i;
      rest ← force_plot_rows shap_values X_test_sample range';
      mret ((v, x) :: rest)
  end.

Definition force_plot_inputs (shap_values X_test_sample : Matrix)
  : res (list (list Qc * list Qc)) :=
  force_plot_rows shap_values X_test_sample (seq 0 3).

End Plots.

(** ** Concrete inputs *)

(** A score given in hundredths, as [0.92]. *)
Definition hundredths (n : Z) : Qc := Q2Qc (n # 100).

Module Examples.

(** A table whose last two rows share the greatest F1 score, and the same
    rows in another order. *)
Definition tied_table : list Row :=
  [mkRow "XGBoost" (hundredths 90) (hundredths 90) (hundredths 90) (hundredths 80) None;
   mkRow "LightGBM" (hundredths 91) (hundredths 91) (hundredths 91) (hundredths 92)
     (Some (hundredths 95));
   mkRow "Stacked Ensemble" (hundredths 93) (hundredths 93) (hundredths 93)
     (hundredths 92) (Some (hundredths 96))].

(** A small data set: one feature, the label is its sign. *)
Definition toy_X_train : Matrix :=
  [[hundredths 50]; [hundredths (-50)]; [hundredths 20]; [hundredths (-10)]].
Definition toy_y_train : Labels := [true; false; true; false].
Definition toy_X_test : Matrix :=
  [[hundredths 30]; [hundredths (-40)]; [hundredths (-5)]].
Definition toy_y_test : Labels := [true; false; true].

Definition sign_predict (X : Matrix) : res Labels :=
  Ok ((fun r => bool_decide (Q2Qc 0 < default (Q2Qc 0) (head r))%Qc) <$> X).

Definition sign_proba (X : Matrix) : res Matrix :=
  Ok ((fun r => if bool_decide (Q2Qc 0 < default (Q2Qc 0) (head r))%Qc
                then [hundredths 25; hundredths 75]
                else [hundredths 75; hundredths 25]) <$> X).

(** A classifier with probability output. *)
Definition with_proba : Harness.Classifier :=
  Harness.mkClassifier (fun _ _ => Ok (Harness.mkFitted sign_predict (Some sign_proba))).

(** A classifier without the attribute [predict_proba]. *)
Definition without_proba : Harness.Classifier :=
  Harness.mkClassifier (fun _ _ => Ok (Harness.mkFitted sign_predict None)).

(** A wrapper that has the method [predict_proba] and forwards it to an
    inner estimator without one: the call raises AttributeError. *)
Definition forwarding_proba : Harness.Classifier :=
  Harness.mkClassifier (fun _ _ =>
    Ok (Harness.mkFitted sign_predict
          (Some (fun _ => Raise (AttributeError
                   "'LinearSVC' object has no attribute 'predict_proba'"))))).

(** A meta-estimator whose [predict_proba] first checks an inner estimator
    that [fit] has not fitted: the call raises scikit-learn's
    NotFittedError. *)
Definition unfitted_inner_proba : Harness.Classifier :=
  Harness.mkClassifier (fun _ _ =>
    Ok (Harness.mkFitted sign_predict
          (Some (fun _ => Raise (NotFittedError
                   "This LogisticRegression instance is not fitted yet."))))).

(** A classifier whose [predict_proba] rejects its input. *)
Definition rejecting_proba : Harness.Classifier :=
  Harness.mkClassifier (fun _ _ =>
    Ok (Harness.mkFitted sign_predict
          (Some (fun _ => Raise (ValueError "Feature shape mismatch"))))).

(** The harness with the metric functions of [Metrics]. *)
Definition evaluate (model : Harness.Classifier) : res (Result Harness.Fitted) :=
  Harness.evaluate_model Metrics.accuracy_score Metrics.precision_score
    Metrics.recall_score Metrics.f1_score Metrics.roc_auc_score
    Metrics.confusion_matrix model toy_X_train toy_X_test toy_y_train toy_y_test.

(** Seven result bundles, the models named by tags, among which XGBoost
    on the PCA features has the greatest F1 score. *)
Definition bundle (tag : string) (f1_hundredths : Z) : Result string :=
  mkResult tag (hundredths 90) (hundredths 90) (hundredths 90)
    (hundredths f1_hundredths) (Some (hundredths 95)).

Definition pca_wins : list (Result string) :=
  [bundle "xgb" 88; bundle "lgb" 89; bundle "xgb_pca" 93; bundle "lgb_pca" 90;
   bundle "xgb_ae" 85; bundle "lgb_ae" 86; bundle "stacked" 92].

(** Cell 25 on those bundles, from an empty file system. *)
Definition save_pca_wins (best_model_name : string)
  : Persistence.FileSystem string string string * list string :=
  Persistence.save_best_model
    (bundle "xgb" 88) (bundle "lgb" 89) (bundle "xgb_pca" 93) (bundle "lgb_pca" 90)
    (bundle "xgb_ae" 85) (bundle "lgb_ae" 86) (bundle "stacked" 92)
    "pca" "encoder_model" best_model_name [("glucose", hundredths 40)]
    (Persistence.mkFS ∅ ∅).

(** A generator whose permutation of [n] positions is their reversal,
    and a test set of 1001 rows of one feature. *)
Definition reversing_permutation (rs : nat) (n : nat) : list nat * nat :=
  (reverse (seq 0 n), S rs).

Definition big_X_test : Matrix := (fun i => [Qc_of_nat i]) <$> seq 0 1001.

(** Attribution values that copy the features. *)
Definition copy_attribution (X : Matrix) : res Matrix := Ok X.

(** Two features with the attribution values of two samples: XGBoost
    leans on glucose, LightGBM on bmi. *)
Definition two_features : list string := ["glucose"; "bmi"].

Definition xgb_shap : Matrix :=
  [[Q2Qc 2; Q2Qc (-1)]; [Q2Qc (-2); Q2Qc 1]].

Definition lgb_shap : Matrix :=
  [[Q2Qc 1; Q2Qc (-3)]; [Q2Qc (-1); Q2Qc 3]].

(** A stand-in for the solver of the decomposition library: the column
    means and the first [n] coordinate axes; like the library it refuses
    more axes than there are rows or features. *)
Definition unit_vector (d j : nat) : list Qc :=
  (fun k => if bool_decide (k = j) then Q2Qc 1 else Q2Qc 0) <$> seq 0 d.

Definition axis_aligned_fit (n : nat) (X : Matrix) : res Reduction.PCAParams :=
  let d := (shape X).2 in
  if bool_decide (n ≤ length X `min` d)%nat
  then Ok (Reduction.mkPCAParams (Attribution.mean_axis0 X)
             (unit_vector d <$> seq 0 n))
  else Raise (ValueError
         "n_components must be between 0 and min(n_samples, n_features)").

(** A data set of nine features, wide enough for the trials of cell 6. *)
Definition nine_features (i : nat) : list Qc :=
  (fun k => Qc_of_nat (i * k + k)) <$> seq 0 9.

Definition X_train_12x9 : Matrix := nine_features <$> seq 0 12.
Definition X_test_3x9 : Matrix := nine_features <$> seq 12 3.

(** An unpickler that finds its input truncated, and one that yields a
    well-formed artifact. *)
Definition corrupt_pickle (bytes : list Byte.byte) : res Loading.Obj :=
  Raise (UnpicklingError "pickle data was truncated").

Definition short_pickle (bytes : list Byte.byte) : res Loading.Obj :=
  Ok (Loading.ODict {[ "X_train" := Loading.VMatrix ["glucose"] toy_X_train ]}).

Definition good_pickle (bytes : list Byte.byte) : res Loading.Obj :=
  Ok (Loading.ODict
        (<[ "feature_names" := Loading.VNames ["glucose"] ]>
         (<[ "y_test" := Loading.VLabels toy_y_test ]>
          (<[ "y_train" := Loading.VLabels toy_y_train ]>
           (<[ "X_test" := Loading.VMatrix ["glucose"] toy_X_test ]>
            (<[ "X_train" := Loading.VMatrix ["glucose"] toy_X_train ]> ∅)))))).

(** The text of a list of names that hold no quote, backslash or control
    character, as Python prints it; the examples print no other object. *)
Definition show_names (v : Loading.Obj) : string :=
  match v with
  | Loading.OVal (Loading.VNames l) =>
      "[" +:+ String.concat ", " ((fun n => "'" +:+ n +:+ "'") <$> l) +:+ "]"
  | _ => ""
  end.

End Examples.

(** ** Further concrete inputs *)

Module MoreExamples.

(** A pipeline whose inner estimator is missing: [predict] raises
    AttributeError. *)
Definition unfitted_predict : Harness.Classifier :=
  Harness.mkClassifier (fun _ _ =>
    Ok (Harness.mkFitted
          (fun _ => Raise (AttributeError
                      "'NoneType' object has no attribute 'predict'"))
          (Some Examples.sign_proba))).

(** An unpickling that the user interrupts. *)
Definition interrupted_pickle (bytes : list Byte.byte) : res Loading.Obj :=
  Raise KeyboardInterrupt.

(** A kernel in which an earlier run has left a global. *)
Definition kernel_with_model : gmap string Loading.Obj :=
  {[ "xgb_model" := Loading.OVal Loading.VNone ]}.

(** A data set of eight features: too narrow for the trial with nine
    axes. *)
Definition eight_features (i : nat) : list Qc :=
  (fun k => Qc_of_nat (i * k + k)) <$> seq 0 8.

Definition X_train_12x8 : Matrix := eight_features <$> seq 0 12.
Definition X_test_3x8 : Matrix := eight_features <$> seq 12 3.

(** The layers of a small autoencoder on one feature, with a bottleneck
    of two units. *)
Definition small_layers : Reduction.Layers :=
  Reduction.mkLayers
    (Reduction.mkDense [[Q2Qc 1]; [Q2Qc (-1)]] [Q2Qc 0; Q2Qc 0])
    (Reduction.mkBN [Q2Qc 1; Q2Qc 2] [Q2Qc 0; hundredths (-10)])
    (Reduction.mkDense [[Q2Qc 1; Q2Qc (-2)]; [Q2Qc (-3); Q2Qc 1]]
       [hundredths (-5); hundredths 5])
    (Reduction.mkDense [[Q2Qc 1; Q2Qc 1]] [Q2Qc 0])
    (Reduction.mkBN [Q2Qc 1] [Q2Qc 0])
    (Reduction.mkDense [[Q2Qc 1]] [Q2Qc 0]).

End MoreExamples.

(** * Properties *)

(** ** Model selection *)

Section SelectionProps.

Import Selection Examples.

Local Open Scope Qc_scope.
Local Open Scope list_scope.

(** The invariant of the scan: [best] sits at [best_i] in the part
    already read, nothing read is greater, and everything before
    [best_i] is smaller. *)
Lemma argmax_from_spec (xs pre : list Qc) (best_i : nat) (best : Qc) :
  pre !! best_i = Some best →
  (∀ j w, pre !! j = Some w → w ≤ best) →
  (∀ j w, (j < best_i)%nat → pre !! j = Some w → w < best) →
  ∃ v, (pre ++ xs) !! argmax_from best_i best (length pre) xs = Some v
     ∧ (∀ j w, (pre ++ xs) !! j = Some w → w ≤ v)
     ∧ (∀ j w, (j < argmax_from best_i best (length pre) xs)%nat →
               (pre ++ xs) !! j = Some w → w < v).
Proof.
  revert pre best_i best.
  induction xs as [|x xs IH]; intros pre best_i best Hbest Hmax Hfirst.
  - simpl. rewrite app_nil_r. eauto.
  - assert (Hlen : length (pre ++ [x]) = S (length pre))
      by (rewrite length_app; simpl; lia).
    assert (Hin : (best_i < length pre)%nat) by (by eapply lookup_lt_Some).
    simpl. rewrite (cons_middle x pre xs), app_assoc.
    case_bool_decide as Hlt.
    + specialize (IH (pre ++ [x]) (length pre) x). rewrite Hlen in IH.
      apply IH.
      * rewrite lookup_app_r by lia. by rewrite Nat.sub_diag.
      * intros j w Hj. apply lookup_app_Some in Hj as [Hj|[_ Hj]].
        -- apply Qclt_le_weak. eapply Qcle_lt_trans; [by eapply Hmax|done].
        -- apply list_lookup_singleton_Some in Hj as [_ <-]. apply Qcle_refl.
      * intros j w Hj Hw. rewrite lookup_app_l in Hw by done.
        eapply Qcle_lt_trans; [by eapply Hmax|done].
    + specialize (IH (pre ++ [x]) best_i best). rewrite Hlen in IH.
      apply IH.
      * by rewrite lookup_app_l.
      * intros j w Hj. apply lookup_app_Some in Hj as [Hj|[_ Hj]].
        -- by eapply Hmax.
        -- apply list_lookup_singleton_Some in Hj as [_ <-].
           by apply Qcle_ngt.
      * intros j w Hj Hw.
        rewrite lookup_app_l in Hw by lia. by eapply Hfirst.
Qed.

(** [idxmax] returns the first position of the greatest value. *)
Lemma idxmax_spec (xs : list Qc) (i : nat) :
  idxmax xs = Some i →
  ∃ v, xs !! i = Some v
     ∧ (∀ j w, xs !! j = Some w → w ≤ v)
     ∧ (∀ j w, (j < i)%nat → xs !! j = Some w → w < v).
Proof.
  destruct xs as [|x xs]; [done|]. simpl. intros [= <-].
  apply (argmax_from_spec xs [x] 0 x).
  - done.
  - intros [|j] w; simpl; [intros [= <-]; apply Qcle_refl | done].
  - intros j w Hj. lia.
Qed.

Lemma idxmax_is_Some (xs : list Qc) : xs ≠ [] → is_Some (idxmax xs).
Proof. destruct xs; [done|]. simpl. eauto. Qed.

(** The selected row of a frame with at least one row. *)
Lemma best_model_row_spec (df : list Row) :
  df ≠ [] →
  ∃ i r, best_model_idx df = Some i ∧ df !! i = Some r
       ∧ best_model_row df = Some r
       ∧ (∀ s, s ∈ df → F1_Score s ≤ F1_Score r)
       ∧ (∀ j s, (j < i)%nat → df !! j = Some s → F1_Score s < F1_Score r).
Proof.
  intros Hne.
  destruct (idxmax_is_Some (F1_Score <$> df)) as [i Hi].
  { by destruct df. }
  destruct (idxmax_spec _ _ Hi) as (v & Hv & Hmax & Hfirst).
  rewrite list_lookup_fmap in Hv.
  destruct (df !! i) as [r|] eqn:Hr; [|done]. simpl in Hv.
  injection Hv as <-.
  exists i, r. repeat split; try done.
  - unfold best_model_row, best_model_idx. rewrite Hi. simpl. done.
  - intros s Hs. apply list_elem_of_lookup in Hs as [j Hj].
    apply (Hmax j). by rewrite list_lookup_fmap, Hj.
  - intros j s Hj Hs. apply (Hfirst j); [done|].
    by rewrite list_lookup_fmap, Hs.
Qed.

(** C1. Model selection takes the row of greatest F1 score among the
    seven configurations of the comparison table, the first such row in
    the order of the table when several share it; the score selected does
    not depend on the order of the rows, nor does the row when no other
    row shares the maximum; a table with the F1 scores 0.80, 0.92 and
    0.85 in any order selects the row with 0.92. *)
Theorem best_model_is_first_row_of_max_f1 :
  (∀ (M : Type)
     (xgb_results lgb_results xgb_pca_results lgb_pca_results
      xgb_ae_results lgb_ae_results stacked_results : Result M),
     let results := [xgb_results; lgb_results; xgb_pca_results; lgb_pca_results;
                     xgb_ae_results; lgb_ae_results; stacked_results] in
     let df := comparison_df results in
     F1_Score <$> df = f1 <$> results ∧ Model <$> df = models ∧
     ∃ i r, (i < 7)%nat ∧ best_model_idx df = Some i ∧ df !! i = Some r
          ∧ best_model_name df = Some (Model r)
          ∧ best_model_f1 df = Some (F1_Score r)
          ∧ (∀ s, s ∈ df → F1_Score s ≤ F1_Score r)
          ∧ (∀ j s, (j < i)%nat → df !! j = Some s → F1_Score s < F1_Score r))
  ∧ (∀ df df' : list Row,
       df ≠ [] → df ≡ₚ df' →
       ∃ r r', best_model_row df = Some r ∧ best_model_row df' = Some r'
             ∧ F1_Score r' = F1_Score r
             ∧ ((∀ s, s ∈ df → F1_Score s = F1_Score r → s = r) → r' = r))
  ∧ (∀ df : list Row,
       F1_Score <$> df ≡ₚ [hundredths 80; hundredths 92; hundredths 85] →
       ∃ r, best_model_row df = Some r ∧ r ∈ df
          ∧ F1_Score r = hundredths 92
          ∧ best_model_f1 df = Some (hundredths 92)).
Proof.
  split; [|split].
  - intros M r1 r2 r3 r4 r5 r6 r7 results df.
    split; [done|]. split; [done|].
    destruct (best_model_row_spec df) as (i & r & Hi & Hr & Hrow & Hmax & Hfirst);
      [done|].
    exists i, r. repeat split; try done.
    + apply lookup_lt_Some in Hr. exact Hr.
    + unfold best_model_name. by rewrite Hrow.
    + unfold best_model_f1. by rewrite Hrow.
  - intros df df' Hne Hperm.
    destruct (best_model_row_spec df Hne) as (i & r & _ & Hr & Hrow & Hmax & _).
    destruct (best_model_row_spec df') as (i' & r' & _ & Hr' & Hrow' & Hmax' & _).
    { intros ->. by apply Permutation_nil_r in Hperm. }
    assert (Hin : r ∈ df') by (rewrite <- Hperm; by eapply list_elem_of_lookup_2).
    assert (Hin' : r' ∈ df) by (rewrite Hperm; by eapply list_elem_of_lookup_2).
    assert (Heq : F1_Score r' = F1_Score r) by (apply Qcle_antisym; auto).
    exists r, r'. repeat split; try done.
    intros Huniq. by apply Huniq.
  - intros df Hperm.
    assert (Hne : df ≠ []).
    { intros ->. by apply Permutation_nil_cons in Hperm. }
    destruct (best_model_row_spec df Hne) as (i & r & _ & Hr & Hrow & Hmax & _).
    assert (Hrin : r ∈ df) by (by eapply list_elem_of_lookup_2).
    assert (Hin : F1_Score r ∈ F1_Score <$> df).
    { apply list_elem_of_fmap. by exists r. }
    exists r. split; [done|]. split; [done|].
    unfold best_model_f1. rewrite Hrow. simpl.
    cut (F1_Score r = hundredths 92); [by intros ->|].
    assert (H92 : hundredths 92 ∈ F1_Score <$> df).
    { rewrite Hperm. apply elem_of_cons. right. apply elem_of_cons. by left. }
    apply list_elem_of_fmap in H92 as (s & Hs & Hsin).
    apply Hmax in Hsin. rewrite <- Hs in Hsin.
    rewrite Hperm in Hin.
    apply elem_of_cons in Hin as [Hin|Hin]; [|apply elem_of_cons in Hin as [Hin|Hin]].
    + rewrite Hin in Hsin. vm_compute in Hsin. destruct (Hsin eq_refl).
    + done.
    + apply list_elem_of_singleton in Hin. rewrite Hin in Hsin.
      vm_compute in Hsin. destruct (Hsin eq_refl).
Qed.

Lemma best_model_is_first_row_of_max_f1_witness :
  ∃ r r', best_model_row tied_table = Some r
        ∧ best_model_row (reverse tied_table) = Some r'
        ∧ F1_Score r' = F1_Score r
        ∧ ((∀ s, s ∈ tied_table → F1_Score s = F1_Score r → s = r) → r' = r).
Proof.
  apply (proj1 (proj2 best_model_is_first_row_of_max_f1) tied_table
           (reverse tied_table)).
  - discriminate.
  - symmetry. apply reverse_Permutation.
Defined.

(** With a tie the first of the tied rows in the order of the table is
    selected. *)
Example tie_selects_first_occurrence :
  best_model_name tied_table = Some "LightGBM"
  ∧ best_model_name (reverse tied_table) = Some "Stacked Ensemble".
Proof. split; reflexivity. Qed.

End SelectionProps.

(** ** The evaluation harness *)

Section HarnessProps.

Import Harness.

Variables accuracy_score precision_score recall_score f1_score :
  Labels -> Labels -> res Qc.
Variable roc_auc_score : Labels -> list Qc -> res Qc.
Variable confusion_matrix : Labels -> Labels -> res (list (list nat)).

Let auc_body := auc_try_body roc_auc_score.
Let auc_opt := auc_or_none roc_auc_score.
Let evaluate := evaluate_model accuracy_score precision_score recall_score
                  f1_score roc_auc_score confusion_matrix.

(** Where the body of the [try] can raise: at the lookup of the
    attribute, in the call, at the selection of the column, or in the
    computation of the AUC. *)
Lemma auc_try_body_raise (m : Fitted) (X_test : Matrix) (y_test : Labels) (e : exn) :
  auc_body m X_test y_test = Raise e ↔
    (predict_proba m = None
     ∧ e = AttributeError "object has no attribute 'predict_proba'")
    ∨ (∃ f, predict_proba m = Some f
          ∧ (f X_test = Raise e
             ∨ ∃ P, f X_test = Ok P
                  ∧ (column 1 P = Raise e
                     ∨ ∃ y_prob, column 1 P = Ok y_prob
                               ∧ roc_auc_score y_test y_prob = Raise e))).
Proof.
  unfold auc_body, auc_try_body, getattr_predict_proba.
  destruct (predict_proba m) as [f|]; simpl.
  - split.
    + intros H. right. exists f. split; [done|].
      destruct (f X_test) as [P|e1]; simpl in H; [|left; congruence].
      right. exists P. split; [done|].
      destruct (column 1 P) as [y|e2]; simpl in H; [|left; congruence].
      right. eauto.
    + intros [[? _]|(f' & [= <-] & H)]; [done|].
      destruct H as [->|(P & -> & H)]; [done|]. simpl.
      destruct H as [->|(y & -> & H)]; [done|]. done.
  - split.
    + intros [= <-]. by left.
    + intros [[_ ->]|(f & ? & _)]; done.
Qed.

(** The metrics are computed before the [try], so a bundle that is
    returned carries all four. *)
Lemma evaluate_model_Ok (model : Classifier) (X_train X_test : Matrix)
    (y_train y_test : Labels) (b : Result Fitted) :
  evaluate model X_train X_test y_train y_test = Ok b ↔
  ∃ m y_pred a p r f o cm,
    fit model X_train y_train = Ok m ∧ predict m X_test = Ok y_pred
    ∧ accuracy_score y_test y_pred = Ok a
    ∧ precision_score y_test y_pred = Ok p
    ∧ recall_score y_test y_pred = Ok r
    ∧ f1_score y_test y_pred = Ok f
    ∧ auc_opt m X_test y_test = Ok o
    ∧ confusion_matrix y_test y_pred = Ok cm
    ∧ b = mkResult m a p r f o.
Proof.
  unfold evaluate, evaluate_model, auc_opt. split.
  - intros H.
    destruct (fit model X_train y_train) as [m|] eqn:Hm; simpl in H; [|done].
    destruct (predict m X_test) as [y_pred|] eqn:Hy; simpl in H; [|done].
    destruct (accuracy_score y_test y_pred) as [a|] eqn:Ha; simpl in H; [|done].
    destruct (precision_score y_test y_pred) as [p|] eqn:Hp; simpl in H; [|done].
    destruct (recall_score y_test y_pred) as [r|] eqn:Hr; simpl in H; [|done].
    destruct (f1_score y_test y_pred) as [f|] eqn:Hf; simpl in H; [|done].
    destruct (auc_or_none roc_auc_score m X_test y_test) as [o|] eqn:Ho;
      simpl in H; [|done].
    destruct (confusion_matrix y_test y_pred) as [cm|] eqn:Hcm; simpl in H; [|done].
    injection H as <-. by exists m, y_pred, a, p, r, f, o, cm.
  - intros (m & y_pred & a & p & r & f & o & cm
            & Hm & Hy & Ha & Hp & Hr & Hf & Ho & Hcm & ->).
    rewrite Hm. simpl. rewrite Hy. simpl. rewrite Ha, Hp, Hr, Hf. simpl.
    rewrite Ho. simpl. by rewrite Hcm.
Qed.

Lemma auc_or_none_Some (m : Fitted) (X_test : Matrix) (y_test : Labels) (a : Qc) :
  auc_opt m X_test y_test = Ok (Some a) ↔ auc_body m X_test y_test = Ok a.
Proof.
  unfold auc_opt, auc_or_none, auc_body.
  destruct (auc_try_body roc_auc_score m X_test y_test) as [a'|e].
  - split; congruence.
  - destruct (is_AttributeError e); split; congruence.
Qed.

Lemma auc_or_none_None (m : Fitted) (X_test : Matrix) (y_test : Labels) :
  auc_opt m X_test y_test = Ok None ↔
  ∃ e, auc_body m X_test y_test = Raise e ∧ is_AttributeError e = true.
Proof.
  unfold auc_opt, auc_or_none, auc_body.
  destruct (auc_try_body roc_auc_score m X_test y_test) as [a'|e].
  - split; [done|]. intros (e & ? & _). done.
  - destruct (is_AttributeError e) eqn:He; split; try done.
    + intros _. eauto.
    + intros (e' & [= <-] & ?). congruence.
Qed.

Lemma auc_or_none_Raise (m : Fitted) (X_test : Matrix) (y_test : Labels) (e : exn) :
  auc_opt m X_test y_test = Raise e ↔
  auc_body m X_test y_test = Raise e ∧ is_AttributeError e = false.
Proof.
  unfold auc_opt, auc_or_none, auc_body.
  destruct (auc_try_body roc_auc_score m X_test y_test) as [a'|e'].
  - split; [done|]. by intros [? _].
  - destruct (is_AttributeError e') eqn:He; split; try done.
    + intros [[= <-] ?]. congruence.
    + intros [= <-]. done.
    + intros [[= <-] _]. done.
Qed.

(** C2, as amended. A bundle that the harness returns carries accuracy,
    precision, recall and F1.  Its AUC is absent exactly when the body of
    the [try] raised an instance of AttributeError (the class itself or a
    class deriving from it, such as scikit-learn's NotFittedError), and is
    otherwise the computed AUC.  A present AUC means that the fitted
    object has the attribute [predict_proba]; an object without the
    attribute gets an absent AUC, never a number; an object whose
    [predict_proba] returns a matrix with a second column on which the
    AUC function returns gets that AUC.  When the attribute is missing
    and the fit, the prediction and the metric functions succeed, the
    harness returns the bundle with the four metrics and an absent AUC. *)
Theorem auc_absent_exactly_on_attribute_error
    (cls : Classifier) (X_train X_test : Matrix) (y_train y_test : Labels) :
  (∀ b : Result Fitted,
     evaluate cls X_train X_test y_train y_test = Ok b →
     (∃ y_pred, fit cls X_train y_train = Ok (model b)
        ∧ predict (model b) X_test = Ok y_pred
        ∧ accuracy_score y_test y_pred = Ok (accuracy b)
        ∧ precision_score y_test y_pred = Ok (precision b)
        ∧ recall_score y_test y_pred = Ok (recall b)
        ∧ f1_score y_test y_pred = Ok (f1 b))
     ∧ (auc b = None ↔
          ∃ e, auc_body (model b) X_test y_test = Raise e
             ∧ is_AttributeError e = true)
     ∧ (∀ a, auc b = Some a ↔ auc_body (model b) X_test y_test = Ok a)
     ∧ (is_Some (auc b) → exposes_proba (model b) = true)
     ∧ (exposes_proba (model b) = false → auc b = None)
     ∧ (∀ proba P y_prob a,
          predict_proba (model b) = Some proba →
          proba X_test = Ok P →
          column 1 P = Ok y_prob →
          roc_auc_score y_test y_prob = Ok a →
          auc b = Some a))
  ∧ (∀ (m : Fitted) (y_pred : Labels) (a p r f : Qc) (cm : list (list nat)),
       fit cls X_train y_train = Ok m →
       predict m X_test = Ok y_pred →
       accuracy_score y_test y_pred = Ok a →
       precision_score y_test y_pred = Ok p →
       recall_score y_test y_pred = Ok r →
       f1_score y_test y_pred = Ok f →
       confusion_matrix y_test y_pred = Ok cm →
       exposes_proba m = false →
       evaluate cls X_train X_test y_train y_test = Ok (mkResult m a p r f None)).
Proof.
  assert (Hunexposed : ∀ m, exposes_proba m = false →
            auc_opt m X_test y_test = Ok None).
  { intros m Hm. apply auc_or_none_None.
    exists (AttributeError "object has no attribute 'predict_proba'").
    split; [|done]. apply auc_try_body_raise. left. split; [|done].
    unfold exposes_proba in Hm. apply bool_decide_eq_false in Hm.
    destruct (predict_proba m); [|done]. destruct Hm. eauto. }
  split.
  - intros b Hb.
    apply evaluate_model_Ok in Hb
      as (m & y_pred & a & p & r & f & o & cm
          & Hm & Hy & Ha & Hp & Hr & Hf & Ho & Hcm & ->).
    simpl. split; [by exists y_pred|].
    assert (Hpresent : ∀ x, o = Some x ↔ auc_body m X_test y_test = Ok x).
    { intros x. rewrite <- auc_or_none_Some. fold auc_opt. rewrite Ho.
      split; congruence. }
    assert (Hexp : exposes_proba m = false → o = None).
    { intros Hfalse. apply Hunexposed in Hfalse. congruence. }
    split; [|split; [done|split; [|split; [done|]]]].
    + rewrite <- auc_or_none_None. fold auc_opt. rewrite Ho. split; congruence.
    + intros [x ->]. destruct (exposes_proba m); [done|].
      by specialize (Hexp eq_refl).
    + intros proba P y_prob x Hproba HP Hcol Hauc. apply Hpresent.
      unfold auc_body, auc_try_body, getattr_predict_proba.
      rewrite Hproba. simpl. rewrite HP. simpl. rewrite Hcol. simpl. done.
  - intros m y_pred a p r f cm Hm Hy Ha Hp Hr Hf Hcm Hfalse.
    apply evaluate_model_Ok.
    exists m, y_pred, a, p, r, f, None, cm. repeat split; try done.
    by apply Hunexposed.
Qed.

(** C10. Of the exceptions raised inside the [try] (by the lookup or the
    call of [predict_proba], the selection of the column or the
    computation of the AUC), an instance of AttributeError is caught and
    gives an absent AUC, after which the harness goes on to the confusion
    matrix: that is an AttributeError itself, scikit-learn's
    NotFittedError, which derives from it, and an instance of any other
    class deriving from it.  Every other exception (ValueError, TypeError,
    IndexError, KeyError and the rest, KeyboardInterrupt and SystemExit
    included) leaves the [try] and ends [evaluate_model] with that
    exception. *)
Theorem only_attribute_error_gives_absent_auc
    (cls : Classifier) (X_train X_test : Matrix) (y_train y_test : Labels)
    (m : Fitted) (y_pred : Labels) (a p r f : Qc) (e : exn) :
  fit cls X_train y_train = Ok m →
  predict m X_test = Ok y_pred →
  accuracy_score y_test y_pred = Ok a →
  precision_score y_test y_pred = Ok p →
  recall_score y_test y_pred = Ok r →
  f1_score y_test y_pred = Ok f →
  auc_body m X_test y_test = Raise e →
  match e with
  | AttributeError _ | NotFittedError _ | OtherError _ FromAttributeError _ =>
      auc_opt m X_test y_test = Ok None
      ∧ evaluate cls X_train X_test y_train y_test
        = (cm ← confusion_matrix y_test y_pred; mret (mkResult m a p r f None))
  | ValueError _ | TypeError _ | IndexError _ | KeyError _ | NameError _
  | FileNotFoundError _ | UnpicklingError _ | EOFError _
  | KeyboardInterrupt | SystemExit
  | OtherError _ FromException _ | OtherError _ FromBaseException _ =>
      auc_opt m X_test y_test = Raise e
      ∧ evaluate cls X_train X_test y_train y_test = Raise e
  end.
Proof.
  intros Hm Hy Ha Hp Hr Hf He.
  assert (Hev : evaluate cls X_train X_test y_train y_test
                = (o ← auc_opt m X_test y_test;
                   cm ← confusion_matrix y_test y_pred;
                   mret (mkResult m a p r f o))).
  { unfold evaluate, evaluate_model. rewrite Hm. simpl. rewrite Hy. simpl.
    by rewrite Ha, Hp, Hr, Hf. }
  assert (Hcaught : is_AttributeError e = true →
            auc_opt m X_test y_test = Ok None
            ∧ evaluate cls X_train X_test y_train y_test
              = (cm ← confusion_matrix y_test y_pred;
                 mret (mkResult m a p r f None))).
  { intros Hattr.
    assert (Ho : auc_opt m X_test y_test = Ok None)
      by (apply auc_or_none_None; eauto).
    split; [done|]. by rewrite Hev, Ho. }
  assert (Hleaves : is_AttributeError e = false →
            auc_opt m X_test y_test = Raise e
            ∧ evaluate cls X_train X_test y_train y_test = Raise e).
  { intros Hattr.
    assert (Ho : auc_opt m X_test y_test = Raise e)
      by (by apply auc_or_none_Raise).
    split; [done|]. by rewrite Hev, Ho. }
  destruct e as [| | | | | | | | | | | |c [] msg];
    first [by apply Hcaught | by apply Hleaves].
Qed.

End HarnessProps.

(** The harness run on the concrete classifiers. *)

Lemma auc_absent_exactly_on_attribute_error_witness :
  Examples.evaluate Examples.without_proba
  = Ok (mkResult (Harness.mkFitted Examples.sign_predict None)
          (Q2Qc (2 # 3)) (Q2Qc 1) (Q2Qc (1 # 2)) (Q2Qc (2 # 3)) None).
Proof.
  eapply (proj2 (auc_absent_exactly_on_attribute_error
                   Metrics.accuracy_score Metrics.precision_score
                   Metrics.recall_score Metrics.f1_score Metrics.roc_auc_score
                   Metrics.confusion_matrix Examples.without_proba
                   Examples.toy_X_train Examples.toy_X_test
                   Examples.toy_y_train Examples.toy_y_test));
    reflexivity.
Defined.

(** C2 as stated fails when "exposes a probability-output operation" is
    read as the fitted object having the attribute [predict_proba].  Each
    of the two estimators has it, the harness returns a bundle, and the
    AUC of the bundle is absent: the call of the first raises
    AttributeError, the call of the second NotFittedError. *)
Lemma auc_absent_although_proba_exposed :
  (∃ b, Examples.evaluate Examples.forwarding_proba = Ok b
      ∧ Harness.exposes_proba (model b) = true
      ∧ auc b = None)
  ∧ (∃ b, Examples.evaluate Examples.unfitted_inner_proba = Ok b
        ∧ Harness.exposes_proba (model b) = true
        ∧ auc b = None).
Proof.
  split; (eexists; split; [reflexivity|]; split; reflexivity).
Qed.

(** The three cases on concrete estimators: an AttributeError and a
    NotFittedError raised by the call of [predict_proba] are caught and the
    bundle is returned without an AUC; a ValueError raised by the same
    call ends the harness. *)
Lemma only_attribute_error_gives_absent_auc_witness :
  (Harness.auc_or_none Metrics.roc_auc_score
     (Harness.mkFitted Examples.sign_predict
        (Some (fun _ => Raise (AttributeError
                 "'LinearSVC' object has no attribute 'predict_proba'"))))
     Examples.toy_X_test Examples.toy_y_test
   = Ok None
   ∧ Examples.evaluate Examples.forwarding_proba
     = (cm ← Metrics.confusion_matrix Examples.toy_y_test [true; false; false];
        mret (mkResult
                (Harness.mkFitted Examples.sign_predict
                   (Some (fun _ => Raise (AttributeError
                            "'LinearSVC' object has no attribute 'predict_proba'"))))
                (Q2Qc (2 # 3)) (Q2Qc 1) (Q2Qc (1 # 2)) (Q2Qc (2 # 3)) None)))
  ∧ (Harness.auc_or_none Metrics.roc_auc_score
       (Harness.mkFitted Examples.sign_predict
          (Some (fun _ => Raise (NotFittedError
                   "This LogisticRegression instance is not fitted yet."))))
       Examples.toy_X_test Examples.toy_y_test
     = Ok None
     ∧ Examples.evaluate Examples.unfitted_inner_proba
       = (cm ← Metrics.confusion_matrix Examples.toy_y_test [true; false; false];
          mret (mkResult
                  (Harness.mkFitted Examples.sign_predict
                     (Some (fun _ => Raise (NotFittedError
                              "This LogisticRegression instance is not fitted yet."))))
                  (Q2Qc (2 # 3)) (Q2Qc 1) (Q2Qc (1 # 2)) (Q2Qc (2 # 3)) None)))
  ∧ (Harness.auc_or_none Metrics.roc_auc_score
       (Harness.mkFitted Examples.sign_predict
          (Some (fun _ => Raise (ValueError "Feature shape mismatch"))))
       Examples.toy_X_test Examples.toy_y_test
     = Raise (ValueError "Feature shape mismatch")
     ∧ Examples.evaluate Examples.rejecting_proba
       = Raise (ValueError "Feature shape mismatch")).
Proof.
  split; [|split].
  - eapply (only_attribute_error_gives_absent_auc
              Metrics.accuracy_score Metrics.precision_score
              Metrics.recall_score Metrics.f1_score Metrics.roc_auc_score
              Metrics.confusion_matrix Examples.forwarding_proba
              Examples.toy_X_train Examples.toy_X_test
              Examples.toy_y_train Examples.toy_y_test
              _ _ _ _ _ _
              (AttributeError "'LinearSVC' object has no attribute 'predict_proba'"));
      reflexivity.
  - eapply (only_attribute_error_gives_absent_auc
              Metrics.accuracy_score Metrics.precision_score
              Metrics.recall_score Metrics.f1_score Metrics.roc_auc_score
              Metrics.confusion_matrix Examples.unfitted_inner_proba
              Examples.toy_X_train Examples.toy_X_test
              Examples.toy_y_train Examples.toy_y_test
              _ _ _ _ _ _
              (NotFittedError "This LogisticRegression instance is not fitted yet."));
      reflexivity.
  - eapply (only_attribute_error_gives_absent_auc
              Metrics.accuracy_score Metrics.precision_score
              Metrics.recall_score Metrics.f1_score Metrics.roc_auc_score
              Metrics.confusion_matrix Examples.rejecting_proba
              Examples.toy_X_train Examples.toy_X_test
              Examples.toy_y_train Examples.toy_y_test
              _ _ _ _ _ _ (ValueError "Feature shape mismatch"));
      reflexivity.
Defined.

(** The same harness on a classifier with probability output. *)
Example evaluate_with_proba :
  auc <$> (match Examples.evaluate Examples.with_proba with
           | Ok b => Some b | Raise _ => None end) = Some (Some (Q2Qc (3 # 4))).
Proof. reflexivity. Qed.

(** ** Persistence *)

Section PersistenceProps.

Import Persistence.

Context {M P E : Type}.
Variables xgb_results lgb_results xgb_pca_results lgb_pca_results
          xgb_ae_results lgb_ae_results stacked_results : Result M.
Variable pca : P.
Variable encoder_model : E.

Let results_map :=
  model_results_map xgb_results lgb_results xgb_pca_results lgb_pca_results
    xgb_ae_results lgb_ae_results stacked_results.
Let save :=
  save_best_model (E := E) xgb_results lgb_results xgb_pca_results lgb_pca_results
    xgb_ae_results lgb_ae_results stacked_results pca encoder_model.

Lemma plus_names_not_keys (name : string) :
  name ∈ plus_names → results_map !! name = None.
Proof.
  unfold plus_names. intros H.
  repeat (apply elem_of_cons in H as [->|H]; [reflexivity|]).
  by apply elem_of_nil in H.
Qed.

(** The table of feature importance is written whatever the lookup
    gives. *)
Lemma importance_table_always_written (name : string)
    (feature_importance : list (string * Qc)) (fs : FileSystem M P E) :
  files (save name feature_importance fs).1 !! importance_path
  = Some (ImportanceCsv feature_importance).
Proof.
  unfold save, save_best_model.
  destruct (model_results_map _ _ _ _ _ _ _ !! name) as [r|];
    simpl; apply lookup_insert_eq.
Qed.

(** When the lookup finds a bundle, the ensemble is saved. *)
Lemma ensemble_saved_when_found (name : string) (r : Result M)
    (feature_importance : list (string * Qc)) (fs : FileSystem M P E) :
  results_map !! name = Some r →
  files (save name feature_importance fs).1 !! ensemble_path
  = Some (ModelPickle (model stacked_results)).
Proof.
  intros Hr. unfold save, save_best_model. fold results_map. rewrite Hr.
  simpl. rewrite lookup_insert_ne by done. apply lookup_insert_eq.
Qed.

(** What cell 25 does when the lookup finds nothing. *)
Lemma save_when_lookup_misses (name : string)
    (feature_importance : list (string * Qc)) (fs : FileSystem M P E) :
  results_map !! name = None →
  save name feature_importance fs
  = (write_file importance_path (ImportanceCsv feature_importance)
       (makedirs "models" fs),
     [fallback_message;
      "Feature importance information saved to models/feature_importance.csv"]).
Proof.
  intros Hnone. unfold save, save_best_model. fold results_map. by rewrite Hnone.
Qed.

(** C9. When the winning display name is one of the four names written
    with a plus sign, the lookup in [model_results_map] finds nothing,
    the fallback message is printed, and the only file written is the
    table of feature importance: no model, projector, encoder or
    ensemble file is created or changed.  The table of feature
    importance is written for every winning name. *)
Theorem plus_named_winner_saves_only_importance_table
    (best_model_name : string) (feature_importance : list (string * Qc))
    (fs : FileSystem M P E) :
  best_model_name ∈ plus_names →
  results_map !! best_model_name = None
  ∧ (save best_model_name feature_importance fs).2
    = [fallback_message;
       "Feature importance information saved to models/feature_importance.csv"]
  ∧ files (save best_model_name feature_importance fs).1
    = <[ importance_path := ImportanceCsv feature_importance ]> (files fs)
  ∧ (∀ path, path ∈ [model_path best_model_name; pca_path; encoder_path;
                      ensemble_path] →
       files (save best_model_name feature_importance fs).1 !! path
       = files fs !! path)
  ∧ (∀ name, files (save name feature_importance fs).1 !! importance_path
             = Some (ImportanceCsv feature_importance)).
Proof.
  intros Hname. pose proof (plus_names_not_keys _ Hname) as Hnone.
  split; [done|].
  rewrite (save_when_lookup_misses _ _ _ Hnone). simpl. repeat split; try done.
  - intros path Hpath. apply lookup_insert_ne. intros <-.
    unfold plus_names in Hname.
    repeat (apply elem_of_cons in Hname as [->|Hname];
            [repeat (apply elem_of_cons in Hpath as [Hpath|Hpath];
                     [by vm_compute in Hpath|]);
             by apply elem_of_nil in Hpath|]).
    by apply elem_of_nil in Hname.
  - intros name. apply importance_table_always_written.
Qed.

End PersistenceProps.

Lemma plus_named_winner_saves_only_importance_table_witness :
  (Examples.save_pca_wins "XGBoost+PCA").2
  = [Persistence.fallback_message;
     "Feature importance information saved to models/feature_importance.csv"]
  ∧ Persistence.files (Examples.save_pca_wins "XGBoost+PCA").1
    = {[ Persistence.importance_path
         := Persistence.ImportanceCsv [("glucose", hundredths 40)] ]}.
Proof.
  pose proof (plus_named_winner_saves_only_importance_table
                (Examples.bundle "xgb" 88) (Examples.bundle "lgb" 89)
                (Examples.bundle "xgb_pca" 93) (Examples.bundle "lgb_pca" 90)
                (Examples.bundle "xgb_ae" 85) (Examples.bundle "lgb_ae" 86)
                (Examples.bundle "stacked" 92) "pca" "encoder_model"
                "XGBoost+PCA" [("glucose", hundredths 40)]
                (Persistence.mkFS ∅ ∅)) as H.
  destruct H as (_ & Hout & Hfiles & _).
  - apply elem_of_cons. by left.
  - split; [exact Hout|exact Hfiles].
Defined.

(** C3 fails on the code.  With the seven bundles of [Examples.pca_wins]
    the selection names "XGBoost+PCA"; the persistence step then prints
    the fallback message and leaves the models directory without the
    ensemble file, for these and for any other bundles. *)
Theorem ensemble_not_persisted_when_pca_config_wins :
  Selection.best_model_name (Selection.comparison_df Examples.pca_wins)
  = Some "XGBoost+PCA"
  ∧ Persistence.files (Examples.save_pca_wins "XGBoost+PCA").1 !! Persistence.ensemble_path = None
  ∧ ∀ (M P E : Type) (r1 r2 r3 r4 r5 r6 r7 : Result M) (pca : P) (enc : E)
      (name : string) (fi : list (string * Qc)),
      name ∈ Persistence.plus_names →
      Persistence.files (Persistence.save_best_model r1 r2 r3 r4 r5 r6 r7 pca enc name fi
               (Persistence.mkFS ∅ ∅)).1 !! Persistence.ensemble_path = None.
Proof.
  split; [reflexivity|]. split; [reflexivity|].
  intros M P E r1 r2 r3 r4 r5 r6 r7 pca enc name fi Hname.
  rewrite (save_when_lookup_misses r1 r2 r3 r4 r5 r6 r7 pca enc name fi
             (Persistence.mkFS ∅ ∅) (plus_names_not_keys r1 r2 r3 r4 r5 r6 r7 name Hname)).
  reflexivity.
Qed.

(** ** Attribution analysis *)

Section SampleProps.

Import Attribution.

Local Open Scope list_scope.

Variable RandomState : Type.
Variable RandomState_new : nat -> RandomState.
Variable rs_permutation : RandomState -> nat -> list nat * RandomState.

Let sample {A} := @sample RandomState RandomState_new rs_permutation A.
Let shap_on_sample := shap_on_sample RandomState RandomState_new rs_permutation.

(** [take] returns the rows at the given positions, in their order. *)
Lemma take_rows_Ok {A} (df : list A) (locs : list nat) :
  Forall (fun i => i < length df) locs →
  ∃ rows, take_rows df locs = Ok rows
        ∧ Forall2 (fun i r => df !! i = Some r) locs rows.
Proof.
  induction 1 as [|i locs Hi _ (rows & Hrows & Hall)]; simpl.
  - exists []. by split.
  - destruct (lookup_lt_is_Some_2 df i Hi) as [r Hr].
    rewrite Hr, Hrows. simpl. exists (r :: rows). split; [done|].
    by constructor.
Qed.

(** A sample of [n] rows from at least [n] rows: [n] rows of the frame,
    taken at distinct positions. *)
Lemma sample_spec {A} (df : list A) (n seed : nat) :
  (∀ rs k, (rs_permutation rs k).1 ≡ₚ seq 0 k) →
  (n ≤ length df)%nat →
  ∃ rows locs, sample df n seed = Ok rows
             ∧ length rows = n ∧ NoDup locs
             ∧ Forall2 (fun i r => df !! i = Some r) locs rows.
Proof.
  intros Hperm Hn. unfold sample, Attribution.sample.
  rewrite bool_decide_eq_false_2 by lia.
  set (perm := (rs_permutation (RandomState_new seed) (length df)).1).
  assert (Hp : perm ≡ₚ seq 0 (length df)) by apply Hperm.
  destruct (take_rows_Ok df (take n perm)) as (rows & Hrows & Hall).
  { apply Forall_take. rewrite Hp. apply Forall_seq. intros; lia. }
  exists rows, (take n perm). split; [done|]. split; [|split; [|done]].
  - apply Forall2_length in Hall. rewrite <- Hall, length_take.
    rewrite Hp, length_seq. lia.
  - assert (Hnd : NoDup perm) by (rewrite Hp; apply NoDup_seq).
    exact (sublist_NoDup _ _ Hnd (sublist_take perm n)).
Qed.

(** C4. With more than 1000 test rows, the rows that are explained and
    the rows handed to the plots are one and the same sample: 1000 rows
    of the test set at distinct positions, drawn from a generator made
    from the seed 42 for the call; otherwise both are the full test
    set. *)
Theorem attribution_uses_one_fixed_seed_sample
    (shap_values_of : Matrix -> res Matrix) (X_test : Matrix) :
  (∀ rs k, (rs_permutation rs k).1 ≡ₚ seq 0 k) →
  if bool_decide (1000 < length X_test)
  then ∃ X_test_sample locs,
         sample X_test 1000 42 = Ok X_test_sample
         ∧ length X_test_sample = 1000
         ∧ NoDup locs
         ∧ Forall2 (fun i r => X_test !! i = Some r) locs X_test_sample
         ∧ shap_on_sample shap_values_of X_test
           = (shap_values ← shap_values_of X_test_sample;
              mret (shap_values, X_test_sample))
  else shap_on_sample shap_values_of X_test
       = (shap_values ← shap_values_of X_test; mret (shap_values, X_test)).
Proof.
  intros Hperm. unfold shap_on_sample, Attribution.shap_on_sample.
  case_bool_decide as Hlen; [|done].
  destruct (sample_spec X_test 1000 42 Hperm) as (rows & locs & Hs & Hl & Hnd & Hall);
    [lia|].
  exists rows, locs. repeat split; try done.
  fold (@sample (list Qc)). rewrite Hs. simpl.
  destruct (shap_values_of rows); done.
Qed.

End SampleProps.

Lemma attribution_uses_one_fixed_seed_sample_witness :
  ∃ X_test_sample locs,
    Attribution.sample nat id Examples.reversing_permutation
      Examples.big_X_test 1000 42 = Ok X_test_sample
    ∧ length X_test_sample = 1000
    ∧ NoDup locs
    ∧ Forall2 (fun i r => Examples.big_X_test !! i = Some r) locs X_test_sample
    ∧ Attribution.shap_on_sample nat id Examples.reversing_permutation
        Examples.copy_attribution Examples.big_X_test
      = (shap_values ← Examples.copy_attribution X_test_sample;
         mret (shap_values, X_test_sample)).
Proof.
  apply (attribution_uses_one_fixed_seed_sample nat id
           Examples.reversing_permutation Examples.copy_attribution
           Examples.big_X_test).
  intros rs k. simpl. apply reverse_Permutation.
Defined.

Section RankingProps.

Import Attribution.

Local Open Scope Qc_scope.
Local Open Scope list_scope.

#[local] Instance by_score_desc_total : Total by_score_desc.
Proof. intros a b. unfold by_score_desc. destruct (total Qcle a.2 b.2); auto. Qed.

#[local] Instance by_score_desc_trans : Transitive by_score_desc.
Proof. intros a b c Hab Hbc. unfold by_score_desc in *. by etrans. Qed.

#[local] Instance by_xgb_score_desc_total : Total by_xgb_score_desc.
Proof.
  intros a b. unfold by_xgb_score_desc. destruct (total Qcle a.1.2 b.1.2); auto.
Qed.

#[local] Instance by_xgb_score_desc_trans : Transitive by_xgb_score_desc.
Proof. intros a b c Hab Hbc. unfold by_xgb_score_desc in *. by etrans. Qed.

Lemma Qcdiv_nonneg (x y : Qc) : 0 ≤ x → 0 ≤ y → 0 ≤ x / y.
Proof.
  intros Hx Hy. unfold Qcdiv. apply Qcmult_nonneg_nonneg; [done|].
  destruct (Qcle_lt_or_eq _ _ Hy) as [Hpos| <-].
  - apply Qclt_le_weak. by apply Qcinv_pos.
  - done.
Qed.

Lemma Qc_of_nat_nonneg (n : nat) : 0 ≤ Qc_of_nat n.
Proof.
  unfold Qc_of_nat, Qcle. simpl.
  rewrite (Qred_correct (inject_Z (Z.of_nat n))).
  unfold Qle. simpl. lia.
Qed.

(** The sums of the columns of a matrix without negative entries are not
    negative. *)
Lemma column_sums_nonneg (V : Matrix) :
  Forall (Forall (fun x => 0 ≤ x)) V → Forall (fun x => 0 ≤ x) (column_sums V).
Proof.
  induction 1 as [|r V Hr HV IH]; simpl; [constructor|].
  destruct V as [|r' V]; [done|].
  revert IH. generalize (column_sums (r' :: V)). clear HV.
  induction Hr as [|x r Hx Hr IHr]; intros [|s sums] Hs; simpl; try constructor.
  - apply Qcplus_nonneg_nonneg; [done|]. by inversion Hs.
  - apply IHr. by inversion Hs.
Qed.

(** Every mean absolute attribution is non-negative. *)
Lemma mean_abs_shap_nonneg (V : Matrix) :
  Forall (fun x => 0 ≤ x) (mean_abs_shap V).
Proof.
  unfold mean_abs_shap, mean_axis0. apply Forall_fmap.
  eapply Forall_impl.
  - apply column_sums_nonneg. unfold np_abs. apply Forall_fmap, Forall_true.
    intros r. apply Forall_fmap, Forall_true. intros x. apply Qcabs_nonneg.
  - intros s Hs. simpl. apply Qcdiv_nonneg; [done|apply Qc_of_nat_nonneg].
Qed.

Lemma zip_scores_nonneg (columns : list string) (V : Matrix) :
  Forall (fun r => 0 ≤ r.2) (zip columns (mean_abs_shap V)).
Proof.
  apply Forall_forall. intros [c x] Hin. simpl.
  apply elem_of_zip_r in Hin.
  by eapply (proj1 (Forall_forall _ _) (mean_abs_shap_nonneg V)).
Qed.

(** The head of a list sorted by descending score has the greatest
    score. *)
Lemma head_of_sorted_is_max (l : list (string * Qc)) (top : string * Qc) :
  StronglySorted by_score_desc l → head l = Some top →
  ∀ r, r ∈ l → r.2 ≤ top.2.
Proof.
  intros Hs Hhead r Hr. destruct l as [|t l]; [done|].
  injection Hhead as ->.
  apply StronglySorted_inv in Hs as [_ Hall].
  apply elem_of_cons in Hr as [->|Hr]; [done|].
  by apply (proj1 (Forall_forall _ _) Hall).
Qed.

(** C5, as amended. For each of the two classifiers every importance
    score is non-negative.  The table of XGBoost ranks every feature
    once, in descending order of score, so its first feature has the
    greatest mean absolute attribution of XGBoost.  The scores of
    LightGBM are kept in the order of the columns, and the merged table
    is in descending order of the score of XGBoost. *)
Theorem importance_nonneg_and_xgb_top_is_max
    (columns : list string) (shap_values shap_values_lgb : Matrix) :
  shap_values ≠ [] → shap_values_lgb ≠ [] →
  Forall (fun r => 0 ≤ r.2) (feature_importance columns shap_values)
  ∧ Forall (fun r => 0 ≤ r.2) (feature_importance_lgb columns shap_values_lgb)
  ∧ feature_importance columns shap_values
    ≡ₚ zip columns (mean_abs_shap shap_values)
  ∧ StronglySorted by_score_desc (feature_importance columns shap_values)
  ∧ (∀ top, head (feature_importance columns shap_values) = Some top →
       ∀ r, r ∈ zip columns (mean_abs_shap shap_values) → r.2 ≤ top.2)
  ∧ feature_importance_lgb columns shap_values_lgb
    = zip columns (mean_abs_shap shap_values_lgb)
  ∧ StronglySorted by_xgb_score_desc
      (feature_importance_merged columns shap_values shap_values_lgb).
Proof.
  intros _ _.
  assert (Hperm : feature_importance columns shap_values
                  ≡ₚ zip columns (mean_abs_shap shap_values))
    by apply merge_sort_Permutation.
  assert (Hsorted : StronglySorted by_score_desc
                      (feature_importance columns shap_values))
    by (apply StronglySorted_merge_sort; apply _).
  split; [|split; [|split; [done|split; [done|split; [|split; [done|]]]]]].
  - rewrite Hperm. apply zip_scores_nonneg.
  - apply zip_scores_nonneg.
  - intros top Htop r Hr. rewrite <- Hperm in Hr.
    by eapply head_of_sorted_is_max.
  - apply StronglySorted_merge_sort; apply _.
Qed.

End RankingProps.

Lemma importance_nonneg_and_xgb_top_is_max_witness :
  ∃ top,
    head (Attribution.feature_importance Examples.two_features Examples.xgb_shap)
    = Some top
    ∧ top.1 = "glucose"
    ∧ ∀ r, r ∈ zip Examples.two_features
                 (Attribution.mean_abs_shap Examples.xgb_shap) →
           (r.2 ≤ top.2)%Qc.
Proof.
  eexists. split; [reflexivity|]. split; [reflexivity|].
  destruct (importance_nonneg_and_xgb_top_is_max Examples.two_features
              Examples.xgb_shap Examples.lgb_shap)
    as (_ & _ & _ & _ & Hmax & _); [discriminate|discriminate|].
  exact (Hmax _ eq_refl).
Defined.

(** C5 as stated fails for LightGBM: the first row of the merged table,
    which is also the first row of the table of LightGBM, is glucose,
    and its LightGBM score is below that of bmi. *)
Lemma lgb_first_ranked_is_not_lgb_max :
  ∃ top other,
    head (Attribution.feature_importance_merged Examples.two_features
            Examples.xgb_shap Examples.lgb_shap) = Some top
    ∧ head (Attribution.feature_importance_lgb Examples.two_features
              Examples.lgb_shap) = Some (top.1.1, top.2)
    ∧ Attribution.feature_importance_lgb Examples.two_features
        Examples.lgb_shap !! 1%nat = Some other
    ∧ top.1.1 = "glucose" ∧ other.1 = "bmi"
    ∧ (top.2 < other.2)%Qc.
Proof.
  eexists. eexists.
  split; [reflexivity|]. split; [reflexivity|]. split; [reflexivity|].
  split; [reflexivity|]. split; reflexivity.
Qed.

(** ** Dimensionality reduction *)

Section ReductionProps.

Import Reduction.

Local Open Scope list_scope.

Variable pca_fit : nat -> Matrix -> res PCAParams.
Variable init_layers : nat -> nat -> Layers.
Variable keras_fit : Layers -> Matrix -> Matrix -> Layers.

Let fit_transform := fit_transform pca_fit.
Let pca_trial := pca_trial pca_fit.
Let pca_trials := pca_trials pca_fit.
Let cell_pca := cell_pca pca_fit.
Let cell_autoencoder := cell_autoencoder init_layers keras_fit.

(** [fit_transform] on a new object. *)
Lemma fit_transform_new_Ok (n : nat) (X : Matrix) (pca : PCA) (Y : Matrix) :
  fit_transform (PCA_new n) X = Ok (pca, Y) ↔
  ∃ p, pca_fit n X = Ok p ∧ pca = mkPCA n (Some p) [X] ∧ Y = project p <$> X.
Proof.
  unfold fit_transform, Reduction.fit_transform. simpl.
  destruct (pca_fit n X) as [p|e]; simpl.
  - split.
    + intros [= <- <-]. by exists p.
    + intros (p' & [= <-] & -> & ->). done.
  - split; [done|]. intros (p' & ? & _). done.
Qed.

(** The array passes the validation when it has a row and a column. *)
Lemma check_array_Ok (X : Matrix) :
  check_array X = Ok () ↔ X ≠ [] ∧ (shape X).2 ≠ 0.
Proof.
  unfold check_array. destruct X as [|x X]; simpl; [by split; [|intros []]|].
  case_bool_decide as Hw; split; try done. by intros [_ ?].
Qed.

(** [transform] reads the fitted attributes and returns the object as
    it was. *)
Lemma transform_Ok (pca pca' : PCA) (X Y : Matrix) :
  transform pca X = Ok (pca', Y) ↔
  ∃ p, fitted pca = Some p ∧ X ≠ [] ∧ (shape X).2 ≠ 0
     ∧ check_n_features p X = true
     ∧ pca' = pca ∧ Y = project p <$> X.
Proof.
  unfold transform. destruct (fitted pca) as [p|].
  2:{ split; [done|]. intros (p' & ? & _). done. }
  pose proof (check_array_Ok X) as Harr.
  destruct (check_array X) as [[]|e]; simpl.
  - destruct (proj1 Harr eq_refl) as [Hne Hw].
    destruct (check_n_features p X) eqn:Hc.
    + split.
      * intros [= <- <-]. by exists p.
      * intros (p' & [= <-] & _ & _ & _ & -> & ->). done.
    + split; [done|]. intros (p' & [= <-] & _ & _ & ? & _). congruence.
  - split; [done|]. intros (p' & _ & Hne & Hw & _).
    by specialize (proj2 Harr (conj Hne Hw)).
Qed.

Lemma encoder_predict_Ok (ae ae' : Autoencoder) (X Y : Matrix) :
  encoder_predict ae X = Ok (ae', Y) →
  ae' = ae ∧ Y = encode (layers ae) <$> X.
Proof.
  unfold encoder_predict.
  destruct (forallb _ X); [|done]. by intros [= <- <-].
Qed.

(** A trial that succeeds leaves an object fitted once, on the training
    matrix. *)
Lemma pca_trial_Ok (X_train X_test : Matrix) (n : nat) (pca : PCA) (A B : Matrix) :
  pca_trial X_train X_test n = Ok (pca, A, B) →
  ∃ p, pca_fit n X_train = Ok p ∧ pca = mkPCA n (Some p) [X_train]
     ∧ A = project p <$> X_train ∧ B = project p <$> X_test.
Proof.
  unfold pca_trial, Reduction.pca_trial.
  destruct (Reduction.fit_transform pca_fit (PCA_new n) X_train)
    as [[pca1 A1]|] eqn:Hfit; simpl; [|done].
  apply fit_transform_new_Ok in Hfit as (p & Hp & -> & ->).
  destruct (transform _ X_test) as [[pca2 B2]|] eqn:Htr; simpl; [|done].
  apply transform_Ok in Htr as (p' & [= <-] & _ & _ & _ & -> & ->).
  intros [= <- <- <-]. by exists p.
Qed.

Lemma pca_trials_Ok (X_train X_test : Matrix) (ns : list nat) (tried : list PCA) :
  pca_trials X_train X_test ns = Ok tried →
  Forall (fun o => fitted_on o = [X_train]) tried.
Proof.
  revert tried. induction ns as [|n ns IH]; intros tried; simpl.
  - intros [= <-]. constructor.
  - destruct (Reduction.pca_trial pca_fit X_train X_test n)
      as [[[pca A] B]|] eqn:Ht; simpl; [|done].
    apply pca_trial_Ok in Ht as (p & _ & -> & _).
    destruct (pca_trials X_train X_test ns) as [rest|] eqn:Hr; simpl; [|done].
    intros [= <-]. constructor; [done|]. by apply IH.
Qed.

(** C6. Applying a fitted projector or the encoder to a matrix returns
    the object unchanged.  Every PCA object of cell 6, the three of the
    trials and the one that is kept, has been fitted exactly once, on the
    training matrix, and the attributes of the one that is kept are those
    the solver computes from the training matrix alone.  The autoencoder
    of cell 8 has been trained exactly once, with the training matrix as
    input and as target, and its weights are those the optimiser reaches
    from the initial weights on the training matrix alone. *)
Theorem reductions_fitted_on_training_partition_only (X_train X_test : Matrix) :
  (∀ pca X pca' Y, transform pca X = Ok (pca', Y) → pca' = pca)
  ∧ (∀ ae X ae' Y, encoder_predict ae X = Ok (ae', Y) → ae' = ae)
  ∧ (∀ tried pca X_train_pca X_test_pca,
       cell_pca X_train X_test = Ok (tried, pca, X_train_pca, X_test_pca) →
       Forall (fun o => fitted_on o = [X_train]) (pca :: tried)
       ∧ ∃ p, pca_fit 7 X_train = Ok p ∧ fitted pca = Some p
            ∧ X_train_pca = project p <$> X_train
            ∧ X_test_pca = project p <$> X_test)
  ∧ (∀ ae X_train_encoded X_test_encoded,
       cell_autoencoder X_train X_test = Ok (ae, X_train_encoded, X_test_encoded) →
       trained_on ae = [(X_train, X_train)]
       ∧ layers ae = keras_fit (init_layers (shape X_train).2 7) X_train X_train
       ∧ X_train_encoded = encode (layers ae) <$> X_train
       ∧ X_test_encoded = encode (layers ae) <$> X_test).
Proof.
  split; [|split; [|split]].
  - intros pca X pca' Y H.
    by apply transform_Ok in H as (p & _ & _ & _ & _ & -> & _).
  - intros ae X ae' Y H. by apply encoder_predict_Ok in H as [-> _].
  - intros tried pca A B. unfold cell_pca, Reduction.cell_pca.
    destruct (Reduction.pca_trials pca_fit X_train X_test [5; 7; 9])
      as [tr|] eqn:Htr; simpl; [|done].
    destruct (Reduction.pca_trial pca_fit X_train X_test 7)
      as [[[pca1 A1] B1]|] eqn:Ht; simpl; [|done].
    intros [= <- <- <- <-].
    apply pca_trials_Ok in Htr.
    apply pca_trial_Ok in Ht as (p & Hp & -> & -> & ->).
    split; [by constructor|]. by exists p.
  - intros ae A B. unfold cell_autoencoder, Reduction.cell_autoencoder.
    destruct (encoder_predict _ X_train) as [[ae1 A1]|] eqn:H1; simpl; [|done].
    apply encoder_predict_Ok in H1 as [-> ->].
    destruct (encoder_predict _ X_test) as [[ae2 B2]|] eqn:H2; simpl; [|done].
    apply encoder_predict_Ok in H2 as [-> ->].
    intros [= <- <- <-]. done.
Qed.

End ReductionProps.

Lemma reductions_fitted_on_training_partition_only_witness :
  ∃ tried pca X_train_pca X_test_pca,
    Reduction.cell_pca Examples.axis_aligned_fit
      Examples.X_train_12x9 Examples.X_test_3x9
    = Ok (tried, pca, X_train_pca, X_test_pca)
    ∧ Forall (fun o => Reduction.fitted_on o = [Examples.X_train_12x9])
        (pca :: tried)
    ∧ shape X_test_pca = (3, 7).
Proof.
  do 4 eexists. split; [vm_compute; reflexivity|].
  split; [|reflexivity].
  refine (proj1 (proj1 (proj2 (proj2
    (reductions_fitted_on_training_partition_only Examples.axis_aligned_fit
       (fun _ _ => Reduction.mkLayers
          (Reduction.mkDense [] []) (Reduction.mkBN [] [])
          (Reduction.mkDense [] []) (Reduction.mkDense [] [])
          (Reduction.mkBN [] []) (Reduction.mkDense [] []))
       (fun l _ _ => l) Examples.X_train_12x9 Examples.X_test_3x9)))
    _ _ _ _ _)).
  vm_compute. reflexivity.
Defined.

(** ** Loading the input artifact *)

Section LoadingProps.

Import Loading.

Local Open Scope list_scope.

Variable disk : gmap string (list Byte.byte).
Variable pickle_load : list Byte.byte -> res Obj.
Variable format_obj : Obj -> string.
Variable pca_fit : nat -> Matrix -> res Reduction.PCAParams.

Let cell_load := cell_load disk pickle_load format_obj.
Let run_to_pca := run_to_pca disk pickle_load format_obj pca_fit.

(** A file that is absent makes [open] raise FileNotFoundError. *)
Lemma open_rb_absent (path : string) :
  disk !! path = None → open_rb disk path = Raise (FileNotFoundError path).
Proof. intros H. unfold open_rb. by rewrite H. Qed.

(** Cell 6 cannot start without the global [X_train]. *)
Lemma cell_pca_needs_X_train (env : Env) :
  env !! "X_train" = None →
  cell_pca_on pca_fit env = Raise (NameError "X_train").
Proof.
  intros H. unfold cell_pca_on, load_matrix, load_name. by rewrite H.
Qed.

(** What the [try] body leaves when the file cannot be opened. *)
Lemma try_load_open_failure (env : Env) (e : exn) :
  open_rb disk data_path = Raise e →
  try_load disk pickle_load format_obj env = (env, [], Some e).
Proof. unfold try_load. by intros ->. Qed.

(** What the [try] body leaves when the file is opened and the unpickler
    fails: the file is bound to [f]. *)
Lemma try_load_pickle_failure (env : Env) (bytes : list Byte.byte) (e : exn) :
  open_rb disk data_path = Ok bytes →
  pickle_load bytes = Raise e →
  try_load disk pickle_load format_obj env
  = (<[ "f" := OFile data_path ]> env, [], Some e).
Proof. unfold try_load. by intros -> ->. Qed.

(** C8. Whatever exception of the class Exception ends the [try] body of
    cell 3, cell 3 itself ends without one: it prints the failure as a
    line of text, the [except] clause leaves the global [e] unbound, and
    the run goes on to the next code cell in the state the failure left.
    When the file is absent the [try] body has changed no global; when
    the file is there and its content is corrupt the [try] body has bound
    [f] to the file and nothing else.  In both cases no global other than
    [f] and [e] differs from before the cell, so nothing is recovered,
    and the next code cell, in a kernel where [X_train] was not bound
    before, stops with a NameError for [X_train]. *)
Theorem load_failure_is_printed_and_run_goes_on
    (env env1 : Env) (lines : list string) (e : exn) :
  try_load disk pickle_load format_obj env = (env1, lines, Some e) →
  is_Exception e = true →
  cell_load env
  = mkRun (delete "e" env1)
      (["Loading preprocessed data..."] ++ lines
       ++ ["Error loading preprocessed data: " +:+ exn_str e]) None
  ∧ run_to_pca env
    = (cell_load env, Some (cell_pca_on pca_fit (delete "e" env1)))
  ∧ (open_rb disk data_path = Raise e → env1 = env ∧ lines = [])
  ∧ (∀ bytes, open_rb disk data_path = Ok bytes →
       pickle_load bytes = Raise e →
       env1 = <[ "f" := OFile data_path ]> env ∧ lines = [])
  ∧ ((open_rb disk data_path = Raise e
      ∨ ∃ bytes, open_rb disk data_path = Ok bytes ∧ pickle_load bytes = Raise e) →
     (∀ x, x ≠ "f" → x ≠ "e" → env_after (cell_load env) !! x = env !! x)
     ∧ (env !! "X_train" = None →
        run_to_pca env
        = (mkRun (delete "e" env1)
             ["Loading preprocessed data...";
              "Error loading preprocessed data: " +:+ exn_str e] None,
           Some (Raise (NameError "X_train"))))).
Proof.
  intros Htry Hexn.
  assert (Hcell : cell_load env
                  = mkRun (delete "e" env1)
                      (["Loading preprocessed data..."] ++ lines
                       ++ ["Error loading preprocessed data: " +:+ exn_str e])
                      None).
  { unfold cell_load, Loading.cell_load. by rewrite Htry, Hexn. }
  assert (Hrun : run_to_pca env
                 = (cell_load env, Some (cell_pca_on pca_fit (delete "e" env1)))).
  { unfold run_to_pca, Loading.run_to_pca. fold cell_load. by rewrite Hcell. }
  assert (Habsent : open_rb disk data_path = Raise e → env1 = env ∧ lines = []).
  { intros Hopen. rewrite (try_load_open_failure env e Hopen) in Htry.
    by injection Htry as <- <-. }
  assert (Hcorrupt : ∀ bytes, open_rb disk data_path = Ok bytes →
            pickle_load bytes = Raise e →
            env1 = <[ "f" := OFile data_path ]> env ∧ lines = []).
  { intros bytes Hopen Hload.
    rewrite (try_load_pickle_failure env bytes e Hopen Hload) in Htry.
    by injection Htry as <- <-. }
  split; [done|]. split; [done|]. split; [done|]. split; [done|].
  intros Hfail.
  assert (Hframe : ∀ x, x ≠ "f" → x ≠ "e" → delete "e" env1 !! x = env !! x).
  { intros x Hf He. rewrite lookup_delete_ne by done.
    destruct Hfail as [Hopen|(bytes & Hopen & Hload)].
    - by destruct (Habsent Hopen) as [-> _].
    - destruct (Hcorrupt bytes Hopen Hload) as [-> _].
      by rewrite lookup_insert_ne. }
  assert (Hlines : lines = []).
  { destruct Hfail as [Hopen|(bytes & Hopen & Hload)].
    - by destruct (Habsent Hopen).
    - by destruct (Hcorrupt bytes Hopen Hload). }
  split.
  - intros x Hf He. rewrite Hcell. by apply Hframe.
  - intros Hfresh. rewrite Hrun, Hcell, Hlines.
    rewrite (cell_pca_needs_X_train (delete "e" env1)); [done|].
    by rewrite Hframe.
Qed.

End LoadingProps.

(** The artifact is absent: the cell prints the failure and completes,
    and cell 6 stops at its first use of [X_train].  The artifact is
    there and corrupt: the same, with the file left bound to [f]. *)
Lemma load_failure_is_printed_and_run_goes_on_witness :
  (Loading.cell_load ∅ Examples.corrupt_pickle Examples.show_names ∅
   = Loading.mkRun (delete "e" ∅)
       ["Loading preprocessed data...";
        "Error loading preprocessed data: [Errno 2] No such file or directory: 'data/preprocessed_data.pkl'"]
       None
   ∧ Loading.run_to_pca ∅ Examples.corrupt_pickle Examples.show_names
       Examples.axis_aligned_fit ∅
     = (Loading.mkRun (delete "e" ∅)
          ["Loading preprocessed data...";
           "Error loading preprocessed data: [Errno 2] No such file or directory: 'data/preprocessed_data.pkl'"]
          None,
        Some (Raise (NameError "X_train"))))
  ∧ (Loading.cell_load {[ Loading.data_path := [Byte.x80; Byte.x04] ]}
       Examples.corrupt_pickle Examples.show_names ∅
     = Loading.mkRun
         (delete "e" (<[ "f" := Loading.OFile Loading.data_path ]> ∅))
         ["Loading preprocessed data...";
          "Error loading preprocessed data: pickle data was truncated"]
         None
     ∧ Loading.run_to_pca {[ Loading.data_path := [Byte.x80; Byte.x04] ]}
         Examples.corrupt_pickle Examples.show_names
         Examples.axis_aligned_fit ∅
       = (Loading.mkRun
            (delete "e" (<[ "f" := Loading.OFile Loading.data_path ]> ∅))
            ["Loading preprocessed data...";
             "Error loading preprocessed data: pickle data was truncated"]
            None,
          Some (Raise (NameError "X_train")))).
Proof.
  split.
  - destruct (load_failure_is_printed_and_run_goes_on ∅ Examples.corrupt_pickle
                Examples.show_names Examples.axis_aligned_fit ∅ ∅ []
                (FileNotFoundError Loading.data_path))
      as (Hcell & _ & _ & _ & Hrun).
    + reflexivity.
    + reflexivity.
    + split; [exact Hcell|]. apply Hrun; [left|]; reflexivity.
  - destruct (load_failure_is_printed_and_run_goes_on
                {[ Loading.data_path := [Byte.x80; Byte.x04] ]}
                Examples.corrupt_pickle Examples.show_names
                Examples.axis_aligned_fit ∅
                (<[ "f" := Loading.OFile Loading.data_path ]> ∅) []
                (UnpicklingError "pickle data was truncated"))
      as (Hcell & _ & _ & _ & Hrun).
    + reflexivity.
    + reflexivity.
    + split; [exact Hcell|].
      apply Hrun; [right; exists [Byte.x80; Byte.x04]; split|]; reflexivity.
Defined.

(** A missing key is caught as well; the globals bound before it stay
    bound. *)
Example missing_key_is_reported :
  let r := Loading.cell_load {[ Loading.data_path := [Byte.x80] ]}
             Examples.short_pickle Examples.show_names ∅ in
  Loading.printed r
  = ["Loading preprocessed data...";
     "Error loading preprocessed data: 'X_test'"]
  ∧ Loading.raised r = None
  ∧ Loading.env_after r !! "X_train"
    = Some (Loading.OVal (Loading.VMatrix ["glucose"] Examples.toy_X_train))
  ∧ Loading.env_after r !! "X_test" = None.
Proof. repeat split; reflexivity. Qed.

(** A file that is present and corrupt: the unpickler raises, the cell
    prints the failure and completes; the file is left bound to [f]. *)
Example corrupt_artifact_is_reported :
  let r := Loading.cell_load {[ Loading.data_path := [Byte.x80; Byte.x04] ]}
             Examples.corrupt_pickle Examples.show_names
             {[ "e" := Loading.OVal Loading.VNone ]} in
  Loading.printed r
  = ["Loading preprocessed data...";
     "Error loading preprocessed data: pickle data was truncated"]
  ∧ Loading.raised r = None
  ∧ Loading.env_after r !! "f" = Some (Loading.OFile Loading.data_path)
  ∧ Loading.env_after r !! "e" = None
  ∧ Loading.env_after r !! "preprocessed_data" = None.
Proof. repeat split; reflexivity. Qed.

(** A well-formed artifact is loaded and reported. *)
Example good_artifact_is_loaded :
  let r := Loading.cell_load {[ Loading.data_path := [Byte.x80] ]}
             Examples.good_pickle Examples.show_names ∅ in
  Loading.env_after r !! "X_train"
  = Some (Loading.OVal (Loading.VMatrix ["glucose"] Examples.toy_X_train))
  ∧ Loading.env_after r !! "feature_names"
    = Some (Loading.OVal (Loading.VNames ["glucose"]))
  ∧ Loading.env_after r !! "f" = Some (Loading.OFile Loading.data_path)
  ∧ Loading.printed r
    = ["Loading preprocessed data...";
       "Data loaded successfully. Training shape: (4, 1), Test shape: (3, 1)";
       "Selected features: ['glucose']"]
  ∧ Loading.raised r = None.
Proof. repeat split; reflexivity. Qed.

(** * Further properties *)

(** ** The evaluation harness: unhandled failures *)

Section HarnessFailures.

Import Harness.

Variables accuracy_score precision_score recall_score f1_score :
  Labels -> Labels -> res Qc.
Variable roc_auc_score : Labels -> list Qc -> res Qc.
Variable confusion_matrix : Labels -> Labels -> res (list (list nat)).

Let auc_body := auc_try_body roc_auc_score.
Let auc_opt := auc_or_none roc_auc_score.
Let evaluate := evaluate_model accuracy_score precision_score recall_score
                  f1_score roc_auc_score confusion_matrix.

(** The steps of the harness after the fit and the prediction: the four
    metrics, then the [try], then the confusion matrix. *)
Inductive scoring_fails (m : Fitted) (X_test : Matrix) (y_test y_pred : Labels)
    (e : exn) : Prop :=
  | fails_accuracy :
      accuracy_score y_test y_pred = Raise e →
      scoring_fails m X_test y_test y_pred e
  | fails_precision a :
      accuracy_score y_test y_pred = Ok a →
      precision_score y_test y_pred = Raise e →
      scoring_fails m X_test y_test y_pred e
  | fails_recall a p :
      accuracy_score y_test y_pred = Ok a →
      precision_score y_test y_pred = Ok p →
      recall_score y_test y_pred = Raise e →
      scoring_fails m X_test y_test y_pred e
  | fails_f1 a p r :
      accuracy_score y_test y_pred = Ok a →
      precision_score y_test y_pred = Ok p →
      recall_score y_test y_pred = Ok r →
      f1_score y_test y_pred = Raise e →
      scoring_fails m X_test y_test y_pred e
  | fails_auc a p r f :
      accuracy_score y_test y_pred = Ok a →
      precision_score y_test y_pred = Ok p →
      recall_score y_test y_pred = Ok r →
      f1_score y_test y_pred = Ok f →
      auc_body m X_test y_test = Raise e →
      is_AttributeError e = false →
      scoring_fails m X_test y_test y_pred e
  | fails_confusion_matrix a p r f o :
      accuracy_score y_test y_pred = Ok a →
      precision_score y_test y_pred = Ok p →
      recall_score y_test y_pred = Ok r →
      f1_score y_test y_pred = Ok f →
      auc_opt m X_test y_test = Ok o →
      confusion_matrix y_test y_pred = Raise e →
      scoring_fails m X_test y_test y_pred e.

(** X1. [evaluate_model] ends with an exception exactly when the fit
    raises it, or the prediction does, or one of the four metric
    functions, or the confusion matrix, or the body of the [try] raises
    it and it is not an instance of AttributeError (neither the class
    itself nor a class deriving from it, such as NotFittedError).  An
    AttributeError raised by the fit, the prediction or a metric function
    is outside the [try] and is not caught. *)
Theorem evaluate_model_raises_iff
    (cls : Classifier) (X_train X_test : Matrix) (y_train y_test : Labels)
    (e : exn) :
  evaluate cls X_train X_test y_train y_test = Raise e ↔
    fit cls X_train y_train = Raise e
    ∨ ∃ m, fit cls X_train y_train = Ok m
         ∧ (predict m X_test = Raise e
            ∨ ∃ y_pred, predict m X_test = Ok y_pred
                      ∧ scoring_fails m X_test y_test y_pred e).
Proof.
  unfold evaluate, evaluate_model.
  destruct (fit cls X_train y_train) as [m|e0] eqn:Hm; simpl.
  2:{ split; [intros [= <-]; by left|].
      intros [[= <-]|(m & ? & _)]; done. }
  destruct (predict m X_test) as [y_pred|e0] eqn:Hy; simpl.
  2:{ split.
      - intros [= <-]. right. exists m. split; [done|]. by left.
      - intros [?|(m' & [= <-] & [Hp|(y & Hp & _)])]; congruence. }
  assert (Hscore :
    (a ← accuracy_score y_test y_pred;
     p ← precision_score y_test y_pred;
     r ← recall_score y_test y_pred;
     f ← f1_score y_test y_pred;
     o ← auc_or_none roc_auc_score m X_test y_test;
     cm ← confusion_matrix y_test y_pred;
     mret (mkResult m a p r f o)) = Raise e
    ↔ scoring_fails m X_test y_test y_pred e).
  { destruct (accuracy_score y_test y_pred) as [a|e1] eqn:Ha; simpl.
    2:{ split; [intros [= <-]; by constructor 1|].
        intros []; congruence. }
    destruct (precision_score y_test y_pred) as [p|e1] eqn:Hp; simpl.
    2:{ split; [intros [= <-]; by econstructor 2|].
        intros []; congruence. }
    destruct (recall_score y_test y_pred) as [r|e1] eqn:Hr; simpl.
    2:{ split; [intros [= <-]; by econstructor 3|].
        intros []; congruence. }
    destruct (f1_score y_test y_pred) as [f|e1] eqn:Hf; simpl.
    2:{ split; [intros [= <-]; by econstructor 4|].
        intros []; congruence. }
    destruct (auc_or_none roc_auc_score m X_test y_test) as [o|e1] eqn:Ho; simpl.
    2:{ apply (auc_or_none_Raise roc_auc_score) in Ho as [Hb Hattr].
        split.
        - intros [= <-]. by econstructor 5.
        - intros []; try congruence.
          + unfold auc_body in *. congruence.
          + assert (auc_or_none roc_auc_score m X_test y_test = Raise e1)
              by (apply auc_or_none_Raise; done).
            unfold auc_opt in *. congruence. }
    destruct (confusion_matrix y_test y_pred) as [cm|e1] eqn:Hcm; simpl.
    - split; [done|]. intros []; try congruence.
      assert (auc_or_none roc_auc_score m X_test y_test = Raise e)
        by (apply auc_or_none_Raise; done).
      congruence.
    - split; [intros [= <-]; by econstructor 6|].
      intros []; try congruence.
      assert (auc_or_none roc_auc_score m X_test y_test = Raise e)
        by (apply auc_or_none_Raise; done).
      congruence. }
  rewrite Hscore. split.
  - intros H. right. exists m. split; [done|]. right. by exists y_pred.
  - intros [?|(m' & [= <-] & [?|(y & Hp & H)])]; congruence.
Qed.

End HarnessFailures.

(** An estimator whose [predict] raises AttributeError: the harness does
    not reach the [try], and the exception ends it.  An estimator whose
    [predict_proba] raises ValueError: the exception leaves the [try]
    and ends the harness. *)
Lemma evaluate_model_raises_iff_witness :
  Examples.evaluate MoreExamples.unfitted_predict
  = Raise (AttributeError "'NoneType' object has no attribute 'predict'")
  ∧ Examples.evaluate Examples.rejecting_proba
    = Raise (ValueError "Feature shape mismatch").
Proof.
  split.
  - apply (proj2 (evaluate_model_raises_iff Metrics.accuracy_score
                    Metrics.precision_score Metrics.recall_score Metrics.f1_score
                    Metrics.roc_auc_score Metrics.confusion_matrix
                    MoreExamples.unfitted_predict
                    Examples.toy_X_train Examples.toy_X_test
                    Examples.toy_y_train Examples.toy_y_test _)).
    right. eexists. split; [reflexivity|]. by left.
  - apply (proj2 (evaluate_model_raises_iff Metrics.accuracy_score
                    Metrics.precision_score Metrics.recall_score Metrics.f1_score
                    Metrics.roc_auc_score Metrics.confusion_matrix
                    Examples.rejecting_proba
                    Examples.toy_X_train Examples.toy_X_test
                    Examples.toy_y_train Examples.toy_y_test _)).
    right. eexists. split; [reflexivity|]. right.
    eexists. split; [reflexivity|].
    eapply fails_auc; reflexivity.
Defined.

(** ** The summary of cell 23 *)

Section SummaryProps.

Import Selection Summary.

Local Open Scope Qc_scope.
Local Open Scope list_scope.

#[local] Instance by_f1_desc_total : Total by_f1_desc.
Proof. intros a b. unfold by_f1_desc. destruct (total Qcle (F1_Score a) (F1_Score b)); auto. Qed.

#[local] Instance by_f1_desc_trans : Transitive by_f1_desc.
Proof. intros a b c Hab Hbc. unfold by_f1_desc in *. by etrans. Qed.

(** The scan keeps its first candidate when nothing after it is
    greater. *)
Lemma argmax_from_keeps (xs : list Qc) (best_i : nat) (best : Qc) (i : nat) :
  Forall (fun w => w ≤ best) xs → argmax_from best_i best i xs = best_i.
Proof.
  intros H. revert i. induction H as [|x xs Hx _ IH]; intros i; simpl; [done|].
  rewrite bool_decide_eq_false_2; [apply IH|]. by apply Qcle_ngt.
Qed.

(** X2. The sorted table of cell 23 holds the rows of the comparison
    table, in descending order of F1; its first row has the F1 score of
    the selected model, and running the selection again on the sorted
    table picks its row 0 with the same score. *)
Theorem sorted_comparison_puts_selected_score_first (df : list Row) :
  df ≠ [] →
  sorted_comparison df ≡ₚ df
  ∧ StronglySorted by_f1_desc (sorted_comparison df)
  ∧ ∃ top, head (sorted_comparison df) = Some top
         ∧ best_model_f1 df = Some (F1_Score top)
         ∧ best_model_idx (sorted_comparison df) = Some 0%nat
         ∧ best_model_row (sorted_comparison df) = Some top.
Proof.
  intros Hne.
  assert (Hperm : sorted_comparison df ≡ₚ df) by apply merge_sort_Permutation.
  assert (Hsorted : StronglySorted by_f1_desc (sorted_comparison df))
    by (apply StronglySorted_merge_sort; apply _).
  split; [done|]. split; [done|].
  destruct (sorted_comparison df) as [|top rest] eqn:Hs.
  { apply Permutation_nil_l in Hperm. congruence. }
  apply StronglySorted_inv in Hsorted as [_ Hall].
  exists top. split; [done|].
  assert (Hidx : best_model_idx (top :: rest) = Some 0%nat).
  { unfold best_model_idx. simpl. f_equal. apply argmax_from_keeps.
    apply Forall_fmap. exact Hall. }
  split; [|split; [done|]].
  - destruct (best_model_row_spec df Hne) as (i & r & _ & Hr & Hrow & Hmax & _).
    unfold best_model_f1. rewrite Hrow. simpl. f_equal.
    apply Qcle_antisym.
    + assert (Hin : r ∈ top :: rest)
        by (rewrite Hperm; by eapply list_elem_of_lookup_2).
      apply elem_of_cons in Hin as [->|Hin]; [done|].
      by apply (proj1 (Forall_forall _ _) Hall).
    + apply Hmax. rewrite <- Hperm. by left.
  - unfold best_model_row. by rewrite Hidx.
Qed.

Lemma py_max_l (a b : Qc) : a ≤ py_max a b.
Proof.
  unfold py_max. case_bool_decide; [by apply Qclt_le_weak|done].
Qed.

Lemma py_max_r (a b : Qc) : b ≤ py_max a b.
Proof. unfold py_max. case_bool_decide; [done|by apply Qcle_ngt]. Qed.

Lemma py_max_ind (P : Qc → Prop) (a b : Qc) : P a → P b → P (py_max a b).
Proof. unfold py_max. by case_bool_decide. Qed.

(** An argument of nested [py_max] is below the whole. *)
Ltac py_max_le :=
  lazymatch goal with
  | |- ?x ≤ ?x => apply Qcle_refl
  | |- ?x ≤ py_max ?A ?B =>
      first [ apply (Qcle_trans _ A); [py_max_le | apply py_max_l]
            | apply (Qcle_trans _ B); [py_max_le | apply py_max_r] ]
  end.

(** X3. The F1 score of the selected model is the greatest of
    [original_f1], [pca_f1], [autoencoder_f1] and the F1 score of the
    ensemble; so neither printed difference from [original_f1] exceeds
    that of the selected model. *)
Theorem best_f1_is_max_of_summary_scores (M : Type)
    (xgb_results lgb_results xgb_pca_results lgb_pca_results
     xgb_ae_results lgb_ae_results stacked_results : Result M) :
  let df := comparison_df [xgb_results; lgb_results; xgb_pca_results;
                           lgb_pca_results; xgb_ae_results; lgb_ae_results;
                           stacked_results] in
  let o := original_f1 xgb_results lgb_results in
  let p := pca_f1 xgb_pca_results lgb_pca_results in
  let a := autoencoder_f1 xgb_ae_results lgb_ae_results in
  best_model_f1 df = Some (py_max (py_max (py_max o p) a) (f1 stacked_results))
  ∧ ∀ b, best_model_f1 df = Some b →
      o ≤ b ∧ p ≤ b ∧ a ≤ b ∧ p - o ≤ b - o ∧ a - o ≤ b - o.
Proof.
  intros df o p a.
  destruct (best_model_row_spec df) as (i & r & _ & Hr & Hrow & Hmax & _); [done|].
  set (top := py_max (py_max (py_max o p) a) (f1 stacked_results)).
  assert (Hb : best_model_f1 df = Some (F1_Score r))
    by (unfold best_model_f1; by rewrite Hrow).
  assert (Hin : ∀ s, s ∈ df → F1_Score s ≤ top).
  { intros s Hs. unfold df, comparison_df in Hs. simpl in Hs.
    unfold top, o, p, a, original_f1, pca_f1, autoencoder_f1.
    repeat (apply elem_of_cons in Hs as [->|Hs]; [simpl; py_max_le|]).
    by apply elem_of_nil in Hs. }
  assert (Hex : ∃ s, s ∈ df ∧ F1_Score s = top).
  { unfold top, o, p, a, original_f1, pca_f1, autoencoder_f1.
    repeat apply py_max_ind.
    - exists (row_of "XGBoost" xgb_results). split; [|done].
      apply elem_of_cons. by left.
    - exists (row_of "LightGBM" lgb_results). split; [|done].
      do 1 (apply elem_of_cons; right). apply elem_of_cons. by left.
    - exists (row_of "XGBoost+PCA" xgb_pca_results). split; [|done].
      do 2 (apply elem_of_cons; right). apply elem_of_cons. by left.
    - exists (row_of "LightGBM+PCA" lgb_pca_results). split; [|done].
      do 3 (apply elem_of_cons; right). apply elem_of_cons. by left.
    - exists (row_of "XGBoost+Autoencoder" xgb_ae_results). split; [|done].
      do 4 (apply elem_of_cons; right). apply elem_of_cons. by left.
    - exists (row_of "LightGBM+Autoencoder" lgb_ae_results). split; [|done].
      do 5 (apply elem_of_cons; right). apply elem_of_cons. by left.
    - exists (row_of "Stacked Ensemble" stacked_results). split; [|done].
      do 6 (apply elem_of_cons; right). apply elem_of_cons. by left. }
  assert (Htop : F1_Score r = top).
  { apply Qcle_antisym.
    - apply Hin. by eapply list_elem_of_lookup_2.
    - destruct Hex as (s & Hs & <-). by apply Hmax. }
  split; [by rewrite Hb, Htop|].
  intros b Hb'. rewrite Hb in Hb'. injection Hb' as <-. rewrite Htop.
  assert (Ho : o ≤ top) by (unfold top; py_max_le).
  assert (Hp : p ≤ top) by (unfold top; py_max_le).
  assert (Ha : a ≤ top) by (unfold top; py_max_le).
  repeat split; try done.
  - unfold Qcminus. by apply Qcplus_le_mono_r.
  - unfold Qcminus. by apply Qcplus_le_mono_r.
Qed.

End SummaryProps.

Lemma sorted_comparison_puts_selected_score_first_witness :
  ∃ top, head (Summary.sorted_comparison Examples.tied_table) = Some top
       ∧ Selection.best_model_f1 Examples.tied_table = Some (F1_Score top)
       ∧ Selection.best_model_idx (Summary.sorted_comparison Examples.tied_table)
         = Some 0%nat
       ∧ Selection.best_model_row (Summary.sorted_comparison Examples.tied_table)
         = Some top.
Proof.
  apply (sorted_comparison_puts_selected_score_first Examples.tied_table).
  discriminate.
Defined.

(** ** Persistence: what is written, and what never is *)

Section PersistenceMore.

Import Persistence.

Local Open Scope list_scope.

Context {M P E : Type}.
Variables xgb_results lgb_results xgb_pca_results lgb_pca_results
          xgb_ae_results lgb_ae_results stacked_results : Result M.
Variable pca : P.
Variable encoder_model : E.

Let results_map :=
  model_results_map xgb_results lgb_results xgb_pca_results lgb_pca_results
    xgb_ae_results lgb_ae_results stacked_results.
Let save :=
  save_best_model (E := E) xgb_results lgb_results xgb_pca_results lgb_pca_results
    xgb_ae_results lgb_ae_results stacked_results pca encoder_model.
Let save_found :=
  save_found (E := E) stacked_results pca encoder_model.

(** Cell 25 when the lookup finds a bundle. *)
Lemma save_when_lookup_finds (name : string) (r : Result M)
    (feature_importance : list (string * Qc)) (fs : FileSystem M P E) :
  results_map !! name = Some r →
  save name feature_importance fs
  = (write_file importance_path (ImportanceCsv feature_importance)
       (save_found name r (makedirs "models" fs)).1,
     (save_found name r (makedirs "models" fs)).2
     ++ ["Feature importance information saved to models/feature_importance.csv"]).
Proof.
  intros Hr. unfold save, save_best_model. fold results_map. rewrite Hr.
  fold save_found. by destruct (save_found name r (makedirs "models" fs)).
Qed.

(** The three display names that are keys of [model_results_map]. *)
Lemma plain_names_are_keys (name : string) :
  name ∈ ["XGBoost"; "LightGBM"; "Stacked Ensemble"] →
  ∃ r, results_map !! name = Some r
     ∧ PyStr.contains "PCA" name = false
     ∧ PyStr.contains "Autoencoder" name = false
     ∧ (name = "Stacked Ensemble" → r = stacked_results).
Proof.
  intros H.
  repeat (apply elem_of_cons in H as [->|H];
          [eexists; split; [reflexivity|]; split; [reflexivity|];
           split; [reflexivity|]; try done; by intros _|]).
  by apply elem_of_nil in H.
Qed.

(** X4. When the winning display name is XGBoost, LightGBM or Stacked
    Ensemble, cell 25 creates the models directory and writes the
    winning model under its lower-cased name, the ensemble and the table
    of feature importance, and nothing else; it prints the two lines
    about the models and the line about the table.  For Stacked Ensemble
    the winning model and the ensemble are one file. *)
Theorem plain_winner_saves_model_ensemble_and_table
    (name : string) (feature_importance : list (string * Qc))
    (fs : FileSystem M P E) :
  name ∈ ["XGBoost"; "LightGBM"; "Stacked Ensemble"] →
  ∃ r, results_map !! name = Some r
     ∧ save name feature_importance fs
       = (mkFS ({[ "models" ]} ∪ dirs fs)
            (<[ importance_path := ImportanceCsv feature_importance ]>
             (<[ ensemble_path := ModelPickle (model stacked_results) ]>
              (<[ model_path name := ModelPickle (model r) ]> (files fs)))),
          ["Best model (" +:+ name +:+ ") saved to " +:+ model_path name;
           "Stacked ensemble model also saved to models/stacked_ensemble.pkl";
           "Feature importance information saved to models/feature_importance.csv"])
     ∧ (name = "Stacked Ensemble" →
        model_path name = ensemble_path ∧ r = stacked_results).
Proof.
  intros Hname.
  destruct (plain_names_are_keys name Hname) as (r & Hr & Hpca & Hae & Hst).
  exists r. split; [done|]. split.
  - rewrite (save_when_lookup_finds name r _ _ Hr).
    unfold save_found, Persistence.save_found. by rewrite Hpca, Hae.
  - intros ->. split; [reflexivity|by apply Hst].
Qed.

(** X5. Whatever display name of the comparison table wins, cell 25
    writes neither the projector file nor the encoder file: the names
    that contain PCA or Autoencoder are not found, and the names that
    are found contain neither word. *)
Theorem table_names_never_save_projector_or_encoder
    (name : string) (feature_importance : list (string * Qc))
    (fs : FileSystem M P E) :
  name ∈ Selection.models →
  files (save name feature_importance fs).1 !! pca_path = files fs !! pca_path
  ∧ files (save name feature_importance fs).1 !! encoder_path
    = files fs !! encoder_path.
Proof.
  intros Hname.
  assert (Hcases : name ∈ ["XGBoost"; "LightGBM"; "Stacked Ensemble"]
                   ∨ name ∈ plus_names).
  { unfold Selection.models, plus_names in *.
    repeat (apply elem_of_cons in Hname as [->|Hname];
            [rewrite !elem_of_cons; auto 10|]).
    by apply elem_of_nil in Hname. }
  destruct Hcases as [Hplain|Hplus].
  - destruct (plain_names_are_keys name Hplain) as (r & Hr & Hpca & Hae & _).
    rewrite (save_when_lookup_finds name r _ _ Hr).
    unfold save_found, Persistence.save_found. rewrite Hpca, Hae. simpl.
    assert (Hp : model_path name ≠ pca_path ∧ model_path name ≠ encoder_path).
    { repeat (apply elem_of_cons in Hplain as [->|Hplain]; [by split|]).
      by apply elem_of_nil in Hplain. }
    destruct Hp as [Hp1 Hp2].
    split; rewrite !lookup_insert_ne; done.
  - unfold save.
    rewrite (save_when_lookup_misses xgb_results lgb_results xgb_pca_results
               lgb_pca_results xgb_ae_results lgb_ae_results stacked_results
               pca encoder_model name feature_importance fs
               (plus_names_not_keys _ _ _ _ _ _ _ name Hplus)).
    simpl. split; by rewrite lookup_insert_ne.
Qed.

(** What the branch of a found bundle writes. *)
Lemma save_found_frame (name : string) (r : Result M) (fs : FileSystem M P E)
    (path : string) :
  path ∉ [model_path name; pca_path; encoder_path; ensemble_path] →
  files (save_found name r fs).1 !! path = files fs !! path
  ∧ dirs (save_found name r fs).1 = dirs fs.
Proof.
  intros Hpath. rewrite !not_elem_of_cons in Hpath.
  destruct Hpath as (H1 & H2 & H3 & H4 & _).
  unfold save_found, Persistence.save_found.
  destruct (PyStr.contains "PCA" name); [|destruct (PyStr.contains "Autoencoder" name)];
    simpl; rewrite !lookup_insert_ne by done; done.
Qed.

(** X6. For every winning name cell 25 leaves every file alone except
    the five it may write (the winning model, the projector, the
    encoder, the ensemble and the table of feature importance), and
    only adds [models] to the directories. *)
Theorem save_best_model_touches_only_its_files
    (name : string) (feature_importance : list (string * Qc))
    (fs : FileSystem M P E) (path : string) :
  path ∉ [model_path name; pca_path; encoder_path; ensemble_path;
          importance_path] →
  files (save name feature_importance fs).1 !! path = files fs !! path
  ∧ dirs (save name feature_importance fs).1 = {[ "models" ]} ∪ dirs fs.
Proof.
  intros Hpath.
  assert (Hcsv : path ≠ importance_path).
  { intros ->. apply Hpath. rewrite !elem_of_cons. auto 10. }
  assert (Hrest : path ∉ [model_path name; pca_path; encoder_path; ensemble_path]).
  { intros H. apply Hpath. rewrite !elem_of_cons in *. tauto. }
  destruct (results_map !! name) as [r|] eqn:Hr.
  - rewrite (save_when_lookup_finds name r _ _ Hr).
    destruct (save_found_frame name r (makedirs "models" fs) path Hrest)
      as [Hf Hd].
    unfold write_file. cbn [fst files dirs].
    rewrite lookup_insert_ne by done. by rewrite Hf, Hd.
  - unfold save.
    rewrite (save_when_lookup_misses xgb_results lgb_results xgb_pca_results
               lgb_pca_results xgb_ae_results lgb_ae_results stacked_results
               pca encoder_model name feature_importance fs Hr).
    simpl. by rewrite lookup_insert_ne.
Qed.

End PersistenceMore.

Section PersistenceCompose.

Import Persistence.

Local Open Scope list_scope.

Context {M P E : Type}.
Variables xgb_results lgb_results xgb_pca_results lgb_pca_results
          xgb_ae_results lgb_ae_results stacked_results : Result M.
Variable pca : P.
Variable encoder_model : E.

Let results := [xgb_results; lgb_results; xgb_pca_results; lgb_pca_results;
                xgb_ae_results; lgb_ae_results; stacked_results].
Let save :=
  save_best_model (E := E) xgb_results lgb_results xgb_pca_results lgb_pca_results
    xgb_ae_results lgb_ae_results stacked_results pca encoder_model.

(** The selected name is one of the seven display names. *)
Lemma best_model_name_in_models :
  ∃ name, Selection.best_model_name (Selection.comparison_df results) = Some name
        ∧ name ∈ Selection.models.
Proof.
  destruct (best_model_row_spec (Selection.comparison_df results))
    as (i & r & _ & Hr & Hrow & _); [done|].
  exists (Model r). split.
  - unfold Selection.best_model_name. by rewrite Hrow.
  - change Selection.models with (Model <$> Selection.comparison_df results).
    apply list_elem_of_fmap. exists r. split; [done|].
    by eapply list_elem_of_lookup_2.
Qed.

(** X7. Selection followed by persistence, for any seven result
    bundles and a models directory without an ensemble file: the
    selected name is one of the seven display names, and afterwards the
    ensemble file exists, holding the ensemble model, exactly when the
    selected name is XGBoost, LightGBM or Stacked Ensemble; for the four
    other names there is still no ensemble file. *)
Theorem ensemble_file_exists_iff_plain_winner
    (feature_importance : list (string * Qc)) (fs : FileSystem M P E) :
  files fs !! ensemble_path = None →
  ∃ name, Selection.best_model_name (Selection.comparison_df results) = Some name
        ∧ name ∈ Selection.models
        ∧ (files (save name feature_importance fs).1 !! ensemble_path
           = Some (ModelPickle (model stacked_results))
           ↔ name ∈ ["XGBoost"; "LightGBM"; "Stacked Ensemble"])
        ∧ (files (save name feature_importance fs).1 !! ensemble_path = None
           ↔ name ∈ plus_names).
Proof.
  intros Hnone.
  destruct best_model_name_in_models as (name & Hsel & Hname).
  exists name. split; [done|]. split; [done|].
  assert (Hplain : ∀ n, n ∈ ["XGBoost"; "LightGBM"; "Stacked Ensemble"] →
            files (save n feature_importance fs).1 !! ensemble_path
            = Some (ModelPickle (model stacked_results))
            ∧ n ∉ plus_names).
  { intros n Hn.
    repeat (apply elem_of_cons in Hn as [->|Hn];
            [split;
             [eapply (ensemble_saved_when_found xgb_results lgb_results
                        xgb_pca_results lgb_pca_results xgb_ae_results
                        lgb_ae_results stacked_results pca encoder_model);
              reflexivity
             |unfold plus_names; rewrite !not_elem_of_cons; repeat split; try done;
              apply not_elem_of_nil]|]).
    by apply elem_of_nil in Hn. }
  assert (Hplus : ∀ n, n ∈ plus_names →
            files (save n feature_importance fs).1 !! ensemble_path = None
            ∧ n ∉ ["XGBoost"; "LightGBM"; "Stacked Ensemble"]).
  { intros n Hn. split.
    - unfold save.
      rewrite (save_when_lookup_misses xgb_results lgb_results xgb_pca_results
                 lgb_pca_results xgb_ae_results lgb_ae_results stacked_results
                 pca encoder_model n feature_importance fs
                 (plus_names_not_keys _ _ _ _ _ _ _ n Hn)).
      simpl. by rewrite lookup_insert_ne.
    - unfold plus_names in Hn.
      repeat (apply elem_of_cons in Hn as [->|Hn];
              [rewrite !not_elem_of_cons; repeat split; try done;
               apply not_elem_of_nil|]).
      by apply elem_of_nil in Hn. }
  assert (Hcases : name ∈ ["XGBoost"; "LightGBM"; "Stacked Ensemble"]
                   ∨ name ∈ plus_names).
  { unfold Selection.models, plus_names in *.
    repeat (apply elem_of_cons in Hname as [->|Hname];
            [rewrite !elem_of_cons; auto 10|]).
    by apply elem_of_nil in Hname. }
  destruct Hcases as [Hc|Hc].
  - destruct (Hplain name Hc) as [Hsome Hnot]. rewrite Hsome.
    split; split; try done.
  - destruct (Hplus name Hc) as [Hn Hnot]. rewrite Hn.
    split; split; try done.
Qed.

(** X8. Running cell 25 a second time changes nothing: the same lines
    are printed and the file system is the one the first run left. *)
Theorem save_best_model_idempotent
    (name : string) (feature_importance : list (string * Qc))
    (fs : FileSystem M P E) :
  save name feature_importance (save name feature_importance fs).1
  = save name feature_importance fs.
Proof.
  unfold save, save_best_model.
  destruct (model_results_map _ _ _ _ _ _ _ !! name) as [r|].
  - unfold save_found, write_file, makedirs.
    destruct (PyStr.contains "PCA" name);
      [|destruct (PyStr.contains "Autoencoder" name)]; simpl;
      (f_equal; f_equal;
       [by rewrite (assoc_L (∪)), union_idemp_L
       |apply map_eq; intros k; rewrite !lookup_insert;
        repeat case_decide; done]).
  - unfold write_file, makedirs. simpl. f_equal. f_equal.
    + by rewrite (assoc_L (∪)), union_idemp_L.
    + by rewrite insert_insert_eq.
Qed.

End PersistenceCompose.

Lemma plain_winner_saves_model_ensemble_and_table_witness :
  ∃ r,
    Persistence.model_results_map
      (Examples.bundle "xgb" 88) (Examples.bundle "lgb" 89)
      (Examples.bundle "xgb_pca" 93) (Examples.bundle "lgb_pca" 90)
      (Examples.bundle "xgb_ae" 85) (Examples.bundle "lgb_ae" 86)
      (Examples.bundle "stacked" 92) !! "Stacked Ensemble" = Some r
    ∧ Examples.save_pca_wins "Stacked Ensemble"
      = (Persistence.mkFS ({[ "models" ]} ∪ ∅)
           (<[ Persistence.importance_path
               := Persistence.ImportanceCsv [("glucose", hundredths 40)] ]>
            (<[ Persistence.ensemble_path := Persistence.ModelPickle "stacked" ]>
             (<[ Persistence.model_path "Stacked Ensemble"
                 := Persistence.ModelPickle (model r) ]> ∅))),
         ["Best model (Stacked Ensemble) saved to models/stacked_ensemble.pkl";
          "Stacked ensemble model also saved to models/stacked_ensemble.pkl";
          "Feature importance information saved to models/feature_importance.csv"])
    ∧ ("Stacked Ensemble" = "Stacked Ensemble" →
       Persistence.model_path "Stacked Ensemble" = Persistence.ensemble_path
       ∧ r = Examples.bundle "stacked" 92).
Proof.
  apply (plain_winner_saves_model_ensemble_and_table
           (Examples.bundle "xgb" 88) (Examples.bundle "lgb" 89)
           (Examples.bundle "xgb_pca" 93) (Examples.bundle "lgb_pca" 90)
           (Examples.bundle "xgb_ae" 85) (Examples.bundle "lgb_ae" 86)
           (Examples.bundle "stacked" 92) "pca" "encoder_model"
           "Stacked Ensemble" [("glucose", hundredths 40)]
           (Persistence.mkFS ∅ ∅)).
  do 2 (apply elem_of_cons; right). apply elem_of_cons. by left.
Defined.

Lemma table_names_never_save_projector_or_encoder_witness :
  Persistence.files (Examples.save_pca_wins "XGBoost+PCA").1
    !! Persistence.pca_path = None
  ∧ Persistence.files (Examples.save_pca_wins "XGBoost+PCA").1
      !! Persistence.encoder_path = None.
Proof.
  change (None : option (Persistence.Artifact string string string))
    with (Persistence.files (Persistence.mkFS (M := string) (P := string)
                               (E := string) ∅ ∅) !! Persistence.pca_path) at 1.
  change (None : option (Persistence.Artifact string string string))
    with (Persistence.files (Persistence.mkFS (M := string) (P := string)
                               (E := string) ∅ ∅) !! Persistence.encoder_path).
  apply (table_names_never_save_projector_or_encoder
           (Examples.bundle "xgb" 88) (Examples.bundle "lgb" 89)
           (Examples.bundle "xgb_pca" 93) (Examples.bundle "lgb_pca" 90)
           (Examples.bundle "xgb_ae" 85) (Examples.bundle "lgb_ae" 86)
           (Examples.bundle "stacked" 92) "pca" "encoder_model"
           "XGBoost+PCA" [("glucose", hundredths 40)]
           (Persistence.mkFS ∅ ∅)).
  do 2 (apply elem_of_cons; right). apply elem_of_cons. by left.
Defined.

Lemma save_best_model_touches_only_its_files_witness :
  Persistence.files (Examples.save_pca_wins "LightGBM").1 !! "models/notes.txt"
  = None
  ∧ Persistence.dirs (Examples.save_pca_wins "LightGBM").1 = {[ "models" ]} ∪ ∅.
Proof.
  change (None : option (Persistence.Artifact string string string))
    with (Persistence.files (Persistence.mkFS (M := string) (P := string)
                               (E := string) ∅ ∅) !! "models/notes.txt").
  apply (save_best_model_touches_only_its_files
           (Examples.bundle "xgb" 88) (Examples.bundle "lgb" 89)
           (Examples.bundle "xgb_pca" 93) (Examples.bundle "lgb_pca" 90)
           (Examples.bundle "xgb_ae" 85) (Examples.bundle "lgb_ae" 86)
           (Examples.bundle "stacked" 92) "pca" "encoder_model"
           "LightGBM" [("glucose", hundredths 40)]
           (Persistence.mkFS ∅ ∅) "models/notes.txt").
  intros H.
  repeat (apply elem_of_cons in H as [H|H]; [by vm_compute in H|]).
  by apply elem_of_nil in H.
Defined.

Lemma ensemble_file_exists_iff_plain_winner_witness :
  ∃ name,
    Selection.best_model_name (Selection.comparison_df Examples.pca_wins)
    = Some name
    ∧ name ∈ Selection.models
    ∧ (Persistence.files (Examples.save_pca_wins name).1
         !! Persistence.ensemble_path
       = Some (Persistence.ModelPickle "stacked")
       ↔ name ∈ ["XGBoost"; "LightGBM"; "Stacked Ensemble"])
    ∧ (Persistence.files (Examples.save_pca_wins name).1
         !! Persistence.ensemble_path = None
       ↔ name ∈ Persistence.plus_names).
Proof.
  apply (ensemble_file_exists_iff_plain_winner
           (Examples.bundle "xgb" 88) (Examples.bundle "lgb" 89)
           (Examples.bundle "xgb_pca" 93) (Examples.bundle "lgb_pca" 90)
           (Examples.bundle "xgb_ae" 85) (Examples.bundle "lgb_ae" 86)
           (Examples.bundle "stacked" 92) "pca" "encoder_model"
           [("glucose", hundredths 40)] (Persistence.mkFS ∅ ∅)).
  reflexivity.
Defined.

(** ** The name of the model file *)

Section FileNames.

Local Open Scope list_scope.

(** A character of the file name: not a space, not a capital letter. *)
Definition plain_char (c : ascii) : Prop :=
  c ≠ " "%char ∧ ¬ (65 ≤ nat_of_ascii c ≤ 90)%nat.

Lemma lower_replace_char_plain (c : ascii) :
  plain_char (PyStr.lower_char (if Ascii.eqb c " " then "_"%char else c)).
Proof.
  destruct c as [[] [] [] [] [] [] [] []]; cbv; (split; [discriminate|lia]).
Qed.

Lemma map_chars_length (f : ascii → ascii) (s : string) :
  String.length (PyStr.map_chars f s) = String.length s.
Proof. induction s as [|c s IH]; simpl; [done|by rewrite IH]. Qed.

Lemma lower_replace_plain (s : string) :
  Forall plain_char
    (list_ascii_of_string (PyStr.lower (PyStr.replace " " "_" s))).
Proof.
  induction s as [|c s IH]; [constructor|].
  constructor; [apply lower_replace_char_plain|exact IH].
Qed.

(** X9. The model file is named after the winning display name with
    every space replaced by an underscore and every capital letter by
    its small letter: the name has the length of the display name and
    holds no space and no capital letter, between the directory and the
    extension [.pkl]. *)
Theorem model_path_has_no_space_or_capital (best_model_name : string) :
  let stem := PyStr.lower (PyStr.replace " " "_" best_model_name) in
  Persistence.model_path best_model_name = "models/" +:+ stem +:+ ".pkl"
  ∧ String.length stem = String.length best_model_name
  ∧ Forall plain_char (list_ascii_of_string stem).
Proof.
  split; [reflexivity|]. split; [|apply lower_replace_plain].
  unfold PyStr.lower, PyStr.replace. by rewrite !map_chars_length.
Qed.

End FileNames.

(** ** Loading: what cell 3 binds, reports and lets through *)

Section LoadingMore.

Import Loading.

Local Open Scope list_scope.

Variable disk : gmap string (list Byte.byte).
Variable pickle_load : list Byte.byte -> res Obj.
Variable format_obj : Obj -> string.

Let try_load := try_load disk pickle_load format_obj.
Let cell_load := cell_load disk pickle_load format_obj.

(** The assignments leave every other global alone. *)
Lemma assign_keys_frame (data : Obj) (keys : list string) (env : Env) (x : string) :
  x ∉ keys → (assign_keys data keys env).1 !! x = env !! x.
Proof.
  revert env. induction keys as [|k keys IH]; intros env Hx; simpl; [done|].
  apply not_elem_of_cons in Hx as [Hk Hx].
  destruct (subscript data k) as [v|e]; simpl; [|done].
  rewrite IH by done. by rewrite lookup_insert_ne.
Qed.

(** The assignments from a dictionary: all made when every key is
    present; otherwise those before the first missing key, and a
    KeyError for that key. *)
Lemma assign_keys_dict (d : gmap string Value) (keys : list string) (env : Env) :
  match assign_keys (ODict d) keys env with
  | (env', None) =>
      (∀ k, k ∈ keys → is_Some (d !! k))
      ∧ ∀ x, x ∈ keys → env' !! x = OVal <$> d !! x
  | (env', Some e) =>
      ∃ pre k post, keys = pre ++ k :: post
        ∧ (∀ k', k' ∈ pre → is_Some (d !! k'))
        ∧ d !! k = None ∧ e = KeyError k
        ∧ (∀ x, x ∈ pre → env' !! x = OVal <$> d !! x)
        ∧ (∀ x, x ∉ pre → env' !! x = env !! x)
  end.
Proof.
  revert env. induction keys as [|k keys IH]; intros env; simpl.
  - split; intros x Hx; by apply elem_of_nil in Hx.
  - destruct (d !! k) as [v|] eqn:Hk; simpl.
    + specialize (IH (<[ k := OVal v ]> env)).
      pose proof (assign_keys_frame (ODict d) keys (<[ k := OVal v ]> env)) as Hfr.
      destruct (assign_keys (ODict d) keys (<[ k := OVal v ]> env))
        as [env' [e|]]; simpl in Hfr.
      * destruct IH as (pre & k0 & post & -> & Hpre & Hk0 & -> & Hin & Hout).
        exists (k :: pre), k0, post. split; [done|].
        split; [intros k' [->|?]%elem_of_cons; [by rewrite Hk|by apply Hpre]|].
        split; [done|]. split; [done|]. split.
        -- intros x Hx. destruct (decide (x ∈ pre)) as [?|Hn]; [by apply Hin|].
           apply elem_of_cons in Hx as [->|?]; [|done].
           rewrite Hout by done. by rewrite lookup_insert_eq, Hk.
        -- intros x [Hne Hn]%not_elem_of_cons.
           rewrite Hout by done. by rewrite lookup_insert_ne.
      * destruct IH as [Hall Hin]. split.
        -- intros k' [->|?]%elem_of_cons; [by rewrite Hk|by apply Hall].
        -- intros x Hx. destruct (decide (x ∈ keys)) as [?|Hn]; [by apply Hin|].
           apply elem_of_cons in Hx as [->|?]; [|done].
           rewrite Hfr by done. by rewrite lookup_insert_eq, Hk.
    + exists [], k, keys. repeat split; try done.
      all: intros x Hx; by apply elem_of_nil in Hx.
Qed.

(** The first missing key of a list of keys is determined. *)
Lemma first_missing_key_unique (d : gmap string Value)
    (pre pre' post post' : list string) (k k' : string) :
  pre ++ k :: post = pre' ++ k' :: post' →
  (∀ x, x ∈ pre → is_Some (d !! x)) →
  (∀ x, x ∈ pre' → is_Some (d !! x)) →
  d !! k = None → d !! k' = None →
  pre = pre' ∧ k = k'.
Proof.
  revert pre'.
  induction pre as [|p pre IH]; intros [|p' pre'] Heq Hpre Hpre' Hk Hk';
    simpl in Heq; injection Heq as H1 H2.
  - done.
  - destruct (Hpre' p') as [v Hv]; [by left|]. rewrite <- H1 in Hv. congruence.
  - destruct (Hpre p) as [v Hv]; [by left|]. rewrite H1 in Hv. congruence.
  - destruct (IH pre' H2) as [-> ->]; try done.
    + intros x Hx. apply Hpre. by right.
    + intros x Hx. apply Hpre'. by right.
    + by rewrite H1.
Qed.

(** What ends the [try] body after the unpickling is an exception of
    the class Exception. *)
Lemma assign_keys_error_is_Exception (data : Obj) (keys : list string)
    (env env' : Env) (e : exn) :
  assign_keys data keys env = (env', Some e) → is_Exception e = true.
Proof.
  revert env. induction keys as [|k keys IH]; intros env; simpl; [done|].
  destruct (subscript data k) as [v|e0] eqn:Hs; [by apply IH|].
  intros [= _ <-]. unfold subscript in Hs.
  destruct data as [d|v|path]; [destruct (d !! k)| |]; by simplify_eq.
Qed.

Lemma report_loaded_error_is_Exception (env : Env) (e : exn) :
  report_loaded format_obj env = Raise e → is_Exception e = true.
Proof.
  unfold report_loaded, load_name, shape_str.
  repeat (match goal with
          | |- context [env !! ?x] => destruct (env !! x) as [[?|[]|?]|]; simpl
          end; try by intros [= <-]).
Qed.

(** X10. Cell 3 ends with an exception only when the file is there and
    the unpickler raises an exception that is not of the class Exception
    (an interrupt, an exit); the exception is then let through, the file
    is left bound to [f], nothing else is bound and no error line is
    printed.  A failure of any other kind, a missing file, a missing key
    or a value without a shape among them, is caught. *)
Theorem cell_load_lets_through_only_non_Exception (env : Env) (e : exn) :
  raised (cell_load env) = Some e ↔
  ∃ bytes, disk !! data_path = Some bytes ∧ pickle_load bytes = Raise e
         ∧ is_Exception e = false
         ∧ cell_load env
           = mkRun (<[ "f" := OFile data_path ]> env)
               ["Loading preprocessed data..."] (Some e).
Proof.
  unfold cell_load, Loading.cell_load, Loading.try_load, open_rb.
  destruct (disk !! data_path) as [bytes|] eqn:Hd.
  2:{ simpl. split; [done|]. intros (b & ? & _). done. }
  destruct (pickle_load bytes) as [data|e0] eqn:Hp.
  2:{ destruct (is_Exception e0) eqn:He; simpl.
      - split; [done|]. intros (b & [= <-] & Hb & Hn & _). congruence.
      - split.
        + intros [= <-]. by exists bytes.
        + intros (b & [= <-] & Hb & _). congruence. }
  split; [|intros (b & [= <-] & Hb & _); congruence].
  destruct (assign_keys data data_keys _) as [env1 [e1|]] eqn:Ha.
  - apply assign_keys_error_is_Exception in Ha. by rewrite Ha.
  - destruct (report_loaded format_obj env1) as [lines|e1] eqn:Hr; [done|].
    apply report_loaded_error_is_Exception in Hr. by rewrite Hr.
Qed.

(** X11. Whatever happens in cell 3, the only globals it can bind, rebind
    or unbind are [f], which the [with] statement binds to the file, [e],
    which the [except] clause unbinds, [preprocessed_data] and the five
    names it reads from the artifact; every other global keeps its
    value.  When the cell has printed the error line, [e] is unbound,
    whatever it held before; when the file is there, [f] holds the file,
    whatever else happens. *)
Theorem cell_load_binds_only_its_names (env : Env) :
  (∀ x, x ∉ "f" :: "e" :: "preprocessed_data" :: data_keys →
        env_after (cell_load env) !! x = env !! x)
  ∧ (∀ e, (try_load env).2 = Some e → is_Exception e = true →
          env_after (cell_load env) !! "e" = None)
  ∧ ((try_load env).2 = None →
     env_after (cell_load env) !! "e" = env !! "e")
  ∧ (is_Some (disk !! data_path) →
     env_after (cell_load env) !! "f" = Some (OFile data_path))
  ∧ (disk !! data_path = None →
     env_after (cell_load env) !! "f" = env !! "f").
Proof.
  assert (Hf : "f" ∉ data_keys) by (apply (bool_decide_unpack _); by vm_compute).
  assert (He : "e" ∉ data_keys) by (apply (bool_decide_unpack _); by vm_compute).
  assert (Htry : ∀ x, x ∉ data_keys → x ≠ "preprocessed_data" →
            (try_load env).1.1 !! x
            = if bool_decide (x = "f" ∧ is_Some (disk !! data_path))
              then Some (OFile data_path) else env !! x).
  { intros x Hkeys Hx. unfold try_load, Loading.try_load, open_rb.
    destruct (disk !! data_path) as [bytes|] eqn:Hd.
    2:{ simpl. rewrite bool_decide_eq_false_2; [done|].
        intros [_ [? ?]]. done. }
    assert (Hbase : <[ "f" := OFile data_path ]> env !! x
                    = if bool_decide (x = "f" ∧ is_Some (Some bytes))
                      then Some (OFile data_path) else env !! x).
    { destruct (decide (x = "f")) as [->|Hne].
      - rewrite lookup_insert_eq. by rewrite bool_decide_eq_true_2.
      - rewrite lookup_insert_ne by done.
        rewrite bool_decide_eq_false_2; [done|]. by intros [? _]. }
    destruct (pickle_load bytes) as [data|]; [|done].
    pose proof (assign_keys_frame data data_keys
                  (<[ "preprocessed_data" := data ]>
                     (<[ "f" := OFile data_path ]> env)) x Hkeys) as Hfr.
    rewrite lookup_insert_ne in Hfr by done.
    destruct (assign_keys data data_keys _) as [env1 [e1|]]; simpl in *.
    - by rewrite Hfr.
    - destruct (report_loaded format_obj env1); simpl; by rewrite Hfr. }
  unfold cell_load, Loading.cell_load. fold try_load.
  destruct (try_load env) as [[env1 lines] [e|]] eqn:Hrun; simpl in *.
  - split; [|split; [|split; [done|split]]].
    + intros x (Hxf & [Hxe [Hxp Hkeys]%not_elem_of_cons]%not_elem_of_cons)%not_elem_of_cons.
      specialize (Htry x Hkeys Hxp).
      rewrite bool_decide_eq_false_2 in Htry by (by intros [? _]).
      destruct (is_Exception e); simpl; [by rewrite lookup_delete_ne|done].
    + intros e' [= <-] ->. simpl. by rewrite lookup_delete_eq.
    + intros Hsome. specialize (Htry "f" Hf ltac:(done)).
      rewrite bool_decide_eq_true_2 in Htry by done.
      destruct (is_Exception e); simpl; [by rewrite lookup_delete_ne|done].
    + intros Hnone. specialize (Htry "f" Hf ltac:(done)).
      rewrite bool_decide_eq_false_2 in Htry
        by (rewrite Hnone; intros [_ [? ?]]; done).
      destruct (is_Exception e); simpl; [by rewrite lookup_delete_ne|done].
  - split; [|split; [done|split; [|split]]].
    + intros x (Hxf & [Hxe [Hxp Hkeys]%not_elem_of_cons]%not_elem_of_cons)%not_elem_of_cons.
      specialize (Htry x Hkeys Hxp).
      by rewrite bool_decide_eq_false_2 in Htry by (by intros [? _]).
    + intros _. specialize (Htry "e" He ltac:(done)).
      by rewrite bool_decide_eq_false_2 in Htry by (by intros [? _]).
    + intros Hsome. specialize (Htry "f" Hf ltac:(done)).
      by rewrite bool_decide_eq_true_2 in Htry by done.
    + intros Hnone. specialize (Htry "f" Hf ltac:(done)).
      by rewrite bool_decide_eq_false_2 in Htry
        by (rewrite Hnone; intros [_ [? ?]]; done).
Qed.

(** X12. When the artifact is a dictionary that lacks one of the five
    keys, cell 3 completes and prints the missing key as the error; the
    dictionary is bound to [preprocessed_data], the globals for the keys
    before the missing one hold the values of the artifact, and the
    global for the missing key and those after it keep what they held
    before, bound or not. *)
Theorem missing_key_leaves_later_globals (env : Env) (bytes : list Byte.byte)
    (d : gmap string Value) (pre post : list string) (k : string) :
  disk !! data_path = Some bytes →
  pickle_load bytes = Ok (ODict d) →
  data_keys = pre ++ k :: post →
  (∀ k', k' ∈ pre → is_Some (d !! k')) →
  d !! k = None →
  raised (cell_load env) = None
  ∧ printed (cell_load env)
    = ["Loading preprocessed data...";
       "Error loading preprocessed data: '" +:+ k +:+ "'"]
  ∧ env_after (cell_load env) !! "preprocessed_data" = Some (ODict d)
  ∧ (∀ x, x ∈ pre → env_after (cell_load env) !! x = OVal <$> d !! x)
  ∧ (∀ x, x ∈ k :: post → env_after (cell_load env) !! x = env !! x).
Proof.
  intros Hd Hp Hkeys Hpre Hk.
  assert (Hnd : NoDup (pre ++ k :: post)).
  { rewrite <- Hkeys. apply (bool_decide_unpack _). by vm_compute. }
  assert (Hpd : "preprocessed_data" ∉ pre ++ k :: post).
  { rewrite <- Hkeys. apply (bool_decide_unpack _). by vm_compute. }
  assert (Hf : "f" ∉ pre ++ k :: post).
  { rewrite <- Hkeys. apply (bool_decide_unpack _). by vm_compute. }
  assert (He : "e" ∉ pre ++ k :: post).
  { rewrite <- Hkeys. apply (bool_decide_unpack _). by vm_compute. }
  pose proof (assign_keys_dict d data_keys
                (<[ "preprocessed_data" := ODict d ]>
                   (<[ "f" := OFile data_path ]> env))) as Hspec.
  unfold cell_load, Loading.cell_load, Loading.try_load, open_rb.
  rewrite Hd, Hp.
  destruct (assign_keys (ODict d) data_keys _) as [env1 [e1|]].
  - destruct Hspec as (pre' & k0 & post' & Heq & Hpre' & Hk0 & -> & Hin & Hout).
    assert (Hsame : pre' = pre ∧ k0 = k).
    { rewrite Hkeys in Heq. symmetry in Heq.
      destruct (first_missing_key_unique d _ _ _ _ _ _ Heq Hpre' Hpre Hk0 Hk).
      by split. }
    destruct Hsame as [-> ->]. simpl.
    split; [done|]. split; [done|].
    apply NoDup_app in Hnd as (_ & Hdisj & _).
    apply not_elem_of_app in Hpd as [Hpd1 Hpd2].
    apply not_elem_of_app in Hf as [Hf1 Hf2].
    apply not_elem_of_app in He as [He1 He2].
    split; [by rewrite lookup_delete_ne, Hout, lookup_insert_eq|].
    split.
    + intros x Hx. rewrite lookup_delete_ne by (by intros <-). by apply Hin.
    + intros x Hx.
      assert (x ∉ pre) by (intros ?; by eapply Hdisj).
      rewrite lookup_delete_ne by (by intros <-).
      rewrite Hout by done.
      rewrite !lookup_insert_ne by (by intros <-). done.
  - destruct Hspec as [Hall _].
    destruct (Hall k) as [v Hv]; [rewrite Hkeys; apply elem_of_app; right; by left|].
    congruence.
Qed.

End LoadingMore.

Section LoadingSuccess.

Import Loading.

Local Open Scope list_scope.

Variable disk : gmap string (list Byte.byte).
Variable pickle_load : list Byte.byte -> res Obj.
Variable format_obj : Obj -> string.

Let cell_load := cell_load disk pickle_load format_obj.

(** X13. When the artifact is a dictionary with the five keys whose
    [X_train] and [X_test] are frames, cell 3 completes without an error
    line.  It prints the two shapes, each the number of rows and the
    number of columns of the frame, and the feature names as Python
    renders them; it binds [f] to the file, [preprocessed_data] to the
    dictionary and the five names to its values, and leaves [e] as it
    was.  The matrices a later cell reads from [X_train] and [X_test] are
    those of the artifact. *)
Theorem well_formed_artifact_is_bound (env : Env) (bytes : list Byte.byte)
    (d : gmap string Value) (columns_train columns_test : list string)
    (X_train X_test : Matrix) (y_train y_test feature_names : Value) :
  disk !! data_path = Some bytes →
  pickle_load bytes = Ok (ODict d) →
  d !! "X_train" = Some (VMatrix columns_train X_train) →
  d !! "X_test" = Some (VMatrix columns_test X_test) →
  d !! "y_train" = Some y_train →
  d !! "y_test" = Some y_test →
  d !! "feature_names" = Some feature_names →
  cell_load env
  = mkRun
      (<[ "feature_names" := OVal feature_names ]>
       (<[ "y_test" := OVal y_test ]>
        (<[ "y_train" := OVal y_train ]>
         (<[ "X_test" := OVal (VMatrix columns_test X_test) ]>
          (<[ "X_train" := OVal (VMatrix columns_train X_train) ]>
           (<[ "preprocessed_data" := ODict d ]>
            (<[ "f" := OFile data_path ]> env)))))))
      ["Loading preprocessed data...";
       "Data loaded successfully. Training shape: "
         +:+ ("(" +:+ pretty (length X_train) +:+ ", "
                  +:+ pretty (length columns_train) +:+ ")")
         +:+ ", Test shape: "
         +:+ ("(" +:+ pretty (length X_test) +:+ ", "
                  +:+ pretty (length columns_test) +:+ ")");
       "Selected features: " +:+ format_obj (OVal feature_names)]
      None
  ∧ load_matrix (env_after (cell_load env)) "X_train" = Ok X_train
  ∧ load_matrix (env_after (cell_load env)) "X_test" = Ok X_test
  ∧ env_after (cell_load env) !! "e" = env !! "e".
Proof.
  intros Hd Hp H1 H2 H3 H4 H5.
  assert (Hcell : cell_load env = mkRun
      (<[ "feature_names" := OVal feature_names ]>
       (<[ "y_test" := OVal y_test ]>
        (<[ "y_train" := OVal y_train ]>
         (<[ "X_test" := OVal (VMatrix columns_test X_test) ]>
          (<[ "X_train" := OVal (VMatrix columns_train X_train) ]>
           (<[ "preprocessed_data" := ODict d ]>
            (<[ "f" := OFile data_path ]> env)))))))
      ["Loading preprocessed data...";
       "Data loaded successfully. Training shape: "
         +:+ ("(" +:+ pretty (length X_train) +:+ ", "
                  +:+ pretty (length columns_train) +:+ ")")
         +:+ ", Test shape: "
         +:+ ("(" +:+ pretty (length X_test) +:+ ", "
                  +:+ pretty (length columns_test) +:+ ")");
       "Selected features: " +:+ format_obj (OVal feature_names)]
      None).
  { unfold cell_load, Loading.cell_load, Loading.try_load, open_rb.
    rewrite Hd, Hp. unfold data_keys.
    cbn [assign_keys subscript]. rewrite H1.
    cbn [assign_keys subscript]. rewrite H2.
    cbn [assign_keys subscript]. rewrite H3.
    cbn [assign_keys subscript]. rewrite H4.
    cbn [assign_keys subscript]. rewrite H5.
    cbn [assign_keys subscript].
    set (env1 := <[ "feature_names" := OVal feature_names ]> _).
    assert (HX : env1 !! "X_train" = Some (OVal (VMatrix columns_train X_train)))
      by (unfold env1; by rewrite !lookup_insert_ne, lookup_insert_eq by done).
    assert (HT : env1 !! "X_test" = Some (OVal (VMatrix columns_test X_test)))
      by (unfold env1; by rewrite !lookup_insert_ne, lookup_insert_eq by done).
    assert (HF : env1 !! "feature_names" = Some (OVal feature_names))
      by (unfold env1; by rewrite lookup_insert_eq).
    unfold report_loaded, load_name. rewrite HX, HT, HF.
    cbn [mbind res_bind mret res_ret shape_str].
    reflexivity. }
  rewrite Hcell. split; [done|]. cbn [env_after].
  unfold load_matrix, load_name.
  split; [|split].
  - by rewrite !lookup_insert_ne, lookup_insert_eq by done.
  - by rewrite !lookup_insert_ne, lookup_insert_eq by done.
  - by rewrite !lookup_insert_ne by done.
Qed.

End LoadingSuccess.

Lemma cell_load_lets_through_only_non_Exception_witness :
  Loading.raised
    (Loading.cell_load {[ Loading.data_path := [Byte.x80] ]}
       MoreExamples.interrupted_pickle Examples.show_names ∅)
  = Some KeyboardInterrupt.
Proof.
  apply (proj2 (cell_load_lets_through_only_non_Exception
                  {[ Loading.data_path := [Byte.x80] ]}
                  MoreExamples.interrupted_pickle Examples.show_names
                  ∅ KeyboardInterrupt)).
  exists [Byte.x80]. repeat split; reflexivity.
Defined.

Lemma cell_load_binds_only_its_names_witness :
  Loading.env_after
    (Loading.cell_load {[ Loading.data_path := [Byte.x80] ]}
       Examples.good_pickle Examples.show_names
       MoreExamples.kernel_with_model) !! "xgb_model"
  = Some (Loading.OVal Loading.VNone)
  ∧ Loading.env_after
      (Loading.cell_load {[ Loading.data_path := [Byte.x80; Byte.x04] ]}
         Examples.corrupt_pickle Examples.show_names
         {[ "e" := Loading.OVal Loading.VNone ]}) !! "e"
    = None.
Proof.
  split.
  - apply (proj1 (cell_load_binds_only_its_names
                    {[ Loading.data_path := [Byte.x80] ]}
                    Examples.good_pickle Examples.show_names
                    MoreExamples.kernel_with_model) "xgb_model").
    apply (bool_decide_unpack _). by vm_compute.
  - apply (proj1 (proj2 (cell_load_binds_only_its_names
                    {[ Loading.data_path := [Byte.x80; Byte.x04] ]}
                    Examples.corrupt_pickle Examples.show_names
                    {[ "e" := Loading.OVal Loading.VNone ]}))
             (UnpicklingError "pickle data was truncated"));
      reflexivity.
Defined.

Lemma missing_key_leaves_later_globals_witness :
  let r := Loading.cell_load {[ Loading.data_path := [Byte.x80] ]}
             Examples.short_pickle Examples.show_names
             MoreExamples.kernel_with_model in
  Loading.raised r = None
  ∧ Loading.printed r
    = ["Loading preprocessed data...";
       "Error loading preprocessed data: 'X_test'"]
  ∧ Loading.env_after r !! "preprocessed_data"
    = Some (Loading.ODict
              {[ "X_train" := Loading.VMatrix ["glucose"] Examples.toy_X_train ]})
  ∧ (∀ x, x ∈ ["X_train"] →
       Loading.env_after r !! x
       = Loading.OVal <$>
         ({[ "X_train" := Loading.VMatrix ["glucose"] Examples.toy_X_train ]}
            : gmap string Loading.Value) !! x)
  ∧ (∀ x, x ∈ ["X_test"; "y_train"; "y_test"; "feature_names"] →
       Loading.env_after r !! x = MoreExamples.kernel_with_model !! x).
Proof.
  apply (missing_key_leaves_later_globals {[ Loading.data_path := [Byte.x80] ]}
           Examples.short_pickle Examples.show_names
           MoreExamples.kernel_with_model [Byte.x80]
           {[ "X_train" := Loading.VMatrix ["glucose"] Examples.toy_X_train ]}
           ["X_train"] ["y_train"; "y_test"; "feature_names"] "X_test").
  - reflexivity.
  - reflexivity.
  - reflexivity.
  - intros k' Hk'. apply list_elem_of_singleton in Hk' as ->. by eexists.
  - reflexivity.
Defined.

Lemma well_formed_artifact_is_bound_witness :
  Loading.printed
    (Loading.cell_load {[ Loading.data_path := [Byte.x80] ]}
       Examples.good_pickle Examples.show_names ∅)
  = ["Loading preprocessed data...";
     "Data loaded successfully. Training shape: (4, 1), Test shape: (3, 1)";
     "Selected features: ['glucose']"]
  ∧ Loading.load_matrix
      (Loading.env_after
         (Loading.cell_load {[ Loading.data_path := [Byte.x80] ]}
            Examples.good_pickle Examples.show_names ∅)) "X_train"
    = Ok Examples.toy_X_train
  ∧ Loading.load_matrix
      (Loading.env_after
         (Loading.cell_load {[ Loading.data_path := [Byte.x80] ]}
            Examples.good_pickle Examples.show_names ∅)) "X_test"
    = Ok Examples.toy_X_test.
Proof.
  destruct (well_formed_artifact_is_bound
              {[ Loading.data_path := [Byte.x80] ]}
              Examples.good_pickle Examples.show_names ∅ [Byte.x80]
              (<[ "feature_names" := Loading.VNames ["glucose"] ]>
               (<[ "y_test" := Loading.VLabels Examples.toy_y_test ]>
                (<[ "y_train" := Loading.VLabels Examples.toy_y_train ]>
                 (<[ "X_test" := Loading.VMatrix ["glucose"] Examples.toy_X_test ]>
                  (<[ "X_train" := Loading.VMatrix ["glucose"] Examples.toy_X_train ]> ∅)))))
              ["glucose"] ["glucose"]
              Examples.toy_X_train Examples.toy_X_test
              (Loading.VLabels Examples.toy_y_train)
              (Loading.VLabels Examples.toy_y_test)
              (Loading.VNames ["glucose"]))
    as (Hcell & HX & HT & _); try reflexivity.
  split; [|split; [exact HX|exact HT]].
  rewrite Hcell. reflexivity.
Defined.

(** ** Dimensionality reduction: when cell 6 succeeds, and the encoded
       features *)

Section ReductionMore.

Import Reduction.

Local Open Scope Qc_scope.
Local Open Scope list_scope.

Variable pca_fit : nat -> Matrix -> res PCAParams.

Let pca_trial := pca_trial pca_fit.
Let cell_pca := cell_pca pca_fit.

(** A trial succeeds exactly when the solver does and the fitted
    projector accepts the test matrix. *)
Lemma pca_trial_Ok_iff (X_train X_test : Matrix) (n : nat) (r : PCA * Matrix * Matrix) :
  pca_trial X_train X_test n = Ok r ↔
  ∃ p, pca_fit n X_train = Ok p ∧ accepted p X_test
     ∧ r = (mkPCA n (Some p) [X_train], project p <$> X_train, project p <$> X_test).
Proof.
  unfold pca_trial, Reduction.pca_trial, fit_transform. simpl.
  destruct (pca_fit n X_train) as [p|e]; simpl.
  2:{ split; [done|]. intros (p & ? & _). done. }
  destruct (transform (mkPCA n (Some p) [X_train]) X_test)
    as [[pca' Y]|e] eqn:Htr; simpl.
  - apply transform_Ok in Htr as (p' & [= <-] & Hne & Hw & Hc & -> & ->).
    split.
    + intros [= <-]. by exists p.
    + intros (p' & [= <-] & _ & ->). done.
  - split; [done|]. intros (p' & [= <-] & (Hne & Hw & Hc) & _).
    assert (Hok : transform (mkPCA n (Some p) [X_train]) X_test
                  = Ok (mkPCA n (Some p) [X_train], project p <$> X_test)).
    { apply transform_Ok. by exists p. }
    congruence.
Qed.

(** X14. The fits and the projections of cell 6 all return exactly when
    the solver succeeds on the training matrix for 5, 7 and 9 axes and
    each fitted projector accepts the test matrix, which must have a row,
    a column, and in every row the width of the training matrix; they
    then yield the three objects of the trials, and the projector on 7
    axes with the two projections.
    When the trials with 5 and 7 axes succeed and the solver fails for 9
    axes, the cell ends with that failure and no projector is kept,
    though 7 axes were possible.  On a test matrix with no row the cell
    ends with a ValueError as soon as the solver has succeeded for 5
    axes. *)
Theorem cell_pca_succeeds_iff (X_train X_test : Matrix)
    (r : list PCA * PCA * Matrix * Matrix) :
  (cell_pca X_train X_test = Ok r ↔
   ∃ p5 p7 p9,
     pca_fit 5 X_train = Ok p5 ∧ pca_fit 7 X_train = Ok p7
     ∧ pca_fit 9 X_train = Ok p9
     ∧ accepted p5 X_test ∧ accepted p7 X_test ∧ accepted p9 X_test
     ∧ r = ([mkPCA 5 (Some p5) [X_train]; mkPCA 7 (Some p7) [X_train];
             mkPCA 9 (Some p9) [X_train]],
            mkPCA 7 (Some p7) [X_train],
            project p7 <$> X_train, project p7 <$> X_test))
  ∧ (∀ p5 p7 e,
       pca_fit 5 X_train = Ok p5 → pca_fit 7 X_train = Ok p7 →
       accepted p5 X_test → accepted p7 X_test →
       pca_fit 9 X_train = Raise e →
       cell_pca X_train X_test = Raise e)
  ∧ (∀ p5, pca_fit 5 X_train = Ok p5 → X_test = [] →
       ∃ msg, cell_pca X_train X_test = Raise (ValueError msg)).
Proof.
  assert (Htrial : ∀ n p, pca_fit n X_train = Ok p →
            accepted p X_test →
            Reduction.pca_trial pca_fit X_train X_test n
            = Ok (mkPCA n (Some p) [X_train], project p <$> X_train,
                  project p <$> X_test)).
  { intros n p Hp Hc. apply pca_trial_Ok_iff. by exists p. }
  split; [|split].
  - unfold cell_pca, Reduction.cell_pca. simpl. split.
    + intros H.
      destruct (Reduction.pca_trial pca_fit X_train X_test 5)
        as [[[o5 A5] B5]|] eqn:H5; simpl in H; [|done].
      destruct (Reduction.pca_trial pca_fit X_train X_test 7)
        as [[[o7 A7] B7]|] eqn:H7; simpl in H; [|done].
      destruct (Reduction.pca_trial pca_fit X_train X_test 9)
        as [[[o9 A9] B9]|] eqn:H9; simpl in H; [|done].
      injection H as <-.
      apply pca_trial_Ok_iff in H5 as (p5 & ? & ? & [= -> -> ->]).
      apply pca_trial_Ok_iff in H7 as (p7 & ? & ? & [= -> -> ->]).
      apply pca_trial_Ok_iff in H9 as (p9 & ? & ? & [= -> -> ->]).
      by exists p5, p7, p9.
    + intros (p5 & p7 & p9 & H5 & H7 & H9 & C5 & C7 & C9 & ->).
      rewrite (Htrial 5 p5 H5 C5). simpl.
      rewrite (Htrial 7 p7 H7 C7). simpl.
      by rewrite (Htrial 9 p9 H9 C9).
  - intros p5 p7 e H5 H7 C5 C7 H9.
    unfold cell_pca, Reduction.cell_pca. simpl.
    rewrite (Htrial 5 p5 H5 C5). simpl.
    rewrite (Htrial 7 p7 H7 C7). simpl.
    unfold Reduction.pca_trial at 1, fit_transform. simpl. by rewrite H9.
  - intros p5 H5 ->.
    assert (H : ∃ msg, Reduction.pca_trial pca_fit X_train [] 5
                       = Raise (ValueError msg)).
    { eexists. unfold Reduction.pca_trial, fit_transform. simpl.
      rewrite H5. reflexivity. }
    destruct H as [msg H]. exists msg.
    unfold cell_pca, Reduction.cell_pca. simpl. by rewrite H.
Qed.

Lemma relu_nonneg (x : Qc) : 0 ≤ relu x.
Proof. unfold relu. case_bool_decide; [by apply Qclt_le_weak|done]. Qed.

(** X15. The bottleneck layer ends in a rectifier, so every encoded
    feature that the encoder returns is non-negative, and every encoded
    row has one feature for each unit of the bottleneck that has both a
    weight vector and a bias. *)
Theorem encoded_features_are_nonnegative
    (ae ae' : Autoencoder) (X Y : Matrix) :
  encoder_predict ae X = Ok (ae', Y) →
  Forall (Forall (fun v => 0 ≤ v)) Y
  ∧ Forall (fun r => length r
                     = length (kernel (bottleneck (layers ae)))
                       `min` length (bias (bottleneck (layers ae)))) Y.
Proof.
  intros H. apply encoder_predict_Ok in H as [-> ->].
  split; apply Forall_fmap, Forall_true; intros x; unfold encode, dense; simpl.
  - apply Forall_fmap, Forall_true. intros v. apply relu_nonneg.
  - by rewrite length_fmap, length_zip_with, length_fmap.
Qed.

End ReductionMore.

(** Eight features are too few for the trial with nine axes; a test
    matrix with no row is refused by the first [transform]. *)
Lemma cell_pca_succeeds_iff_witness :
  Reduction.cell_pca Examples.axis_aligned_fit
    MoreExamples.X_train_12x8 MoreExamples.X_test_3x8
  = Raise (ValueError
             "n_components must be between 0 and min(n_samples, n_features)")
  ∧ ∃ msg, Reduction.cell_pca Examples.axis_aligned_fit
             Examples.X_train_12x9 []
           = Raise (ValueError msg).
Proof.
  split.
  - eapply (proj1 (proj2 (cell_pca_succeeds_iff Examples.axis_aligned_fit
                     MoreExamples.X_train_12x8 MoreExamples.X_test_3x8
                     ([], Reduction.PCA_new 0, [], []))));
      first [ vm_compute; reflexivity
            | split; [|split]; vm_compute; done ].
  - eapply (proj2 (proj2 (cell_pca_succeeds_iff Examples.axis_aligned_fit
                     Examples.X_train_12x9 []
                     ([], Reduction.PCA_new 0, [], []))));
      vm_compute; reflexivity.
Defined.

Lemma encoded_features_are_nonnegative_witness :
  Forall (Forall (fun v => (0 ≤ v)%Qc))
    (Reduction.encode MoreExamples.small_layers <$> Examples.toy_X_test)
  ∧ Forall (fun r => length r = 2 `min` 2)
      (Reduction.encode MoreExamples.small_layers <$> Examples.toy_X_test).
Proof.
  apply (encoded_features_are_nonnegative
           (Reduction.mkAE 1 MoreExamples.small_layers [])
           (Reduction.mkAE 1 MoreExamples.small_layers [])
           Examples.toy_X_test).
  reflexivity.
Defined.

(** ** Attribution tables and the inputs of the plots *)

Section TableProps.

Import Attribution Plots.

Local Open Scope Qc_scope.
Local Open Scope list_scope.

#[local] Instance by_score_desc_total' : Total by_score_desc.
Proof. intros a b. unfold by_score_desc. destruct (total Qcle a.2 b.2); auto. Qed.

#[local] Instance by_score_desc_trans' : Transitive by_score_desc.
Proof. intros a b c Hab Hbc. unfold by_score_desc in *. by etrans. Qed.

(** A matrix of [d] columns has [d] column sums. *)
Lemma column_sums_length (V : Matrix) (d : nat) :
  V ≠ [] → Forall (fun r => length r = d) V → length (column_sums V) = d.
Proof.
  intros Hne Hall. induction Hall as [|r V Hr HV IH]; [done|].
  destruct V as [|r' V]; [done|].
  change (column_sums (r :: r' :: V))
    with (zip_with Qcplus r (column_sums (r' :: V))).
  rewrite length_zip_with, Hr, IH by done. lia.
Qed.

Lemma mean_abs_shap_length (V : Matrix) (d : nat) :
  V ≠ [] → Forall (fun r => length r = d) V → length (mean_abs_shap V) = d.
Proof.
  intros Hne Hall. unfold mean_abs_shap, mean_axis0. rewrite length_fmap.
  apply column_sums_length.
  - unfold np_abs. by destruct V.
  - unfold np_abs. apply Forall_fmap. eapply Forall_impl; [exact Hall|].
    intros r Hr. simpl. by rewrite length_fmap.
Qed.

Lemma zip_fst_take {A B} (l : list A) (k : list B) :
  (zip l k).*1 = take (length k) l.
Proof.
  revert k. induction l as [|x l IH]; intros [|y k]; simpl; try done.
  by rewrite IH.
Qed.

(** X16. For an attribution matrix of [d] columns, the table of
    XGBoost ranks the first [d] feature names, each once, and the table
    of LightGBM lists them in the order of the columns; with as many
    attribution columns as features, every feature is in both tables,
    and with fewer the remaining features are left out without an
    error. *)
Theorem importance_tables_list_first_features
    (columns : list string) (V Vl : Matrix) (d : nat) :
  V ≠ [] → Vl ≠ [] →
  Forall (fun r => length r = d) V → Forall (fun r => length r = d) Vl →
  (feature_importance columns V).*1 ≡ₚ take d columns
  ∧ (feature_importance_lgb columns Vl).*1 = take d columns
  ∧ length (feature_importance columns V) = d `min` length columns
  ∧ (d = length columns →
     (feature_importance columns V).*1 ≡ₚ columns
     ∧ (feature_importance_lgb columns Vl).*1 = columns).
Proof.
  intros HV HVl Hd Hdl.
  assert (H1 : (feature_importance columns V).*1 ≡ₚ take d columns).
  { unfold feature_importance. rewrite merge_sort_Permutation.
    by rewrite zip_fst_take, (mean_abs_shap_length V d). }
  assert (H2 : (feature_importance_lgb columns Vl).*1 = take d columns).
  { unfold feature_importance_lgb.
    by rewrite zip_fst_take, (mean_abs_shap_length Vl d). }
  split; [done|]. split; [done|]. split.
  - rewrite <- (length_fmap fst), H1. apply length_take.
  - intros ->. rewrite H1, H2. by rewrite firstn_all.
Qed.

(** X17. The five top features are the first five rows of the table of
    XGBoost, or all of them when there are fewer; none of them has a
    smaller score than a feature that is left out. *)
Theorem top_features_outrank_the_rest (columns : list string) (V : Matrix) :
  let table := feature_importance columns V in
  top_features table = (take 5 table).*1
  ∧ length (top_features table) = 5 `min` length table
  ∧ ∀ a b, a ∈ take 5 table → b ∈ drop 5 table → b.2 ≤ a.2.
Proof.
  intros table. split; [done|]. split.
  - unfold top_features. by rewrite length_fmap, length_take.
  - intros a b Ha Hb.
    assert (Hs : StronglySorted by_score_desc (take 5 table ++ drop 5 table)).
    { rewrite take_drop. apply StronglySorted_merge_sort; apply _. }
    exact (StronglySorted_app_1_elem_of _ _ _ _ _ Hs Ha Hb).
Qed.

(** [index] finds the first position of a member. *)
Lemma py_index_member (xs : list string) (x : string) :
  x ∈ xs →
  ∃ i, py_index xs x = Ok i ∧ xs !! i = Some x
     ∧ ∀ j, (j < i)%nat → xs !! j ≠ Some x.
Proof.
  induction xs as [|y xs IH]; intros Hx; [by apply elem_of_nil in Hx|].
  simpl. case_bool_decide as Hy.
  - subst y. exists 0%nat. repeat split; try done. intros j Hj. lia.
  - apply elem_of_cons in Hx as [->|Hx]; [done|].
    destruct (IH Hx) as (i & -> & Hi & Hfirst). simpl.
    exists (S i). repeat split; try done.
    intros [|j] Hj; simpl; [congruence|]. apply Hfirst. lia.
Qed.

(** [index] raises ValueError for anything else. *)
Lemma py_index_absent (xs : list string) (x : string) :
  x ∉ xs → py_index xs x = Raise (ValueError ("'" +:+ x +:+ "' is not in list")).
Proof.
  induction xs as [|y xs IH]; intros Hx; [done|].
  apply not_elem_of_cons in Hx as [Hne Hx]. simpl.
  rewrite bool_decide_eq_false_2 by done. by rewrite IH.
Qed.

(** X18. The loop of the dependence plots never fails at the lookup of
    the column: every top feature is a column name, and the position
    handed to the plot is the first column of that name. *)
Theorem dependence_plots_find_their_columns (columns : list string) (V : Matrix) :
  ∃ indices,
    dependence_plot_indices columns
      (top_features (feature_importance columns V)) = Ok indices
    ∧ Forall2 (fun feature i =>
                 columns !! i = Some feature
                 ∧ ∀ j, (j < i)%nat → columns !! j ≠ Some feature)
        (top_features (feature_importance columns V)) indices.
Proof.
  assert (Hsub : ∀ f, f ∈ top_features (feature_importance columns V) →
                      f ∈ columns).
  { intros f Hf. unfold top_features in Hf.
    apply list_elem_of_fmap in Hf as ([f' s] & -> & Hin). simpl.
    apply elem_of_take in Hin as (i & Hin & _).
    apply list_elem_of_lookup_2 in Hin.
    unfold feature_importance in Hin. rewrite merge_sort_Permutation in Hin.
    by apply elem_of_zip_l in Hin. }
  induction (top_features (feature_importance columns V)) as [|f top IH]; simpl.
  - exists []. by split.
  - destruct (py_index_member columns f) as (i & -> & Hi & Hfirst).
    { apply Hsub. by left. }
    destruct IH as (rest & -> & Hall).
    { intros g Hg. apply Hsub. by right. }
    simpl. exists (i :: rest). split; [done|]. by constructor.
Qed.

(** X19. The loop of the force plots reads rows 0, 1 and 2 of the
    attribution values and of the sample.  With at least three rows in
    each it gets the first three rows of each, paired; with fewer it ends
    with an IndexError. *)
Theorem force_plots_need_three_rows (shap_values X_test_sample : Matrix) :
  ((3 ≤ length shap_values)%nat ∧ (3 ≤ length X_test_sample)%nat →
   force_plot_inputs shap_values X_test_sample
   = Ok (zip (take 3 shap_values) (take 3 X_test_sample)))
  ∧ ((length shap_values < 3)%nat ∨ (length X_test_sample < 3)%nat →
     ∃ msg, force_plot_inputs shap_values X_test_sample = Raise (IndexError msg)).
Proof.
  unfold force_plot_inputs.
  destruct shap_values as [|v0 [|v1 [|v2 vs]]];
    destruct X_test_sample as [|x0 [|x1 [|x2 xs]]];
    simpl; (split; [intros [? ?]; first [done|lia]
                   |intros [?|?]; first [by eexists|lia]]).
Qed.

End TableProps.

Section MergeProps.

Import Attribution.

Local Open Scope Qc_scope.
Local Open Scope list_scope.

Lemma filter_key_absent (R : list (string * Qc)) (k : string) :
  k ∉ R.*1 → filter (fun r => r.1 = k) R = [].
Proof.
  induction R as [|[k' y'] R IH]; intros Hk; [done|].
  simpl in Hk. apply not_elem_of_cons in Hk as [Hne Hk].
  rewrite filter_cons_False by (simpl; congruence). by apply IH.
Qed.

(** In a table without a repeated key, the rows of a key are the one
    row that has it. *)
Lemma filter_unique_key (R : list (string * Qc)) (k : string) (y : Qc) :
  NoDup R.*1 → (k, y) ∈ R → filter (fun r => r.1 = k) R = [(k, y)].
Proof.
  induction R as [|[k' y'] R IH]; intros Hnd Hin; [by apply elem_of_nil in Hin|].
  simpl in Hnd. apply NoDup_cons in Hnd as [Hk' Hnd].
  apply elem_of_cons in Hin as [[= <- <-]|Hin].
  - rewrite filter_cons_True by done. f_equal. by apply filter_key_absent.
  - rewrite filter_cons_False; [by apply IH|].
    simpl. intros ->. apply Hk'. apply list_elem_of_fmap. by exists (k, y).
Qed.

(** The join keeps the left table as it is, row for row, and gives each
    row the score the right table has for its feature. *)
Lemma merge_on_feature_left (L R : list (string * Qc)) :
  NoDup R.*1 → (∀ l, l ∈ L → l.1 ∈ R.*1) →
  (fun t => t.1) <$> merge_on_feature L R = L
  ∧ Forall (fun t => (t.1.1, t.2) ∈ R) (merge_on_feature L R).
Proof.
  intros Hnd. unfold merge_on_feature.
  induction L as [|[f x] L IH]; intros Hkeys; [by split|].
  rewrite bind_cons.
  destruct (IH (λ l Hl, Hkeys l (list_elem_of_further _ _ _ Hl))) as [IH1 IH2].
  assert (Hf : f ∈ R.*1) by (apply (Hkeys (f, x)); by left).
  apply list_elem_of_fmap in Hf as ([f' y] & Hff & Hin). simpl in Hff. subst f'.
  cbn [fst snd]. rewrite (filter_unique_key R f y Hnd Hin).
  rewrite fmap_app, Forall_app, IH1. split; [done|]. split; [|done].
  by repeat constructor.
Qed.

(** X20. When the feature names are distinct and both attribution
    matrices have [d] columns, the merged table has one row for each of
    the first [d] features: its feature and XGBoost score columns are
    the table of XGBoost, and the LightGBM score of each row is the one
    the table of LightGBM has for that feature. *)
Theorem merged_table_joins_scores_by_feature
    (columns : list string) (V Vl : Matrix) (d : nat) :
  NoDup columns →
  V ≠ [] → Vl ≠ [] →
  Forall (fun r => length r = d) V → Forall (fun r => length r = d) Vl →
  (fun t => t.1) <$> feature_importance_merged columns V Vl
  ≡ₚ feature_importance columns V
  ∧ Forall (fun t => (t.1.1, t.2) ∈ feature_importance_lgb columns Vl)
      (feature_importance_merged columns V Vl)
  ∧ NoDup ((fun t => t.1.1) <$> feature_importance_merged columns V Vl)
  ∧ length (feature_importance_merged columns V Vl) = d `min` length columns.
Proof.
  intros Hnd HV HVl Hd Hdl.
  assert (HR : (feature_importance_lgb columns Vl).*1 = take d columns).
  { unfold feature_importance_lgb.
    by rewrite zip_fst_take, (mean_abs_shap_length Vl d). }
  assert (HL : (feature_importance columns V).*1 ≡ₚ take d columns).
  { unfold feature_importance. rewrite merge_sort_Permutation.
    by rewrite zip_fst_take, (mean_abs_shap_length V d). }
  assert (Hndt : NoDup (take d columns))
    by exact (sublist_NoDup _ _ Hnd (sublist_take columns d)).
  destruct (merge_on_feature_left (feature_importance columns V)
              (feature_importance_lgb columns Vl)) as [Hleft Hright].
  { by rewrite HR. }
  { intros l Hl. rewrite HR, <- HL. apply list_elem_of_fmap. by exists l. }
  assert (Hperm : feature_importance_merged columns V Vl
                  ≡ₚ merge_on_feature (feature_importance columns V)
                       (feature_importance_lgb columns Vl))
    by apply merge_sort_Permutation.
  assert (H1 : (fun t : string * Qc * Qc => t.1)
                 <$> feature_importance_merged columns V Vl
               ≡ₚ feature_importance columns V)
    by (by rewrite Hperm, Hleft).
  split; [done|]. split; [by rewrite Hperm|]. split.
  - assert (Heq : (fun t : string * Qc * Qc => t.1.1)
                    <$> feature_importance_merged columns V Vl
                  = ((fun t : string * Qc * Qc => t.1)
                       <$> feature_importance_merged columns V Vl).*1)
      by (by rewrite <- list_fmap_compose).
    rewrite Heq, H1, HL. exact Hndt.
  - rewrite <- (length_fmap (fun t : string * Qc * Qc => t.1)), H1.
    rewrite <- (length_fmap fst), HL. apply length_take.
Qed.

End MergeProps.

Lemma importance_tables_list_first_features_witness :
  (Attribution.feature_importance Examples.two_features Examples.xgb_shap).*1
  ≡ₚ Examples.two_features
  ∧ (Attribution.feature_importance_lgb Examples.two_features
       Examples.lgb_shap).*1 = Examples.two_features.
Proof.
  apply (importance_tables_list_first_features Examples.two_features
           Examples.xgb_shap Examples.lgb_shap 2); try discriminate.
  - repeat constructor.
  - repeat constructor.
  - reflexivity.
Defined.

Lemma force_plots_need_three_rows_witness :
  ∃ msg, Plots.force_plot_inputs Examples.xgb_shap Examples.xgb_shap
         = Raise (IndexError msg).
Proof.
  apply (proj2 (force_plots_need_three_rows Examples.xgb_shap Examples.xgb_shap)).
  left. simpl. lia.
Defined.

Lemma merged_table_joins_scores_by_feature_witness :
  (fun t => t.1) <$> Attribution.feature_importance_merged
                       Examples.two_features Examples.xgb_shap Examples.lgb_shap
  ≡ₚ Attribution.feature_importance Examples.two_features Examples.xgb_shap
  ∧ Forall (fun t => (t.1.1, t.2)
                     ∈ Attribution.feature_importance_lgb Examples.two_features
                         Examples.lgb_shap)
      (Attribution.feature_importance_merged
         Examples.two_features Examples.xgb_shap Examples.lgb_shap)
  ∧ NoDup ((fun t => t.1.1)
             <$> Attribution.feature_importance_merged
                   Examples.two_features Examples.xgb_shap Examples.lgb_shap)
  ∧ length (Attribution.feature_importance_merged
              Examples.two_features Examples.xgb_shap Examples.lgb_shap)
    = 2 `min` length Examples.two_features.
Proof.
  apply (merged_table_joins_scores_by_feature Examples.two_features
           Examples.xgb_shap Examples.lgb_shap 2); try discriminate.
  - apply (bool_decide_unpack _). by vm_compute.
  - repeat constructor.
  - repeat constructor.
Defined.

(** A feature name that occurs twice is joined with both of its rows of
    the other table: two columns of one name give four merged rows. *)
Example repeated_feature_name_multiplies_rows :
  length (Attribution.feature_importance_merged ["bmi"; "bmi"]
            Examples.xgb_shap Examples.lgb_shap) = 4%nat.
Proof. reflexivity. Qed.
